(* ===== verification/_CoqProject ===== *)
-Q . S2P
Prelude.v
UnicodeTables.v
PyStr.v
Grammar.v
Pdf.v
Layout.v
Json.v
ExportRoute.v
Templates.v
Handlers.v
Store.v
