(* ===== verification/Prelude.v ===== *)
(** * A verification library for facilescrivere (src/facilescrivere/app.py)

    The repository is a small Flask backend for Italian writing
    assistance.  Its one source file, [src/facilescrivere/app.py], holds
    - the [GrammarChecker] class (lines 24-83): two Python dicts,
      [corrections] and [formal_suggestions], filled in [__init__], and
      [check_text], which lower-cases the text, splits it on whitespace,
      strips every character that is neither a word character nor an
      apostrophe from each word, and emits a [spelling] and then a
      [formality] suggestion for every word found in the tables;
    - the PDF export handler [export_pdf] (lines 284-336), which draws a
      title and then the content line by line on a reportlab canvas,
      greedily wrapping lines longer than 80 characters and starting a
      new page when the vertical position is below 50 before an input
      line;
    - HTTP handlers around them ([check_grammar], [get_template],
      [save_document], [user_dictionary]) over a directory of JSON files,
      and the static [DOCUMENT_TEMPLATES] catalogue.
    The grammar checker and the PDF layout do not interact; the handlers
    call them.

    ** Files of the development

    - [Prelude] (this file): the notation [⟪"..."⟫] for Python string
      literals as lists of Unicode code points, [join] (Python's
      [str.join]), the hint databases [pylist] (resolution) and [pyrw] (rewriting) and the list lemmas the
      components share.
    - [UnicodeTables]: CPython 3.11's Unicode tables (Unicode 14.0.0)
      as sorted range lists, generated from [unicodedata]: white space,
      word characters, the lower-case mappings, and the case-ignorable
      and cased properties of the final-sigma rule.
    - [PyStr]: the Python string built-ins the code calls
      ([str.lower], [str.split()], [str.split(sep)], [str.strip()],
      [re.sub(r"[^\w']", "", w)]) written as CPython implements them:
      [str.lower] with full mappings (U+0130 lowers to two code points)
      and the final-sigma rule of [handle_capital_sigma] ([lower_from],
      [lower_char], [cased_next]).  They are stated against the class
      [UnicodeDB] of the tables they consult, with the laws the proofs
      need (white space lowers to itself and cuts the final-sigma
      context, nothing else lowers to white space); the instance
      [cpython_db] is built on [UnicodeTables] and its laws are checked
      by computation, so the model is exact for CPython 3.11.  Lemmas:
      lowering commutes with [str.split()] (white space cuts the
      final-sigma context), round trips of [str.split(sep)] with
      [str.join], the shape of [str.split()] and [str.strip()].
    - [Grammar]: Module [GrammarChecker] (C1-C8): the record of the two tables
      (Python dicts as stdpp [gmap]s built the way a dict literal is,
      later keys winning), [Suggestion], [check_word] (one loop
      iteration) and [check_text].  Theorems: the complete functional
      characterisation of the output (membership), the bound of two
      suggestions per word, the ordering by position with spelling
      before formality, the empty input, that a word made only of
      punctuation never matches, refinement of the spec's contract
      (tokenise the raw text, then normalise) up to the lower-casing of
      the [original] field, and for the concrete tables of [__init__]
      that no spelling suggestion is ever emitted and that the
      two-word formality keys never fire.
    - [Pdf]: Module [ExportPdf]: canvas operations as an inductive type
      (the reportlab calls [setFont], [drawString], [showPage], [save]),
      the handler's two variables [y_position] and the canvas as the
      record [PdfState], the wrap loop's [current_line] as [WrapState],
      [wrap_step] (one word), [wrap_line] (one long line),
      [new_page_if_needed], [process_line] (one input line) and
      [export_pdf_ops], the whole call sequence the handler makes.
      [wrap_texts] computes the wrap loop's texts alone ([wrap_line] draws
      exactly them at consecutive offsets), and [layout] reads the spec's
      LayoutLine records (text, page, offset) off a call sequence.
      Theorems (C9-C16): round trip of wrapping (no word lost or
      duplicated), the width bound of wrapped lines, the page-check
      invariant (offset in [50, 750] before every input line), every
      offset inside the margins when no line needs wrapping, at most one
      page per input line, and the runs the spec describes otherwise
      (empty content, a 200-character word, lines drawn off the page).
    - [Layout]: Module [PageLayout]: the spec's pagination contract
      (spec.md 4.2, 9) as a machine over the page cursor [Cursor]
      ([OnPage(page, y)]) with its transition [advance_if_needed] and
      [emit], one input line as [layout_line], the whole layout as
      [spec_layout]; the simulation [simulates] between the handler's
      [PdfState] and the machine, proved step by step ([draw],
      [new_page_if_needed], [process_line]) and composed over the loop.
      Theorems (C29-C33, C40): the handler's calls refine the machine
      (the same LayoutLines and page count), the page count is the
      highest page of a drawn line, every line is one pitch below its
      predecessor or at the top of the next page, no line is more than
      [15 * (k - 1)] below the bottom margin for [k] the most texts one
      input line wraps into, and the spec's option (b), a page
      check before every drawn line ([process_line_strict]), keeps every
      line of every document inside the margins and draws the same texts.
    - [Json]: Module [Json]: the Flask boundary the routes use: JSON
      values, Python truthiness, [data.get(key, default)] on a request
      object (the last duplicate field wins, as in [json.loads]), a
      route's [Outcome] (a response, or a Python exception that Flask
      turns into a 500), and lookups in lists of pairs with distinct keys.
    - [ExportRoute]: Module [ExportRoute]: the [export_pdf] route around
      the canvas calls: the [title] and [content] fields with their
      defaults, the title drawn first, the AttributeError of
      [content.split('\n')] on a value that is not a string, and the
      [send_file] answer [FileResponse] (attachment, [f"{title}.pdf"]
      through Python's [str] of the value, [py_str]).  What reportlab
      draws for a title that is not a string, and Python's [repr] of a
      list or dict, are the class [PdfRuntime], with the law that a
      string is drawn as it is; the theorems hold for every instance.
      Theorems (C34-C35): a string title and content are answered by the
      attachment whose pages are the spec's layout, and a content that is
      not a string raises.
    - [Templates]: Module [Templates]: the six entries of
      [DOCUMENT_TEMPLATES] transcribed code point by code point, and the
      routes [get_templates] and [get_template].  Theorems (C17-C20): the
      entry of every id is served, 404 exactly for unknown ids, both
      routes agree, and every template is left alone by the grammar
      checker and prints on one page inside the margins (the two
      engines applied to the catalogue).
    - [Handlers]: Module [Handlers]: the [check_grammar] route.
      Theorems (C21-C23): 400 exactly for a missing or falsy [text], at
      most two suggestions per counted word in a successful answer, and
      an AttributeError (500) for a truthy [text] that is no string.

    - [Store]: Module [Store]: the directory [user_documents] as the
      record [Store] (documents by file name in a [gmap]; the contents of
      [user_dictionary.json], absent or the dict of lists this code
      writes), clock readings as inputs with [strftime_id] and
      [isoformat], Python's [==] on JSON values ([py_eq]: [True == 1],
      dicts as maps) for [entry not in ...], the routes [save_document],
      [dictionary_get] and [dictionary_post], one request as [handle] and
      the states of any run of requests from an empty directory as the
      inductive [reachable].  Theorems (C24-C28, C36-C39): no list of the
      dictionary ever holds two equal entries (rule induction on
      [reachable]), an unknown list name raises KeyError and changes
      nothing, POST is idempotent, two saves in the same second overwrite
      each other, the id determines the second; GET always answers the
      two lists "words" and "phrases" of truthy entries, a successful
      POST answers what the next GET answers, an entry once added stays
      whatever requests follow, and every saved file is named after its
      document's [id] with counts that match its content.

    ** How the parts compose
    [Templates] runs the grammar checker and the pagination on the
    catalogue (C20); [Handlers] and [ExportRoute] put the checker and the
    pagination behind their routes, and C34 composes the route, the
    canvas calls and the refinement of [Layout]; [Store] runs the three
    store routes as one request type over the same state.

    ** Plan for the next sittings
    - The page count of the strict variant compared with the handler's,
      and the strict variant as a refinement of a per-line machine.
    - [save_document] composed with the dictionary routes: what a run of
      saves leaves in the directory (one file per distinct second).

    ** Not modelled
    Flask routing, CORS and configuration (lines 1-22, 221-224, 379-380),
    the [index] page (an HTML template outside src/), reportlab's
    drawing of glyphs and its handling of a title that is not a string
    (only the calls the handler makes are modelled; the latter is the
    class [PdfRuntime]), the PDF bytes in the [BytesIO] buffer (the
    [FileResponse] carries the calls that drew them),
    JSON serialisation and file I/O (the directory is the [Store]
    record; a dictionary file written by another program, and JSON
    numbers that are not integers, are outside the model).

    ** Bounds and fuel
    Every function is structurally recursive; no fuel is needed.  Code
    points are [N]; the vertical offset is a Python int, modelled as [Z]
    without bound; string lengths are [nat].  Clock readings are [nat]
    fields; [strftime_id] pads the year to four digits, which agrees with
    CPython for the years 1000-9999 ([valid_time] bounds them).  The
    Unicode tables are those of CPython 3.11; another CPython version
    is another instance of [UnicodeDB], and every theorem but those
    stated for [cpython_db] (C7, C8, C20 and the witnesses) holds for
    it unchanged. *)

From stdpp Require Export base list decidable.
From Stdlib Require Export NArith ZArith Lia.
From Stdlib Require Import String Ascii.
From Stdlib Require Export (notations) String.

Declare Scope py_scope.
Delimit Scope py_scope with py.

(** A Python [str] is a sequence of Unicode code points. *)
Abbreviation pystr := (list N).

(** An ASCII literal of the source as a Python string. *)
Definition lit (s : string) : pystr := map N_of_ascii (list_ascii_of_string s).

Notation "⟪ s ⟫" := (lit s%string) (format "⟪ s ⟫") : py_scope.

(** [sep.join(l)] *)
Fixpoint join {A} (sep : list A) (l : list (list A)) : list A :=
  match l with
  | [] => []
  | [x] => x
  | x :: xs => x ++ sep ++ join sep xs
  end.

Create HintDb pylist discriminated.
Create Rewrite HintDb pyrw.

Ltac destruct_ifs :=
  repeat match goal with
         | |- context [if ?b then _ else _] => destruct b eqn:?
         end.

(** Split every conjunction and disjunction among the hypotheses. *)
Ltac destruct_hyps :=
  repeat match goal with
         | H : _ /\ _ |- _ => destruct H
         | H : _ \/ _ |- _ => destruct H
         | H : False |- _ => destruct H
         end.

Section join_lemmas.
Context {A : Type}.

Lemma join_cons_cons (sep x y : list A) (l : list (list A)) :
join sep (x :: y :: l) = x ++ sep ++ join sep (y :: l).
Proof. reflexivity. Qed.

Lemma join_cons (sep x : list A) (l : list (list A)) :
l <> [] -> join sep (x :: l) = x ++ sep ++ join sep l.
Proof. by destruct l. Qed.

Lemma join_app_single (sep : list A) (l : list (list A)) (x : list A) :
l <> [] -> join sep (l ++ [x]) = join sep l ++ sep ++ x.
Proof.
induction l as [|a l IH]; intros Hne; [done|].
destruct l as [|b l]; [done|].
rewrite <-app_comm_cons, !join_cons, IH by (try destruct l; done).
by rewrite !app_assoc.
Qed.
End join_lemmas.

#[export] Hint Rewrite @join_cons_cons : pyrw.
#[export] Hint Rewrite @length_app @length_map @length_rev : pyrw.

(** ** Lemmas on [List.filter] and sortedness shared by the components *)

From Stdlib Require Export Sorting.Sorted.

Section list_lemmas.
Context {A : Type}.
Implicit Types (l : list A) (f : A -> bool).

Lemma lfilter_all f l : Forall (fun x => f x = true) l -> List.filter f l = l.
Proof. induction 1 as [|x l Hx _ IH]; simpl; [done|]. by rewrite Hx, IH. Qed.

Lemma lfilter_none f l : Forall (fun x => f x = false) l -> List.filter f l = [].
Proof. induction 1 as [|x l Hx _ IH]; simpl; [done|]. by rewrite Hx, IH. Qed.

Lemma StronglySorted_app (R : A -> A -> Prop) l1 l2 :
StronglySorted R l1 -> StronglySorted R l2 ->
(forall x y, In x l1 -> In y l2 -> R x y) ->
StronglySorted R (l1 ++ l2).
Proof.
induction 1 as [|x l1 _ IH Hx]; intros H2 Hxy; simpl; [done|].
constructor.
- apply IH; [done|]. intros a b Ha Hb. apply Hxy; [right|]; done.
- apply Forall_app. split; [done|].
  apply Forall_forall. intros y Hy. apply Hxy; [left|]; done.
Qed.
(** Adding an element behind the last one keeps a list locally sorted. *)
Lemma Sorted_snoc (R : A -> A -> Prop) l x :
  Sorted R l -> (forall y, list.last l = Some y -> R y x) -> Sorted R (l ++ [x]).
Proof.
  induction 1 as [|a l Hl IH Hhd]; intros Hlast; simpl; [by repeat constructor|].
  constructor.
  - apply IH. intros y Hy. apply Hlast. by rewrite last_cons, Hy.
  - destruct l as [|b l]; simpl; constructor; [by apply Hlast|]. by inversion Hhd.
Qed.

Lemma find_app_None f l1 l2 :
  List.find f l1 = None -> List.find f (l1 ++ l2) = List.find f l2.
Proof. induction l1 as [|x l1 IH]; simpl; [done|]. by destruct (f x). Qed.

Lemma find_None_existsb f l : existsb f l = false -> List.find f l = None.
Proof.
  induction l as [|x l IH]; simpl; [done|].
  by destruct (f x); [|intros; apply IH].
Qed.

Lemma existsb_rev f l : existsb f (rev l) = existsb f l.
Proof.
  induction l as [|x l IH]; simpl; [done|].
  rewrite existsb_app, IH. simpl. by destruct (f x), (existsb f l).
Qed.
End list_lemmas.

Lemma in_list_max n (l : list nat) : In n l -> n <= list_max l.
Proof.
  induction l as [|k l IH]; simpl; [done|].
  intros [->|Hn]; [lia|]. specialize (IH Hn). lia.
Qed.

#[export] Hint Resolve lfilter_all lfilter_none StronglySorted_app : pylist.
