(* ===== verification/UnicodeTables.v ===== *)
(** * CPython's Unicode tables (Unicode 14.0.0, CPython 3.11)

    The four tables of CPython's Unicode database that [str.lower()],
    [str.split()], [str.strip()] and the [\w] class of the [re] module
    consult, as sorted lists of closed ranges of code points, extracted
    from [unicodedata] of CPython 3.11 (Unicode 14.0.0): white
    space, word characters ([str.isalnum()] or the underscore), the
    one-to-one lower-case mappings as runs [(lo, hi, step, delta)]
    (every [step]-th code point from [lo] to [hi] maps to itself plus
    [delta]), and the two properties of the final-sigma rule of
    [str.lower()], case-ignorable and cased.  The cased table lists the
    cased characters that are not case-ignorable, the only ones CPython
    consults it on.  [PyStr] builds the instance [cpython_db] on them. *)

From Stdlib Require Import NArith ZArith List.
Import ListNotations.

(** Every code point for which [str.isspace()] holds. *)
Definition space_points : list N :=
  [0x9; 0xA; 0xB; 0xC; 0xD; 0x1C; 0x1D; 0x1E; 0x1F; 0x20; 0x85; 0xA0; 0x1680; 0x2000; 0x2001; 0x2002; 0x2003; 0x2004; 0x2005; 0x2006; 0x2007; 0x2008; 0x2009; 0x200A; 0x2028; 0x2029; 0x202F; 0x205F; 0x3000]%N.

(** The code points [\w] matches: [str.isalnum()], and the underscore. *)
Definition word_ranges : list (N * N) := [
  (0x30, 0x39);
  (0x41, 0x5A);
  (0x5F, 0x5F);
  (0x61, 0x7A);
  (0xAA, 0xAA);
  (0xB2, 0xB3);
  (0xB5, 0xB5);
  (0xB9, 0xBA);
  (0xBC, 0xBE);
  (0xC0, 0xD6);
  (0xD8, 0xF6);
  (0xF8, 0x2C1);
  (0x2C6, 0x2D1);
  (0x2E0, 0x2E4);
  (0x2EC, 0x2EC);
  (0x2EE, 0x2EE);
  (0x370, 0x374);
  (0x376, 0x377);
  (0x37A, 0x37D);
  (0x37F, 0x37F);
  (0x386, 0x386);
  (0x388, 0x38A);
  (0x38C, 0x38C);
  (0x38E, 0x3A1);
  (0x3A3, 0x3F5);
  (0x3F7, 0x481);
  (0x48A, 0x52F);
  (0x531, 0x556);
  (0x559, 0x559);
  (0x560, 0x588);
  (0x5D0, 0x5EA);
  (0x5EF, 0x5F2);
  (0x620, 0x64A);
  (0x660, 0x669);
  (0x66E, 0x66F);
  (0x671, 0x6D3);
  (0x6D5, 0x6D5);
  (0x6E5, 0x6E6);
  (0x6EE, 0x6FC);
  (0x6FF, 0x6FF);
  (0x710, 0x710);
  (0x712, 0x72F);
  (0x74D, 0x7A5);
  (0x7B1, 0x7B1);
  (0x7C0, 0x7EA);
  (0x7F4, 0x7F5);
  (0x7FA, 0x7FA);
  (0x800, 0x815);
  (0x81A, 0x81A);
  (0x824, 0x824);
  (0x828, 0x828);
  (0x840, 0x858);
  (0x860, 0x86A);
  (0x870, 0x887);
  (0x889, 0x88E);
  (0x8A0, 0x8C9);
  (0x904, 0x939);
  (0x93D, 0x93D);
  (0x950, 0x950);
  (0x958, 0x961);
  (0x966, 0x96F);
  (0x971, 0x980);
  (0x985, 0x98C);
  (0x98F, 0x990);
  (0x993, 0x9A8);
  (0x9AA, 0x9B0);
  (0x9B2, 0x9B2);
  (0x9B6, 0x9B9);
  (0x9BD, 0x9BD);
  (0x9CE, 0x9CE);
  (0x9DC, 0x9DD);
  (0x9DF, 0x9E1);
  (0x9E6, 0x9F1);
  (0x9F4, 0x9F9);
  (0x9FC, 0x9FC);
  (0xA05, 0xA0A);
  (0xA0F, 0xA10);
  (0xA13, 0xA28);
  (0xA2A, 0xA30);
  (0xA32, 0xA33);
  (0xA35, 0xA36);
  (0xA38, 0xA39);
  (0xA59, 0xA5C);
  (0xA5E, 0xA5E);
  (0xA66, 0xA6F);
  (0xA72, 0xA74);
  (0xA85, 0xA8D);
  (0xA8F, 0xA91);
  (0xA93, 0xAA8);
  (0xAAA, 0xAB0);
  (0xAB2, 0xAB3);
  (0xAB5, 0xAB9);
  (0xABD, 0xABD);
  (0xAD0, 0xAD0);
  (0xAE0, 0xAE1);
  (0xAE6, 0xAEF);
  (0xAF9, 0xAF9);
  (0xB05, 0xB0C);
  (0xB0F, 0xB10);
  (0xB13, 0xB28);
  (0xB2A, 0xB30);
  (0xB32, 0xB33);
  (0xB35, 0xB39);
  (0xB3D, 0xB3D);
  (0xB5C, 0xB5D);
  (0xB5F, 0xB61);
  (0xB66, 0xB6F);
  (0xB71, 0xB77);
  (0xB83, 0xB83);
  (0xB85, 0xB8A);
  (0xB8E, 0xB90);
  (0xB92, 0xB95);
  (0xB99, 0xB9A);
  (0xB9C, 0xB9C);
  (0xB9E, 0xB9F);
  (0xBA3, 0xBA4);
  (0xBA8, 0xBAA);
  (0xBAE, 0xBB9);
  (0xBD0, 0xBD0);
  (0xBE6, 0xBF2);
  (0xC05, 0xC0C);
  (0xC0E, 0xC10);
  (0xC12, 0xC28);
  (0xC2A, 0xC39);
  (0xC3D, 0xC3D);
  (0xC58, 0xC5A);
  (0xC5D, 0xC5D);
  (0xC60, 0xC61);
  (0xC66, 0xC6F);
  (0xC78, 0xC7E);
  (0xC80, 0xC80);
  (0xC85, 0xC8C);
  (0xC8E, 0xC90);
  (0xC92, 0xCA8);
  (0xCAA, 0xCB3);
  (0xCB5, 0xCB9);
  (0xCBD, 0xCBD);
  (0xCDD, 0xCDE);
  (0xCE0, 0xCE1);
  (0xCE6, 0xCEF);
  (0xCF1, 0xCF2);
  (0xD04, 0xD0C);
  (0xD0E, 0xD10);
  (0xD12, 0xD3A);
  (0xD3D, 0xD3D);
  (0xD4E, 0xD4E);
  (0xD54, 0xD56);
  (0xD58, 0xD61);
  (0xD66, 0xD78);
  (0xD7A, 0xD7F);
  (0xD85, 0xD96);
  (0xD9A, 0xDB1);
  (0xDB3, 0xDBB);
  (0xDBD, 0xDBD);
  (0xDC0, 0xDC6);
  (0xDE6, 0xDEF);
  (0xE01, 0xE30);
  (0xE32, 0xE33);
  (0xE40, 0xE46);
  (0xE50, 0xE59);
  (0xE81, 0xE82);
  (0xE84, 0xE84);
  (0xE86, 0xE8A);
  (0xE8C, 0xEA3);
  (0xEA5, 0xEA5);
  (0xEA7, 0xEB0);
  (0xEB2, 0xEB3);
  (0xEBD, 0xEBD);
  (0xEC0, 0xEC4);
  (0xEC6, 0xEC6);
  (0xED0, 0xED9);
  (0xEDC, 0xEDF);
  (0xF00, 0xF00);
  (0xF20, 0xF33);
  (0xF40, 0xF47);
  (0xF49, 0xF6C);
  (0xF88, 0xF8C);
  (0x1000, 0x102A);
  (0x103F, 0x1049);
  (0x1050, 0x1055);
  (0x105A, 0x105D);
  (0x1061, 0x1061);
  (0x1065, 0x1066);
  (0x106E, 0x1070);
  (0x1075, 0x1081);
  (0x108E, 0x108E);
  (0x1090, 0x1099);
  (0x10A0, 0x10C5);
  (0x10C7, 0x10C7);
  (0x10CD, 0x10CD);
  (0x10D0, 0x10FA);
  (0x10FC, 0x1248);
  (0x124A, 0x124D);
  (0x1250, 0x1256);
  (0x1258, 0x1258);
  (0x125A, 0x125D);
  (0x1260, 0x1288);
  (0x128A, 0x128D);
  (0x1290, 0x12B0);
  (0x12B2, 0x12B5);
  (0x12B8, 0x12BE);
  (0x12C0, 0x12C0);
  (0x12C2, 0x12C5);
  (0x12C8, 0x12D6);
  (0x12D8, 0x1310);
  (0x1312, 0x1315);
  (0x1318, 0x135A);
  (0x1369, 0x137C);
  (0x1380, 0x138F);
  (0x13A0, 0x13F5);
  (0x13F8, 0x13FD);
  (0x1401, 0x166C);
  (0x166F, 0x167F);
  (0x1681, 0x169A);
  (0x16A0, 0x16EA);
  (0x16EE, 0x16F8);
  (0x1700, 0x1711);
  (0x171F, 0x1731);
  (0x1740, 0x1751);
  (0x1760, 0x176C);
  (0x176E, 0x1770);
  (0x1780, 0x17B3);
  (0x17D7, 0x17D7);
  (0x17DC, 0x17DC);
  (0x17E0, 0x17E9);
  (0x17F0, 0x17F9);
  (0x1810, 0x1819);
  (0x1820, 0x1878);
  (0x1880, 0x1884);
  (0x1887, 0x18A8);
  (0x18AA, 0x18AA);
  (0x18B0, 0x18F5);
  (0x1900, 0x191E);
  (0x1946, 0x196D);
  (0x1970, 0x1974);
  (0x1980, 0x19AB);
  (0x19B0, 0x19C9);
  (0x19D0, 0x19DA);
  (0x1A00, 0x1A16);
  (0x1A20, 0x1A54);
  (0x1A80, 0x1A89);
  (0x1A90, 0x1A99);
  (0x1AA7, 0x1AA7);
  (0x1B05, 0x1B33);
  (0x1B45, 0x1B4C);
  (0x1B50, 0x1B59);
  (0x1B83, 0x1BA0);
  (0x1BAE, 0x1BE5);
  (0x1C00, 0x1C23);
  (0x1C40, 0x1C49);
  (0x1C4D, 0x1C7D);
  (0x1C80, 0x1C88);
  (0x1C90, 0x1CBA);
  (0x1CBD, 0x1CBF);
  (0x1CE9, 0x1CEC);
  (0x1CEE, 0x1CF3);
  (0x1CF5, 0x1CF6);
  (0x1CFA, 0x1CFA);
  (0x1D00, 0x1DBF);
  (0x1E00, 0x1F15);
  (0x1F18, 0x1F1D);
  (0x1F20, 0x1F45);
  (0x1F48, 0x1F4D);
  (0x1F50, 0x1F57);
  (0x1F59, 0x1F59);
  (0x1F5B, 0x1F5B);
  (0x1F5D, 0x1F5D);
  (0x1F5F, 0x1F7D);
  (0x1F80, 0x1FB4);
  (0x1FB6, 0x1FBC);
  (0x1FBE, 0x1FBE);
  (0x1FC2, 0x1FC4);
  (0x1FC6, 0x1FCC);
  (0x1FD0, 0x1FD3);
  (0x1FD6, 0x1FDB);
  (0x1FE0, 0x1FEC);
  (0x1FF2, 0x1FF4);
  (0x1FF6, 0x1FFC);
  (0x2070, 0x2071);
  (0x2074, 0x2079);
  (0x207F, 0x2089);
  (0x2090, 0x209C);
  (0x2102, 0x2102);
  (0x2107, 0x2107);
  (0x210A, 0x2113);
  (0x2115, 0x2115);
  (0x2119, 0x211D);
  (0x2124, 0x2124);
  (0x2126, 0x2126);
  (0x2128, 0x2128);
  (0x212A, 0x212D);
  (0x212F, 0x2139);
  (0x213C, 0x213F);
  (0x2145, 0x2149);
  (0x214E, 0x214E);
  (0x2150, 0x2189);
  (0x2460, 0x249B);
  (0x24EA, 0x24FF);
  (0x2776, 0x2793);
  (0x2C00, 0x2CE4);
  (0x2CEB, 0x2CEE);
  (0x2CF2, 0x2CF3);
  (0x2CFD, 0x2CFD);
  (0x2D00, 0x2D25);
  (0x2D27, 0x2D27);
  (0x2D2D, 0x2D2D);
  (0x2D30, 0x2D67);
  (0x2D6F, 0x2D6F);
  (0x2D80, 0x2D96);
  (0x2DA0, 0x2DA6);
  (0x2DA8, 0x2DAE);
  (0x2DB0, 0x2DB6);
  (0x2DB8, 0x2DBE);
  (0x2DC0, 0x2DC6);
  (0x2DC8, 0x2DCE);
  (0x2DD0, 0x2DD6);
  (0x2DD8, 0x2DDE);
  (0x2E2F, 0x2E2F);
  (0x3005, 0x3007);
  (0x3021, 0x3029);
  (0x3031, 0x3035);
  (0x3038, 0x303C);
  (0x3041, 0x3096);
  (0x309D, 0x309F);
  (0x30A1, 0x30FA);
  (0x30FC, 0x30FF);
  (0x3105, 0x312F);
  (0x3131, 0x318E);
  (0x3192, 0x3195);
  (0x31A0, 0x31BF);
  (0x31F0, 0x31FF);
  (0x3220, 0x3229);
  (0x3248, 0x324F);
  (0x3251, 0x325F);
  (0x3280, 0x3289);
  (0x32B1, 0x32BF);
  (0x3400, 0x4DBF);
  (0x4E00, 0xA48C);
  (0xA4D0, 0xA4FD);
  (0xA500, 0xA60C);
  (0xA610, 0xA62B);
  (0xA640, 0xA66E);
  (0xA67F, 0xA69D);
  (0xA6A0, 0xA6EF);
  (0xA717, 0xA71F);
  (0xA722, 0xA788);
  (0xA78B, 0xA7CA);
  (0xA7D0, 0xA7D1);
  (0xA7D3, 0xA7D3);
  (0xA7D5, 0xA7D9);
  (0xA7F2, 0xA801);
  (0xA803, 0xA805);
  (0xA807, 0xA80A);
  (0xA80C, 0xA822);
  (0xA830, 0xA835);
  (0xA840, 0xA873);
  (0xA882, 0xA8B3);
  (0xA8D0, 0xA8D9);
  (0xA8F2, 0xA8F7);
  (0xA8FB, 0xA8FB);
  (0xA8FD, 0xA8FE);
  (0xA900, 0xA925);
  (0xA930, 0xA946);
  (0xA960, 0xA97C);
  (0xA984, 0xA9B2);
  (0xA9CF, 0xA9D9);
  (0xA9E0, 0xA9E4);
  (0xA9E6, 0xA9FE);
  (0xAA00, 0xAA28);
  (0xAA40, 0xAA42);
  (0xAA44, 0xAA4B);
  (0xAA50, 0xAA59);
  (0xAA60, 0xAA76);
  (0xAA7A, 0xAA7A);
  (0xAA7E, 0xAAAF);
  (0xAAB1, 0xAAB1);
  (0xAAB5, 0xAAB6);
  (0xAAB9, 0xAABD);
  (0xAAC0, 0xAAC0);
  (0xAAC2, 0xAAC2);
  (0xAADB, 0xAADD);
  (0xAAE0, 0xAAEA);
  (0xAAF2, 0xAAF4);
  (0xAB01, 0xAB06);
  (0xAB09, 0xAB0E);
  (0xAB11, 0xAB16);
  (0xAB20, 0xAB26);
  (0xAB28, 0xAB2E);
  (0xAB30, 0xAB5A);
  (0xAB5C, 0xAB69);
  (0xAB70, 0xABE2);
  (0xABF0, 0xABF9);
  (0xAC00, 0xD7A3);
  (0xD7B0, 0xD7C6);
  (0xD7CB, 0xD7FB);
  (0xF900, 0xFA6D);
  (0xFA70, 0xFAD9);
  (0xFB00, 0xFB06);
  (0xFB13, 0xFB17);
  (0xFB1D, 0xFB1D);
  (0xFB1F, 0xFB28);
  (0xFB2A, 0xFB36);
  (0xFB38, 0xFB3C);
  (0xFB3E, 0xFB3E);
  (0xFB40, 0xFB41);
  (0xFB43, 0xFB44);
  (0xFB46, 0xFBB1);
  (0xFBD3, 0xFD3D);
  (0xFD50, 0xFD8F);
  (0xFD92, 0xFDC7);
  (0xFDF0, 0xFDFB);
  (0xFE70, 0xFE74);
  (0xFE76, 0xFEFC);
  (0xFF10, 0xFF19);
  (0xFF21, 0xFF3A);
  (0xFF41, 0xFF5A);
  (0xFF66, 0xFFBE);
  (0xFFC2, 0xFFC7);
  (0xFFCA, 0xFFCF);
  (0xFFD2, 0xFFD7);
  (0xFFDA, 0xFFDC);
  (0x10000, 0x1000B);
  (0x1000D, 0x10026);
  (0x10028, 0x1003A);
  (0x1003C, 0x1003D);
  (0x1003F, 0x1004D);
  (0x10050, 0x1005D);
  (0x10080, 0x100FA);
  (0x10107, 0x10133);
  (0x10140, 0x10178);
  (0x1018A, 0x1018B);
  (0x10280, 0x1029C);
  (0x102A0, 0x102D0);
  (0x102E1, 0x102FB);
  (0x10300, 0x10323);
  (0x1032D, 0x1034A);
  (0x10350, 0x10375);
  (0x10380, 0x1039D);
  (0x103A0, 0x103C3);
  (0x103C8, 0x103CF);
  (0x103D1, 0x103D5);
  (0x10400, 0x1049D);
  (0x104A0, 0x104A9);
  (0x104B0, 0x104D3);
  (0x104D8, 0x104FB);
  (0x10500, 0x10527);
  (0x10530, 0x10563);
  (0x10570, 0x1057A);
  (0x1057C, 0x1058A);
  (0x1058C, 0x10592);
  (0x10594, 0x10595);
  (0x10597, 0x105A1);
  (0x105A3, 0x105B1);
  (0x105B3, 0x105B9);
  (0x105BB, 0x105BC);
  (0x10600, 0x10736);
  (0x10740, 0x10755);
  (0x10760, 0x10767);
  (0x10780, 0x10785);
  (0x10787, 0x107B0);
  (0x107B2, 0x107BA);
  (0x10800, 0x10805);
  (0x10808, 0x10808);
  (0x1080A, 0x10835);
  (0x10837, 0x10838);
  (0x1083C, 0x1083C);
  (0x1083F, 0x10855);
  (0x10858, 0x10876);
  (0x10879, 0x1089E);
  (0x108A7, 0x108AF);
  (0x108E0, 0x108F2);
  (0x108F4, 0x108F5);
  (0x108FB, 0x1091B);
  (0x10920, 0x10939);
  (0x10980, 0x109B7);
  (0x109BC, 0x109CF);
  (0x109D2, 0x10A00);
  (0x10A10, 0x10A13);
  (0x10A15, 0x10A17);
  (0x10A19, 0x10A35);
  (0x10A40, 0x10A48);
  (0x10A60, 0x10A7E);
  (0x10A80, 0x10A9F);
  (0x10AC0, 0x10AC7);
  (0x10AC9, 0x10AE4);
  (0x10AEB, 0x10AEF);
  (0x10B00, 0x10B35);
  (0x10B40, 0x10B55);
  (0x10B58, 0x10B72);
  (0x10B78, 0x10B91);
  (0x10BA9, 0x10BAF);
  (0x10C00, 0x10C48);
  (0x10C80, 0x10CB2);
  (0x10CC0, 0x10CF2);
  (0x10CFA, 0x10D23);
  (0x10D30, 0x10D39);
  (0x10E60, 0x10E7E);
  (0x10E80, 0x10EA9);
  (0x10EB0, 0x10EB1);
  (0x10F00, 0x10F27);
  (0x10F30, 0x10F45);
  (0x10F51, 0x10F54);
  (0x10F70, 0x10F81);
  (0x10FB0, 0x10FCB);
  (0x10FE0, 0x10FF6);
  (0x11003, 0x11037);
  (0x11052, 0x1106F);
  (0x11071, 0x11072);
  (0x11075, 0x11075);
  (0x11083, 0x110AF);
  (0x110D0, 0x110E8);
  (0x110F0, 0x110F9);
  (0x11103, 0x11126);
  (0x11136, 0x1113F);
  (0x11144, 0x11144);
  (0x11147, 0x11147);
  (0x11150, 0x11172);
  (0x11176, 0x11176);
  (0x11183, 0x111B2);
  (0x111C1, 0x111C4);
  (0x111D0, 0x111DA);
  (0x111DC, 0x111DC);
  (0x111E1, 0x111F4);
  (0x11200, 0x11211);
  (0x11213, 0x1122B);
  (0x11280, 0x11286);
  (0x11288, 0x11288);
  (0x1128A, 0x1128D);
  (0x1128F, 0x1129D);
  (0x1129F, 0x112A8);
  (0x112B0, 0x112DE);
  (0x112F0, 0x112F9);
  (0x11305, 0x1130C);
  (0x1130F, 0x11310);
  (0x11313, 0x11328);
  (0x1132A, 0x11330);
  (0x11332, 0x11333);
  (0x11335, 0x11339);
  (0x1133D, 0x1133D);
  (0x11350, 0x11350);
  (0x1135D, 0x11361);
  (0x11400, 0x11434);
  (0x11447, 0x1144A);
  (0x11450, 0x11459);
  (0x1145F, 0x11461);
  (0x11480, 0x114AF);
  (0x114C4, 0x114C5);
  (0x114C7, 0x114C7);
  (0x114D0, 0x114D9);
  (0x11580, 0x115AE);
  (0x115D8, 0x115DB);
  (0x11600, 0x1162F);
  (0x11644, 0x11644);
  (0x11650, 0x11659);
  (0x11680, 0x116AA);
  (0x116B8, 0x116B8);
  (0x116C0, 0x116C9);
  (0x11700, 0x1171A);
  (0x11730, 0x1173B);
  (0x11740, 0x11746);
  (0x11800, 0x1182B);
  (0x118A0, 0x118F2);
  (0x118FF, 0x11906);
  (0x11909, 0x11909);
  (0x1190C, 0x11913);
  (0x11915, 0x11916);
  (0x11918, 0x1192F);
  (0x1193F, 0x1193F);
  (0x11941, 0x11941);
  (0x11950, 0x11959);
  (0x119A0, 0x119A7);
  (0x119AA, 0x119D0);
  (0x119E1, 0x119E1);
  (0x119E3, 0x119E3);
  (0x11A00, 0x11A00);
  (0x11A0B, 0x11A32);
  (0x11A3A, 0x11A3A);
  (0x11A50, 0x11A50);
  (0x11A5C, 0x11A89);
  (0x11A9D, 0x11A9D);
  (0x11AB0, 0x11AF8);
  (0x11C00, 0x11C08);
  (0x11C0A, 0x11C2E);
  (0x11C40, 0x11C40);
  (0x11C50, 0x11C6C);
  (0x11C72, 0x11C8F);
  (0x11D00, 0x11D06);
  (0x11D08, 0x11D09);
  (0x11D0B, 0x11D30);
  (0x11D46, 0x11D46);
  (0x11D50, 0x11D59);
  (0x11D60, 0x11D65);
  (0x11D67, 0x11D68);
  (0x11D6A, 0x11D89);
  (0x11D98, 0x11D98);
  (0x11DA0, 0x11DA9);
  (0x11EE0, 0x11EF2);
  (0x11FB0, 0x11FB0);
  (0x11FC0, 0x11FD4);
  (0x12000, 0x12399);
  (0x12400, 0x1246E);
  (0x12480, 0x12543);
  (0x12F90, 0x12FF0);
  (0x13000, 0x1342E);
  (0x14400, 0x14646);
  (0x16800, 0x16A38);
  (0x16A40, 0x16A5E);
  (0x16A60, 0x16A69);
  (0x16A70, 0x16ABE);
  (0x16AC0, 0x16AC9);
  (0x16AD0, 0x16AED);
  (0x16B00, 0x16B2F);
  (0x16B40, 0x16B43);
  (0x16B50, 0x16B59);
  (0x16B5B, 0x16B61);
  (0x16B63, 0x16B77);
  (0x16B7D, 0x16B8F);
  (0x16E40, 0x16E96);
  (0x16F00, 0x16F4A);
  (0x16F50, 0x16F50);
  (0x16F93, 0x16F9F);
  (0x16FE0, 0x16FE1);
  (0x16FE3, 0x16FE3);
  (0x17000, 0x187F7);
  (0x18800, 0x18CD5);
  (0x18D00, 0x18D08);
  (0x1AFF0, 0x1AFF3);
  (0x1AFF5, 0x1AFFB);
  (0x1AFFD, 0x1AFFE);
  (0x1B000, 0x1B122);
  (0x1B150, 0x1B152);
  (0x1B164, 0x1B167);
  (0x1B170, 0x1B2FB);
  (0x1BC00, 0x1BC6A);
  (0x1BC70, 0x1BC7C);
  (0x1BC80, 0x1BC88);
  (0x1BC90, 0x1BC99);
  (0x1D2E0, 0x1D2F3);
  (0x1D360, 0x1D378);
  (0x1D400, 0x1D454);
  (0x1D456, 0x1D49C);
  (0x1D49E, 0x1D49F);
  (0x1D4A2, 0x1D4A2);
  (0x1D4A5, 0x1D4A6);
  (0x1D4A9, 0x1D4AC);
  (0x1D4AE, 0x1D4B9);
  (0x1D4BB, 0x1D4BB);
  (0x1D4BD, 0x1D4C3);
  (0x1D4C5, 0x1D505);
  (0x1D507, 0x1D50A);
  (0x1D50D, 0x1D514);
  (0x1D516, 0x1D51C);
  (0x1D51E, 0x1D539);
  (0x1D53B, 0x1D53E);
  (0x1D540, 0x1D544);
  (0x1D546, 0x1D546);
  (0x1D54A, 0x1D550);
  (0x1D552, 0x1D6A5);
  (0x1D6A8, 0x1D6C0);
  (0x1D6C2, 0x1D6DA);
  (0x1D6DC, 0x1D6FA);
  (0x1D6FC, 0x1D714);
  (0x1D716, 0x1D734);
  (0x1D736, 0x1D74E);
  (0x1D750, 0x1D76E);
  (0x1D770, 0x1D788);
  (0x1D78A, 0x1D7A8);
  (0x1D7AA, 0x1D7C2);
  (0x1D7C4, 0x1D7CB);
  (0x1D7CE, 0x1D7FF);
  (0x1DF00, 0x1DF1E);
  (0x1E100, 0x1E12C);
  (0x1E137, 0x1E13D);
  (0x1E140, 0x1E149);
  (0x1E14E, 0x1E14E);
  (0x1E290, 0x1E2AD);
  (0x1E2C0, 0x1E2EB);
  (0x1E2F0, 0x1E2F9);
  (0x1E7E0, 0x1E7E6);
  (0x1E7E8, 0x1E7EB);
  (0x1E7ED, 0x1E7EE);
  (0x1E7F0, 0x1E7FE);
  (0x1E800, 0x1E8C4);
  (0x1E8C7, 0x1E8CF);
  (0x1E900, 0x1E943);
  (0x1E94B, 0x1E94B);
  (0x1E950, 0x1E959);
  (0x1EC71, 0x1ECAB);
  (0x1ECAD, 0x1ECAF);
  (0x1ECB1, 0x1ECB4);
  (0x1ED01, 0x1ED2D);
  (0x1ED2F, 0x1ED3D);
  (0x1EE00, 0x1EE03);
  (0x1EE05, 0x1EE1F);
  (0x1EE21, 0x1EE22);
  (0x1EE24, 0x1EE24);
  (0x1EE27, 0x1EE27);
  (0x1EE29, 0x1EE32);
  (0x1EE34, 0x1EE37);
  (0x1EE39, 0x1EE39);
  (0x1EE3B, 0x1EE3B);
  (0x1EE42, 0x1EE42);
  (0x1EE47, 0x1EE47);
  (0x1EE49, 0x1EE49);
  (0x1EE4B, 0x1EE4B);
  (0x1EE4D, 0x1EE4F);
  (0x1EE51, 0x1EE52);
  (0x1EE54, 0x1EE54);
  (0x1EE57, 0x1EE57);
  (0x1EE59, 0x1EE59);
  (0x1EE5B, 0x1EE5B);
  (0x1EE5D, 0x1EE5D);
  (0x1EE5F, 0x1EE5F);
  (0x1EE61, 0x1EE62);
  (0x1EE64, 0x1EE64);
  (0x1EE67, 0x1EE6A);
  (0x1EE6C, 0x1EE72);
  (0x1EE74, 0x1EE77);
  (0x1EE79, 0x1EE7C);
  (0x1EE7E, 0x1EE7E);
  (0x1EE80, 0x1EE89);
  (0x1EE8B, 0x1EE9B);
  (0x1EEA1, 0x1EEA3);
  (0x1EEA5, 0x1EEA9);
  (0x1EEAB, 0x1EEBB);
  (0x1F100, 0x1F10C);
  (0x1FBF0, 0x1FBF9);
  (0x20000, 0x2A6DF);
  (0x2A700, 0x2B738);
  (0x2B740, 0x2B81D);
  (0x2B820, 0x2CEA1);
  (0x2CEB0, 0x2EBE0);
  (0x2F800, 0x2FA1D);
  (0x30000, 0x3134A)]%N.

(** The one-to-one lower-case mappings ([_PyUnicode_ToLowerFull] with a
    single code point), capital sigma left out. *)
Definition lower_runs : list (N * N * N * Z) := [
  (0x41%N, 0x5A%N, 1%N, 32%Z);
  (0xC0%N, 0xD6%N, 1%N, 32%Z);
  (0xD8%N, 0xDE%N, 1%N, 32%Z);
  (0x100%N, 0x12E%N, 2%N, 1%Z);
  (0x132%N, 0x136%N, 2%N, 1%Z);
  (0x139%N, 0x147%N, 2%N, 1%Z);
  (0x14A%N, 0x176%N, 2%N, 1%Z);
  (0x178%N, 0x178%N, 1%N, (-121)%Z);
  (0x179%N, 0x17D%N, 2%N, 1%Z);
  (0x181%N, 0x181%N, 1%N, 210%Z);
  (0x182%N, 0x184%N, 2%N, 1%Z);
  (0x186%N, 0x186%N, 1%N, 206%Z);
  (0x187%N, 0x187%N, 1%N, 1%Z);
  (0x189%N, 0x18A%N, 1%N, 205%Z);
  (0x18B%N, 0x18B%N, 1%N, 1%Z);
  (0x18E%N, 0x18E%N, 1%N, 79%Z);
  (0x18F%N, 0x18F%N, 1%N, 202%Z);
  (0x190%N, 0x190%N, 1%N, 203%Z);
  (0x191%N, 0x191%N, 1%N, 1%Z);
  (0x193%N, 0x193%N, 1%N, 205%Z);
  (0x194%N, 0x194%N, 1%N, 207%Z);
  (0x196%N, 0x196%N, 1%N, 211%Z);
  (0x197%N, 0x197%N, 1%N, 209%Z);
  (0x198%N, 0x198%N, 1%N, 1%Z);
  (0x19C%N, 0x19C%N, 1%N, 211%Z);
  (0x19D%N, 0x19D%N, 1%N, 213%Z);
  (0x19F%N, 0x19F%N, 1%N, 214%Z);
  (0x1A0%N, 0x1A4%N, 2%N, 1%Z);
  (0x1A6%N, 0x1A6%N, 1%N, 218%Z);
  (0x1A7%N, 0x1A7%N, 1%N, 1%Z);
  (0x1A9%N, 0x1A9%N, 1%N, 218%Z);
  (0x1AC%N, 0x1AC%N, 1%N, 1%Z);
  (0x1AE%N, 0x1AE%N, 1%N, 218%Z);
  (0x1AF%N, 0x1AF%N, 1%N, 1%Z);
  (0x1B1%N, 0x1B2%N, 1%N, 217%Z);
  (0x1B3%N, 0x1B5%N, 2%N, 1%Z);
  (0x1B7%N, 0x1B7%N, 1%N, 219%Z);
  (0x1B8%N, 0x1B8%N, 1%N, 1%Z);
  (0x1BC%N, 0x1BC%N, 1%N, 1%Z);
  (0x1C4%N, 0x1C4%N, 1%N, 2%Z);
  (0x1C5%N, 0x1C5%N, 1%N, 1%Z);
  (0x1C7%N, 0x1C7%N, 1%N, 2%Z);
  (0x1C8%N, 0x1C8%N, 1%N, 1%Z);
  (0x1CA%N, 0x1CA%N, 1%N, 2%Z);
  (0x1CB%N, 0x1DB%N, 2%N, 1%Z);
  (0x1DE%N, 0x1EE%N, 2%N, 1%Z);
  (0x1F1%N, 0x1F1%N, 1%N, 2%Z);
  (0x1F2%N, 0x1F4%N, 2%N, 1%Z);
  (0x1F6%N, 0x1F6%N, 1%N, (-97)%Z);
  (0x1F7%N, 0x1F7%N, 1%N, (-56)%Z);
  (0x1F8%N, 0x21E%N, 2%N, 1%Z);
  (0x220%N, 0x220%N, 1%N, (-130)%Z);
  (0x222%N, 0x232%N, 2%N, 1%Z);
  (0x23A%N, 0x23A%N, 1%N, 10795%Z);
  (0x23B%N, 0x23B%N, 1%N, 1%Z);
  (0x23D%N, 0x23D%N, 1%N, (-163)%Z);
  (0x23E%N, 0x23E%N, 1%N, 10792%Z);
  (0x241%N, 0x241%N, 1%N, 1%Z);
  (0x243%N, 0x243%N, 1%N, (-195)%Z);
  (0x244%N, 0x244%N, 1%N, 69%Z);
  (0x245%N, 0x245%N, 1%N, 71%Z);
  (0x246%N, 0x24E%N, 2%N, 1%Z);
  (0x370%N, 0x372%N, 2%N, 1%Z);
  (0x376%N, 0x376%N, 1%N, 1%Z);
  (0x37F%N, 0x37F%N, 1%N, 116%Z);
  (0x386%N, 0x386%N, 1%N, 38%Z);
  (0x388%N, 0x38A%N, 1%N, 37%Z);
  (0x38C%N, 0x38C%N, 1%N, 64%Z);
  (0x38E%N, 0x38F%N, 1%N, 63%Z);
  (0x391%N, 0x3A1%N, 1%N, 32%Z);
  (0x3A4%N, 0x3AB%N, 1%N, 32%Z);
  (0x3CF%N, 0x3CF%N, 1%N, 8%Z);
  (0x3D8%N, 0x3EE%N, 2%N, 1%Z);
  (0x3F4%N, 0x3F4%N, 1%N, (-60)%Z);
  (0x3F7%N, 0x3F7%N, 1%N, 1%Z);
  (0x3F9%N, 0x3F9%N, 1%N, (-7)%Z);
  (0x3FA%N, 0x3FA%N, 1%N, 1%Z);
  (0x3FD%N, 0x3FF%N, 1%N, (-130)%Z);
  (0x400%N, 0x40F%N, 1%N, 80%Z);
  (0x410%N, 0x42F%N, 1%N, 32%Z);
  (0x460%N, 0x480%N, 2%N, 1%Z);
  (0x48A%N, 0x4BE%N, 2%N, 1%Z);
  (0x4C0%N, 0x4C0%N, 1%N, 15%Z);
  (0x4C1%N, 0x4CD%N, 2%N, 1%Z);
  (0x4D0%N, 0x52E%N, 2%N, 1%Z);
  (0x531%N, 0x556%N, 1%N, 48%Z);
  (0x10A0%N, 0x10C5%N, 1%N, 7264%Z);
  (0x10C7%N, 0x10C7%N, 1%N, 7264%Z);
  (0x10CD%N, 0x10CD%N, 1%N, 7264%Z);
  (0x13A0%N, 0x13EF%N, 1%N, 38864%Z);
  (0x13F0%N, 0x13F5%N, 1%N, 8%Z);
  (0x1C90%N, 0x1CBA%N, 1%N, (-3008)%Z);
  (0x1CBD%N, 0x1CBF%N, 1%N, (-3008)%Z);
  (0x1E00%N, 0x1E94%N, 2%N, 1%Z);
  (0x1E9E%N, 0x1E9E%N, 1%N, (-7615)%Z);
  (0x1EA0%N, 0x1EFE%N, 2%N, 1%Z);
  (0x1F08%N, 0x1F0F%N, 1%N, (-8)%Z);
  (0x1F18%N, 0x1F1D%N, 1%N, (-8)%Z);
  (0x1F28%N, 0x1F2F%N, 1%N, (-8)%Z);
  (0x1F38%N, 0x1F3F%N, 1%N, (-8)%Z);
  (0x1F48%N, 0x1F4D%N, 1%N, (-8)%Z);
  (0x1F59%N, 0x1F5F%N, 2%N, (-8)%Z);
  (0x1F68%N, 0x1F6F%N, 1%N, (-8)%Z);
  (0x1F88%N, 0x1F8F%N, 1%N, (-8)%Z);
  (0x1F98%N, 0x1F9F%N, 1%N, (-8)%Z);
  (0x1FA8%N, 0x1FAF%N, 1%N, (-8)%Z);
  (0x1FB8%N, 0x1FB9%N, 1%N, (-8)%Z);
  (0x1FBA%N, 0x1FBB%N, 1%N, (-74)%Z);
  (0x1FBC%N, 0x1FBC%N, 1%N, (-9)%Z);
  (0x1FC8%N, 0x1FCB%N, 1%N, (-86)%Z);
  (0x1FCC%N, 0x1FCC%N, 1%N, (-9)%Z);
  (0x1FD8%N, 0x1FD9%N, 1%N, (-8)%Z);
  (0x1FDA%N, 0x1FDB%N, 1%N, (-100)%Z);
  (0x1FE8%N, 0x1FE9%N, 1%N, (-8)%Z);
  (0x1FEA%N, 0x1FEB%N, 1%N, (-112)%Z);
  (0x1FEC%N, 0x1FEC%N, 1%N, (-7)%Z);
  (0x1FF8%N, 0x1FF9%N, 1%N, (-128)%Z);
  (0x1FFA%N, 0x1FFB%N, 1%N, (-126)%Z);
  (0x1FFC%N, 0x1FFC%N, 1%N, (-9)%Z);
  (0x2126%N, 0x2126%N, 1%N, (-7517)%Z);
  (0x212A%N, 0x212A%N, 1%N, (-8383)%Z);
  (0x212B%N, 0x212B%N, 1%N, (-8262)%Z);
  (0x2132%N, 0x2132%N, 1%N, 28%Z);
  (0x2160%N, 0x216F%N, 1%N, 16%Z);
  (0x2183%N, 0x2183%N, 1%N, 1%Z);
  (0x24B6%N, 0x24CF%N, 1%N, 26%Z);
  (0x2C00%N, 0x2C2F%N, 1%N, 48%Z);
  (0x2C60%N, 0x2C60%N, 1%N, 1%Z);
  (0x2C62%N, 0x2C62%N, 1%N, (-10743)%Z);
  (0x2C63%N, 0x2C63%N, 1%N, (-3814)%Z);
  (0x2C64%N, 0x2C64%N, 1%N, (-10727)%Z);
  (0x2C67%N, 0x2C6B%N, 2%N, 1%Z);
  (0x2C6D%N, 0x2C6D%N, 1%N, (-10780)%Z);
  (0x2C6E%N, 0x2C6E%N, 1%N, (-10749)%Z);
  (0x2C6F%N, 0x2C6F%N, 1%N, (-10783)%Z);
  (0x2C70%N, 0x2C70%N, 1%N, (-10782)%Z);
  (0x2C72%N, 0x2C72%N, 1%N, 1%Z);
  (0x2C75%N, 0x2C75%N, 1%N, 1%Z);
  (0x2C7E%N, 0x2C7F%N, 1%N, (-10815)%Z);
  (0x2C80%N, 0x2CE2%N, 2%N, 1%Z);
  (0x2CEB%N, 0x2CED%N, 2%N, 1%Z);
  (0x2CF2%N, 0x2CF2%N, 1%N, 1%Z);
  (0xA640%N, 0xA66C%N, 2%N, 1%Z);
  (0xA680%N, 0xA69A%N, 2%N, 1%Z);
  (0xA722%N, 0xA72E%N, 2%N, 1%Z);
  (0xA732%N, 0xA76E%N, 2%N, 1%Z);
  (0xA779%N, 0xA77B%N, 2%N, 1%Z);
  (0xA77D%N, 0xA77D%N, 1%N, (-35332)%Z);
  (0xA77E%N, 0xA786%N, 2%N, 1%Z);
  (0xA78B%N, 0xA78B%N, 1%N, 1%Z);
  (0xA78D%N, 0xA78D%N, 1%N, (-42280)%Z);
  (0xA790%N, 0xA792%N, 2%N, 1%Z);
  (0xA796%N, 0xA7A8%N, 2%N, 1%Z);
  (0xA7AA%N, 0xA7AA%N, 1%N, (-42308)%Z);
  (0xA7AB%N, 0xA7AB%N, 1%N, (-42319)%Z);
  (0xA7AC%N, 0xA7AC%N, 1%N, (-42315)%Z);
  (0xA7AD%N, 0xA7AD%N, 1%N, (-42305)%Z);
  (0xA7AE%N, 0xA7AE%N, 1%N, (-42308)%Z);
  (0xA7B0%N, 0xA7B0%N, 1%N, (-42258)%Z);
  (0xA7B1%N, 0xA7B1%N, 1%N, (-42282)%Z);
  (0xA7B2%N, 0xA7B2%N, 1%N, (-42261)%Z);
  (0xA7B3%N, 0xA7B3%N, 1%N, 928%Z);
  (0xA7B4%N, 0xA7C2%N, 2%N, 1%Z);
  (0xA7C4%N, 0xA7C4%N, 1%N, (-48)%Z);
  (0xA7C5%N, 0xA7C5%N, 1%N, (-42307)%Z);
  (0xA7C6%N, 0xA7C6%N, 1%N, (-35384)%Z);
  (0xA7C7%N, 0xA7C9%N, 2%N, 1%Z);
  (0xA7D0%N, 0xA7D0%N, 1%N, 1%Z);
  (0xA7D6%N, 0xA7D8%N, 2%N, 1%Z);
  (0xA7F5%N, 0xA7F5%N, 1%N, 1%Z);
  (0xFF21%N, 0xFF3A%N, 1%N, 32%Z);
  (0x10400%N, 0x10427%N, 1%N, 40%Z);
  (0x104B0%N, 0x104D3%N, 1%N, 40%Z);
  (0x10570%N, 0x1057A%N, 1%N, 39%Z);
  (0x1057C%N, 0x1058A%N, 1%N, 39%Z);
  (0x1058C%N, 0x10592%N, 1%N, 39%Z);
  (0x10594%N, 0x10595%N, 1%N, 39%Z);
  (0x10C80%N, 0x10CB2%N, 1%N, 64%Z);
  (0x118A0%N, 0x118BF%N, 1%N, 32%Z);
  (0x16E40%N, 0x16E5F%N, 1%N, 32%Z);
  (0x1E900%N, 0x1E921%N, 1%N, 34%Z)].

(** [_PyUnicode_IsCaseIgnorable]. *)
Definition ignorable_ranges : list (N * N) := [
  (0x27, 0x27);
  (0x2E, 0x2E);
  (0x3A, 0x3A);
  (0x5E, 0x5E);
  (0x60, 0x60);
  (0xA8, 0xA8);
  (0xAD, 0xAD);
  (0xAF, 0xAF);
  (0xB4, 0xB4);
  (0xB7, 0xB8);
  (0x2B0, 0x36F);
  (0x374, 0x375);
  (0x37A, 0x37A);
  (0x384, 0x385);
  (0x387, 0x387);
  (0x483, 0x489);
  (0x559, 0x559);
  (0x55F, 0x55F);
  (0x591, 0x5BD);
  (0x5BF, 0x5BF);
  (0x5C1, 0x5C2);
  (0x5C4, 0x5C5);
  (0x5C7, 0x5C7);
  (0x5F4, 0x5F4);
  (0x600, 0x605);
  (0x610, 0x61A);
  (0x61C, 0x61C);
  (0x640, 0x640);
  (0x64B, 0x65F);
  (0x670, 0x670);
  (0x6D6, 0x6DD);
  (0x6DF, 0x6E8);
  (0x6EA, 0x6ED);
  (0x70F, 0x70F);
  (0x711, 0x711);
  (0x730, 0x74A);
  (0x7A6, 0x7B0);
  (0x7EB, 0x7F5);
  (0x7FA, 0x7FA);
  (0x7FD, 0x7FD);
  (0x816, 0x82D);
  (0x859, 0x85B);
  (0x888, 0x888);
  (0x890, 0x891);
  (0x898, 0x89F);
  (0x8C9, 0x902);
  (0x93A, 0x93A);
  (0x93C, 0x93C);
  (0x941, 0x948);
  (0x94D, 0x94D);
  (0x951, 0x957);
  (0x962, 0x963);
  (0x971, 0x971);
  (0x981, 0x981);
  (0x9BC, 0x9BC);
  (0x9C1, 0x9C4);
  (0x9CD, 0x9CD);
  (0x9E2, 0x9E3);
  (0x9FE, 0x9FE);
  (0xA01, 0xA02);
  (0xA3C, 0xA3C);
  (0xA41, 0xA42);
  (0xA47, 0xA48);
  (0xA4B, 0xA4D);
  (0xA51, 0xA51);
  (0xA70, 0xA71);
  (0xA75, 0xA75);
  (0xA81, 0xA82);
  (0xABC, 0xABC);
  (0xAC1, 0xAC5);
  (0xAC7, 0xAC8);
  (0xACD, 0xACD);
  (0xAE2, 0xAE3);
  (0xAFA, 0xAFF);
  (0xB01, 0xB01);
  (0xB3C, 0xB3C);
  (0xB3F, 0xB3F);
  (0xB41, 0xB44);
  (0xB4D, 0xB4D);
  (0xB55, 0xB56);
  (0xB62, 0xB63);
  (0xB82, 0xB82);
  (0xBC0, 0xBC0);
  (0xBCD, 0xBCD);
  (0xC00, 0xC00);
  (0xC04, 0xC04);
  (0xC3C, 0xC3C);
  (0xC3E, 0xC40);
  (0xC46, 0xC48);
  (0xC4A, 0xC4D);
  (0xC55, 0xC56);
  (0xC62, 0xC63);
  (0xC81, 0xC81);
  (0xCBC, 0xCBC);
  (0xCBF, 0xCBF);
  (0xCC6, 0xCC6);
  (0xCCC, 0xCCD);
  (0xCE2, 0xCE3);
  (0xD00, 0xD01);
  (0xD3B, 0xD3C);
  (0xD41, 0xD44);
  (0xD4D, 0xD4D);
  (0xD62, 0xD63);
  (0xD81, 0xD81);
  (0xDCA, 0xDCA);
  (0xDD2, 0xDD4);
  (0xDD6, 0xDD6);
  (0xE31, 0xE31);
  (0xE34, 0xE3A);
  (0xE46, 0xE4E);
  (0xEB1, 0xEB1);
  (0xEB4, 0xEBC);
  (0xEC6, 0xEC6);
  (0xEC8, 0xECD);
  (0xF18, 0xF19);
  (0xF35, 0xF35);
  (0xF37, 0xF37);
  (0xF39, 0xF39);
  (0xF71, 0xF7E);
  (0xF80, 0xF84);
  (0xF86, 0xF87);
  (0xF8D, 0xF97);
  (0xF99, 0xFBC);
  (0xFC6, 0xFC6);
  (0x102D, 0x1030);
  (0x1032, 0x1037);
  (0x1039, 0x103A);
  (0x103D, 0x103E);
  (0x1058, 0x1059);
  (0x105E, 0x1060);
  (0x1071, 0x1074);
  (0x1082, 0x1082);
  (0x1085, 0x1086);
  (0x108D, 0x108D);
  (0x109D, 0x109D);
  (0x10FC, 0x10FC);
  (0x135D, 0x135F);
  (0x1712, 0x1714);
  (0x1732, 0x1733);
  (0x1752, 0x1753);
  (0x1772, 0x1773);
  (0x17B4, 0x17B5);
  (0x17B7, 0x17BD);
  (0x17C6, 0x17C6);
  (0x17C9, 0x17D3);
  (0x17D7, 0x17D7);
  (0x17DD, 0x17DD);
  (0x180B, 0x180F);
  (0x1843, 0x1843);
  (0x1885, 0x1886);
  (0x18A9, 0x18A9);
  (0x1920, 0x1922);
  (0x1927, 0x1928);
  (0x1932, 0x1932);
  (0x1939, 0x193B);
  (0x1A17, 0x1A18);
  (0x1A1B, 0x1A1B);
  (0x1A56, 0x1A56);
  (0x1A58, 0x1A5E);
  (0x1A60, 0x1A60);
  (0x1A62, 0x1A62);
  (0x1A65, 0x1A6C);
  (0x1A73, 0x1A7C);
  (0x1A7F, 0x1A7F);
  (0x1AA7, 0x1AA7);
  (0x1AB0, 0x1ACE);
  (0x1B00, 0x1B03);
  (0x1B34, 0x1B34);
  (0x1B36, 0x1B3A);
  (0x1B3C, 0x1B3C);
  (0x1B42, 0x1B42);
  (0x1B6B, 0x1B73);
  (0x1B80, 0x1B81);
  (0x1BA2, 0x1BA5);
  (0x1BA8, 0x1BA9);
  (0x1BAB, 0x1BAD);
  (0x1BE6, 0x1BE6);
  (0x1BE8, 0x1BE9);
  (0x1BED, 0x1BED);
  (0x1BEF, 0x1BF1);
  (0x1C2C, 0x1C33);
  (0x1C36, 0x1C37);
  (0x1C78, 0x1C7D);
  (0x1CD0, 0x1CD2);
  (0x1CD4, 0x1CE0);
  (0x1CE2, 0x1CE8);
  (0x1CED, 0x1CED);
  (0x1CF4, 0x1CF4);
  (0x1CF8, 0x1CF9);
  (0x1D2C, 0x1D6A);
  (0x1D78, 0x1D78);
  (0x1D9B, 0x1DFF);
  (0x1FBD, 0x1FBD);
  (0x1FBF, 0x1FC1);
  (0x1FCD, 0x1FCF);
  (0x1FDD, 0x1FDF);
  (0x1FED, 0x1FEF);
  (0x1FFD, 0x1FFE);
  (0x200B, 0x200F);
  (0x2018, 0x2019);
  (0x2024, 0x2024);
  (0x2027, 0x2027);
  (0x202A, 0x202E);
  (0x2060, 0x2064);
  (0x2066, 0x206F);
  (0x2071, 0x2071);
  (0x207F, 0x207F);
  (0x2090, 0x209C);
  (0x20D0, 0x20F0);
  (0x2C7C, 0x2C7D);
  (0x2CEF, 0x2CF1);
  (0x2D6F, 0x2D6F);
  (0x2D7F, 0x2D7F);
  (0x2DE0, 0x2DFF);
  (0x2E2F, 0x2E2F);
  (0x3005, 0x3005);
  (0x302A, 0x302D);
  (0x3031, 0x3035);
  (0x303B, 0x303B);
  (0x3099, 0x309E);
  (0x30FC, 0x30FE);
  (0xA015, 0xA015);
  (0xA4F8, 0xA4FD);
  (0xA60C, 0xA60C);
  (0xA66F, 0xA672);
  (0xA674, 0xA67D);
  (0xA67F, 0xA67F);
  (0xA69C, 0xA69F);
  (0xA6F0, 0xA6F1);
  (0xA700, 0xA721);
  (0xA770, 0xA770);
  (0xA788, 0xA78A);
  (0xA7F2, 0xA7F4);
  (0xA7F8, 0xA7F9);
  (0xA802, 0xA802);
  (0xA806, 0xA806);
  (0xA80B, 0xA80B);
  (0xA825, 0xA826);
  (0xA82C, 0xA82C);
  (0xA8C4, 0xA8C5);
  (0xA8E0, 0xA8F1);
  (0xA8FF, 0xA8FF);
  (0xA926, 0xA92D);
  (0xA947, 0xA951);
  (0xA980, 0xA982);
  (0xA9B3, 0xA9B3);
  (0xA9B6, 0xA9B9);
  (0xA9BC, 0xA9BD);
  (0xA9CF, 0xA9CF);
  (0xA9E5, 0xA9E6);
  (0xAA29, 0xAA2E);
  (0xAA31, 0xAA32);
  (0xAA35, 0xAA36);
  (0xAA43, 0xAA43);
  (0xAA4C, 0xAA4C);
  (0xAA70, 0xAA70);
  (0xAA7C, 0xAA7C);
  (0xAAB0, 0xAAB0);
  (0xAAB2, 0xAAB4);
  (0xAAB7, 0xAAB8);
  (0xAABE, 0xAABF);
  (0xAAC1, 0xAAC1);
  (0xAADD, 0xAADD);
  (0xAAEC, 0xAAED);
  (0xAAF3, 0xAAF4);
  (0xAAF6, 0xAAF6);
  (0xAB5B, 0xAB5F);
  (0xAB69, 0xAB6B);
  (0xABE5, 0xABE5);
  (0xABE8, 0xABE8);
  (0xABED, 0xABED);
  (0xFB1E, 0xFB1E);
  (0xFBB2, 0xFBC2);
  (0xFE00, 0xFE0F);
  (0xFE13, 0xFE13);
  (0xFE20, 0xFE2F);
  (0xFE52, 0xFE52);
  (0xFE55, 0xFE55);
  (0xFEFF, 0xFEFF);
  (0xFF07, 0xFF07);
  (0xFF0E, 0xFF0E);
  (0xFF1A, 0xFF1A);
  (0xFF3E, 0xFF3E);
  (0xFF40, 0xFF40);
  (0xFF70, 0xFF70);
  (0xFF9E, 0xFF9F);
  (0xFFE3, 0xFFE3);
  (0xFFF9, 0xFFFB);
  (0x101FD, 0x101FD);
  (0x102E0, 0x102E0);
  (0x10376, 0x1037A);
  (0x10780, 0x10785);
  (0x10787, 0x107B0);
  (0x107B2, 0x107BA);
  (0x10A01, 0x10A03);
  (0x10A05, 0x10A06);
  (0x10A0C, 0x10A0F);
  (0x10A38, 0x10A3A);
  (0x10A3F, 0x10A3F);
  (0x10AE5, 0x10AE6);
  (0x10D24, 0x10D27);
  (0x10EAB, 0x10EAC);
  (0x10F46, 0x10F50);
  (0x10F82, 0x10F85);
  (0x11001, 0x11001);
  (0x11038, 0x11046);
  (0x11070, 0x11070);
  (0x11073, 0x11074);
  (0x1107F, 0x11081);
  (0x110B3, 0x110B6);
  (0x110B9, 0x110BA);
  (0x110BD, 0x110BD);
  (0x110C2, 0x110C2);
  (0x110CD, 0x110CD);
  (0x11100, 0x11102);
  (0x11127, 0x1112B);
  (0x1112D, 0x11134);
  (0x11173, 0x11173);
  (0x11180, 0x11181);
  (0x111B6, 0x111BE);
  (0x111C9, 0x111CC);
  (0x111CF, 0x111CF);
  (0x1122F, 0x11231);
  (0x11234, 0x11234);
  (0x11236, 0x11237);
  (0x1123E, 0x1123E);
  (0x112DF, 0x112DF);
  (0x112E3, 0x112EA);
  (0x11300, 0x11301);
  (0x1133B, 0x1133C);
  (0x11340, 0x11340);
  (0x11366, 0x1136C);
  (0x11370, 0x11374);
  (0x11438, 0x1143F);
  (0x11442, 0x11444);
  (0x11446, 0x11446);
  (0x1145E, 0x1145E);
  (0x114B3, 0x114B8);
  (0x114BA, 0x114BA);
  (0x114BF, 0x114C0);
  (0x114C2, 0x114C3);
  (0x115B2, 0x115B5);
  (0x115BC, 0x115BD);
  (0x115BF, 0x115C0);
  (0x115DC, 0x115DD);
  (0x11633, 0x1163A);
  (0x1163D, 0x1163D);
  (0x1163F, 0x11640);
  (0x116AB, 0x116AB);
  (0x116AD, 0x116AD);
  (0x116B0, 0x116B5);
  (0x116B7, 0x116B7);
  (0x1171D, 0x1171F);
  (0x11722, 0x11725);
  (0x11727, 0x1172B);
  (0x1182F, 0x11837);
  (0x11839, 0x1183A);
  (0x1193B, 0x1193C);
  (0x1193E, 0x1193E);
  (0x11943, 0x11943);
  (0x119D4, 0x119D7);
  (0x119DA, 0x119DB);
  (0x119E0, 0x119E0);
  (0x11A01, 0x11A0A);
  (0x11A33, 0x11A38);
  (0x11A3B, 0x11A3E);
  (0x11A47, 0x11A47);
  (0x11A51, 0x11A56);
  (0x11A59, 0x11A5B);
  (0x11A8A, 0x11A96);
  (0x11A98, 0x11A99);
  (0x11C30, 0x11C36);
  (0x11C38, 0x11C3D);
  (0x11C3F, 0x11C3F);
  (0x11C92, 0x11CA7);
  (0x11CAA, 0x11CB0);
  (0x11CB2, 0x11CB3);
  (0x11CB5, 0x11CB6);
  (0x11D31, 0x11D36);
  (0x11D3A, 0x11D3A);
  (0x11D3C, 0x11D3D);
  (0x11D3F, 0x11D45);
  (0x11D47, 0x11D47);
  (0x11D90, 0x11D91);
  (0x11D95, 0x11D95);
  (0x11D97, 0x11D97);
  (0x11EF3, 0x11EF4);
  (0x13430, 0x13438);
  (0x16AF0, 0x16AF4);
  (0x16B30, 0x16B36);
  (0x16B40, 0x16B43);
  (0x16F4F, 0x16F4F);
  (0x16F8F, 0x16F9F);
  (0x16FE0, 0x16FE1);
  (0x16FE3, 0x16FE4);
  (0x1AFF0, 0x1AFF3);
  (0x1AFF5, 0x1AFFB);
  (0x1AFFD, 0x1AFFE);
  (0x1BC9D, 0x1BC9E);
  (0x1BCA0, 0x1BCA3);
  (0x1CF00, 0x1CF2D);
  (0x1CF30, 0x1CF46);
  (0x1D167, 0x1D169);
  (0x1D173, 0x1D182);
  (0x1D185, 0x1D18B);
  (0x1D1AA, 0x1D1AD);
  (0x1D242, 0x1D244);
  (0x1DA00, 0x1DA36);
  (0x1DA3B, 0x1DA6C);
  (0x1DA75, 0x1DA75);
  (0x1DA84, 0x1DA84);
  (0x1DA9B, 0x1DA9F);
  (0x1DAA1, 0x1DAAF);
  (0x1E000, 0x1E006);
  (0x1E008, 0x1E018);
  (0x1E01B, 0x1E021);
  (0x1E023, 0x1E024);
  (0x1E026, 0x1E02A);
  (0x1E130, 0x1E13D);
  (0x1E2AE, 0x1E2AE);
  (0x1E2EC, 0x1E2EF);
  (0x1E8D0, 0x1E8D6);
  (0x1E944, 0x1E94B);
  (0x1F3FB, 0x1F3FF);
  (0xE0001, 0xE0001);
  (0xE0020, 0xE007F);
  (0xE0100, 0xE01EF)]%N.

(** [_PyUnicode_IsCased], on the characters that are not case-ignorable. *)
Definition cased_ranges : list (N * N) := [
  (0x41, 0x5A);
  (0x61, 0x7A);
  (0xAA, 0xAA);
  (0xB5, 0xB5);
  (0xBA, 0xBA);
  (0xC0, 0xD6);
  (0xD8, 0xF6);
  (0xF8, 0x1BA);
  (0x1BC, 0x1BF);
  (0x1C4, 0x293);
  (0x295, 0x2AF);
  (0x370, 0x373);
  (0x376, 0x377);
  (0x37B, 0x37D);
  (0x37F, 0x37F);
  (0x386, 0x386);
  (0x388, 0x38A);
  (0x38C, 0x38C);
  (0x38E, 0x3A1);
  (0x3A3, 0x3F5);
  (0x3F7, 0x481);
  (0x48A, 0x52F);
  (0x531, 0x556);
  (0x560, 0x588);
  (0x10A0, 0x10C5);
  (0x10C7, 0x10C7);
  (0x10CD, 0x10CD);
  (0x10D0, 0x10FA);
  (0x10FD, 0x10FF);
  (0x13A0, 0x13F5);
  (0x13F8, 0x13FD);
  (0x1C80, 0x1C88);
  (0x1C90, 0x1CBA);
  (0x1CBD, 0x1CBF);
  (0x1D00, 0x1D2B);
  (0x1D6B, 0x1D77);
  (0x1D79, 0x1D9A);
  (0x1E00, 0x1F15);
  (0x1F18, 0x1F1D);
  (0x1F20, 0x1F45);
  (0x1F48, 0x1F4D);
  (0x1F50, 0x1F57);
  (0x1F59, 0x1F59);
  (0x1F5B, 0x1F5B);
  (0x1F5D, 0x1F5D);
  (0x1F5F, 0x1F7D);
  (0x1F80, 0x1FB4);
  (0x1FB6, 0x1FBC);
  (0x1FBE, 0x1FBE);
  (0x1FC2, 0x1FC4);
  (0x1FC6, 0x1FCC);
  (0x1FD0, 0x1FD3);
  (0x1FD6, 0x1FDB);
  (0x1FE0, 0x1FEC);
  (0x1FF2, 0x1FF4);
  (0x1FF6, 0x1FFC);
  (0x2102, 0x2102);
  (0x2107, 0x2107);
  (0x210A, 0x2113);
  (0x2115, 0x2115);
  (0x2119, 0x211D);
  (0x2124, 0x2124);
  (0x2126, 0x2126);
  (0x2128, 0x2128);
  (0x212A, 0x212D);
  (0x212F, 0x2134);
  (0x2139, 0x2139);
  (0x213C, 0x213F);
  (0x2145, 0x2149);
  (0x214E, 0x214E);
  (0x2160, 0x217F);
  (0x2183, 0x2184);
  (0x24B6, 0x24E9);
  (0x2C00, 0x2C7B);
  (0x2C7E, 0x2CE4);
  (0x2CEB, 0x2CEE);
  (0x2CF2, 0x2CF3);
  (0x2D00, 0x2D25);
  (0x2D27, 0x2D27);
  (0x2D2D, 0x2D2D);
  (0xA640, 0xA66D);
  (0xA680, 0xA69B);
  (0xA722, 0xA76F);
  (0xA771, 0xA787);
  (0xA78B, 0xA78E);
  (0xA790, 0xA7CA);
  (0xA7D0, 0xA7D1);
  (0xA7D3, 0xA7D3);
  (0xA7D5, 0xA7D9);
  (0xA7F5, 0xA7F6);
  (0xA7FA, 0xA7FA);
  (0xAB30, 0xAB5A);
  (0xAB60, 0xAB68);
  (0xAB70, 0xABBF);
  (0xFB00, 0xFB06);
  (0xFB13, 0xFB17);
  (0xFF21, 0xFF3A);
  (0xFF41, 0xFF5A);
  (0x10400, 0x1044F);
  (0x104B0, 0x104D3);
  (0x104D8, 0x104FB);
  (0x10570, 0x1057A);
  (0x1057C, 0x1058A);
  (0x1058C, 0x10592);
  (0x10594, 0x10595);
  (0x10597, 0x105A1);
  (0x105A3, 0x105B1);
  (0x105B3, 0x105B9);
  (0x105BB, 0x105BC);
  (0x10C80, 0x10CB2);
  (0x10CC0, 0x10CF2);
  (0x118A0, 0x118DF);
  (0x16E40, 0x16E7F);
  (0x1D400, 0x1D454);
  (0x1D456, 0x1D49C);
  (0x1D49E, 0x1D49F);
  (0x1D4A2, 0x1D4A2);
  (0x1D4A5, 0x1D4A6);
  (0x1D4A9, 0x1D4AC);
  (0x1D4AE, 0x1D4B9);
  (0x1D4BB, 0x1D4BB);
  (0x1D4BD, 0x1D4C3);
  (0x1D4C5, 0x1D505);
  (0x1D507, 0x1D50A);
  (0x1D50D, 0x1D514);
  (0x1D516, 0x1D51C);
  (0x1D51E, 0x1D539);
  (0x1D53B, 0x1D53E);
  (0x1D540, 0x1D544);
  (0x1D546, 0x1D546);
  (0x1D54A, 0x1D550);
  (0x1D552, 0x1D6A5);
  (0x1D6A8, 0x1D6C0);
  (0x1D6C2, 0x1D6DA);
  (0x1D6DC, 0x1D6FA);
  (0x1D6FC, 0x1D714);
  (0x1D716, 0x1D734);
  (0x1D736, 0x1D74E);
  (0x1D750, 0x1D76E);
  (0x1D770, 0x1D788);
  (0x1D78A, 0x1D7A8);
  (0x1D7AA, 0x1D7C2);
  (0x1D7C4, 0x1D7CB);
  (0x1DF00, 0x1DF09);
  (0x1DF0B, 0x1DF1E);
  (0x1E900, 0x1E943);
  (0x1F130, 0x1F149);
  (0x1F150, 0x1F169);
  (0x1F170, 0x1F189)]%N.

