(* ===== verification/PyStr.v ===== *)
(** * The Python string built-ins called by app.py

    [str.lower()], [str.split()], [str.split(sep)] for a one-character
    separator, [str.strip()] and [re.sub(r"[^\w']", "", w)], over strings
    of Unicode code points, written the way CPython implements them
    ([Objects/unicodeobject.c]: [lower_ucs4] and [handle_capital_sigma]
    for [str.lower()], [split_whitespace], [do_strip]; [sre]'s category
    [SRE_UNI_IS_WORD] for [\w]).  The Unicode tables they consult are the
    class [UnicodeDB], with the facts of those tables the proofs need;
    [cpython_db] is the instance of CPython 3.11, built on the tables of
    [UnicodeTables], whose laws are checked by computation. *)

From S2P Require Import Prelude UnicodeTables.

(** The apostrophe kept by the cleaning regular expression. *)
Definition apostrophe : N := 39.
Definition space : N := 32.
Definition newline : N := 10.

(** The capital sigma and its two lower-case forms. *)
Definition capital_sigma : N := 0x3A3.
Definition small_sigma : N := 0x3C3.
Definition final_sigma : N := 0x3C2.

(** The tables of CPython's Unicode database the built-ins use, with
    the facts the proofs need: white space lowers to itself and is
    neither cased nor case-ignorable, any other character lowers to a
    non-empty string without white space. *)
Class UnicodeDB := {
  uc_isspace : N -> bool;      (* Py_UNICODE_ISSPACE: str.isspace, str.split(), str.strip() *)
  uc_isword : N -> bool;       (* SRE_UNI_IS_WORD: the class \w of the re module *)
  uc_lower : N -> pystr;       (* _PyUnicode_ToLowerFull *)
  uc_ignorable : N -> bool;    (* _PyUnicode_IsCaseIgnorable *)
  uc_cased : N -> bool;        (* _PyUnicode_IsCased *)
  uc_space_lower : forall c, uc_isspace c = true -> uc_lower c = [c];
  uc_space_context : forall c, uc_isspace c = true -> uc_ignorable c = false /\ uc_cased c = false;
  uc_lower_nonspace : forall c, uc_isspace c = false ->
    uc_lower c <> [] /\ Forall (fun d => uc_isspace d = false) (uc_lower c);
  uc_sigma_nonspace : Forall (fun c => uc_isspace c = false) [capital_sigma; small_sigma; final_sigma];
  uc_space_space : uc_isspace space = true
}.

Section pystr_ops.
Context {DB : UnicodeDB}.

(** Whether the first character of [l] past the case-ignorable ones is
    cased: the scans of [handle_capital_sigma], backwards over the
    reversed prefix and forwards over the rest. *)
Fixpoint cased_next (l : pystr) : bool :=
  match l with
  | [] => false
  | c :: l' => if uc_ignorable c then cased_next l' else uc_cased c
  end.

(** [lower_ucs4] for the character [c] between the reversed prefix
    [before] and the rest [after]: a capital sigma preceded by a cased
    letter and not followed by one is final. *)
Definition lower_char (before : pystr) (c : N) (after : pystr) : pystr :=
  if N.eqb c capital_sigma
  then [if cased_next before && negb (cased_next after) then final_sigma else small_sigma]
  else uc_lower c.

Fixpoint lower_from (before : pystr) (s : pystr) : pystr :=
  match s with
  | [] => []
  | c :: s' => lower_char before c s' ++ lower_from (c :: before) s'
  end.

(** [s.lower()] *)
Definition py_lower (s : pystr) : pystr := lower_from [] s.

(** Splitting at every character satisfying [p], keeping empty pieces:
    the shape of [s.split(sep)] and of [re.split]. *)
Fixpoint split_on (p : N -> bool) (s : pystr) : list pystr :=
  match s with
  | [] => [[]]
  | c :: s' =>
      let rest := split_on p s' in
      if p c then [] :: rest
      else match rest with
           | w :: ws => (c :: w) :: ws
           | [] => [[c]]
           end
  end.

(** [s.split(sep)] for a one-character [sep]. *)
Definition py_split_sep (sep : N) (s : pystr) : list pystr :=
  split_on (fun c => N.eqb c sep) s.

Definition nonempty (w : pystr) : bool :=
  match w with [] => false | _ => true end.

(** [s.split()]: runs of white space separate, empty pieces dropped. *)
Definition py_split (s : pystr) : list pystr :=
  List.filter nonempty (split_on uc_isspace s).

Fixpoint lstrip (s : pystr) : pystr :=
  match s with
  | [] => []
  | c :: s' => if uc_isspace c then lstrip s' else s
  end.

(** [s.strip()] *)
Definition py_strip (s : pystr) : pystr := rev (lstrip (rev (lstrip s))).

(** [re.sub(r"[^\w']", "", w)] *)
Definition clean_word (w : pystr) : pystr :=
  List.filter (fun c => uc_isword c || N.eqb c apostrophe) w.

(** A string with no white space. *)
Definition no_space (w : pystr) : Prop := Forall (fun c => uc_isspace c = false) w.
End pystr_ops.

(** ** The instance of CPython 3.11 *)

Definition in_range (lo hi c : N) : bool := (lo <=? c)%N && (c <=? hi)%N.

Definition in_ranges (rs : list (N * N)) (c : N) : bool :=
  existsb (fun r => in_range r.1 r.2 c) rs.

Definition cp_isspace (c : N) : bool := existsb (N.eqb c) space_points.
Definition cp_isword (c : N) : bool := in_ranges word_ranges c.
Definition cp_ignorable (c : N) : bool := in_ranges ignorable_ranges c.
Definition cp_cased (c : N) : bool := in_ranges cased_ranges c.

(** A run [(lo, hi, step, delta)] of the lower-case table holds [c]. *)
Definition in_run (r : N * N * N * Z) (c : N) : bool :=
  let '(lo, hi, step, _) := r in in_range lo hi c && N.eqb ((c - lo) mod step) 0.

(** [_PyUnicode_ToLowerFull]: the one mapping to two code points
    (U+0130, capital I with dot above), then the runs. *)
Definition cp_lower (c : N) : pystr :=
  if N.eqb c 0x130 then [0x69; 0x307]%N
  else match List.find (fun r => in_run r c) lower_runs with
       | Some (_, _, _, delta) => [Z.to_N (Z.of_N c + delta)]
       | None => [c]
       end.

(** No run maps a code point onto white space. *)
Definition runs_avoid_space : bool :=
  forallb (fun r => forallb (fun p =>
    let c := (Z.of_N p - r.2)%Z in negb ((0 <=? c)%Z && in_run r (Z.to_N c))) space_points)
    lower_runs.

Lemma runs_avoid_space_ok : runs_avoid_space = true.
Proof. vm_compute. reflexivity. Qed.

Lemma cp_isspace_points c : cp_isspace c = true -> In c space_points.
Proof.
  unfold cp_isspace. intros (x & Hx & E)%existsb_exists. apply N.eqb_eq in E. by subst.
Qed.

(** A law on white space follows from its check on the 29 points. *)
Lemma cp_space_check (P : N -> Prop) (f : N -> bool) :
  (forall c, f c = true -> P c) -> forallb f space_points = true ->
  forall c, cp_isspace c = true -> P c.
Proof.
  intros Hf Hall c Hc%cp_isspace_points. apply Hf. by eapply forallb_forall in Hall.
Qed.

Lemma cp_space_lower c : cp_isspace c = true -> cp_lower c = [c].
Proof.
  revert c. apply (cp_space_check (fun c => cp_lower c = [c]) (fun c => bool_decide (cp_lower c = [c]))).
  - intros x. by rewrite bool_decide_eq_true.
  - vm_compute. reflexivity.
Qed.

Lemma cp_space_context c : cp_isspace c = true -> cp_ignorable c = false /\ cp_cased c = false.
Proof.
  revert c.
  apply (cp_space_check (fun c => cp_ignorable c = false /\ cp_cased c = false)
           (fun c => negb (cp_ignorable c) && negb (cp_cased c))).
  - intros x. rewrite andb_true_iff, !negb_true_iff. done.
  - vm_compute. reflexivity.
Qed.

Lemma cp_lower_nonspace c : cp_isspace c = false ->
  cp_lower c <> [] /\ Forall (fun d => cp_isspace d = false) (cp_lower c).
Proof.
  intros Hc. unfold cp_lower. destruct (N.eqb c 0x130); [split; [done|vm_compute; auto]|].
  destruct (List.find _ lower_runs) as [[[[lo hi] st] delta]|] eqn:E; [|by repeat constructor].
  split; [done|]. constructor; [|constructor].
  destruct (cp_isspace (Z.to_N (Z.of_N c + delta))) eqn:Hs; [|done]. exfalso.
  apply find_some in E as [Hin Hrun].
  pose proof runs_avoid_space_ok as Hok. unfold runs_avoid_space in Hok.
  eapply forallb_forall in Hok; [|exact Hin].
  eapply forallb_forall in Hok; [|exact (cp_isspace_points _ Hs)].
  simpl in Hok. destruct (Z.leb_spec 0 (Z.of_N c + delta)) as [Hd|Hd].
  - rewrite Z2N.id in Hok by done. replace (Z.of_N c + delta - delta)%Z with (Z.of_N c) in Hok by lia.
    rewrite N2Z.id in Hok. simpl in Hrun. rewrite Hrun, andb_true_r in Hok.
    apply negb_true_iff, Z.leb_gt in Hok. lia.
  - destruct (Z.of_N c + delta)%Z as [| |p]; [lia|lia|]. by vm_compute in Hs.
Qed.

#[export] Instance cpython_db : UnicodeDB := {
  uc_isspace := cp_isspace;
  uc_isword := cp_isword;
  uc_lower := cp_lower;
  uc_ignorable := cp_ignorable;
  uc_cased := cp_cased;
  uc_space_lower := cp_space_lower;
  uc_space_context := cp_space_context;
  uc_lower_nonspace := cp_lower_nonspace;
  uc_sigma_nonspace := ltac:(vm_compute; repeat constructor);
  uc_space_space := eq_refl
}.

(** ** Lemmas on the built-ins, for every Unicode database *)

Section pystr_lemmas.
Context {DB : UnicodeDB}.
Implicit Types (s w x : pystr) (p : N -> bool).

Lemma split_on_not_nil p s : split_on p s <> [].
Proof.
  destruct s as [|c s]; simpl; [done|].
  destruct (p c); [done|]. by destruct (split_on p s).
Qed.

(** The first piece absorbs a leading character that is no separator. *)
Lemma split_on_cons_keep p c s :
  p c = false ->
  exists w ws, split_on p s = w :: ws /\ split_on p (c :: s) = (c :: w) :: ws.
Proof.
  intros Hc. simpl. rewrite Hc.
  destruct (split_on p s) as [|w ws] eqn:E; [by apply split_on_not_nil in E|].
  eauto.
Qed.

Lemma join_cons_head (sep : pystr) c w (ws : list pystr) :
  join sep ((c :: w) :: ws) = c :: join sep (w :: ws).
Proof. by destruct ws. Qed.

(** [sep.join(s.split(sep)) == s]. *)
Lemma join_split_sep (sep : N) s : join [sep] (py_split_sep sep s) = s.
Proof.
  unfold py_split_sep. induction s as [|c s IH]; [done|].
  destruct (N.eqb c sep) eqn:Hc.
  - apply N.eqb_eq in Hc as ->. simpl. rewrite N.eqb_refl, join_cons
      by apply split_on_not_nil. by rewrite IH.
  - destruct (split_on_cons_keep (fun c => N.eqb c sep) c s Hc) as (w & ws & E1 & E2).
    rewrite E2, join_cons_head, <-E1. by rewrite IH.
Qed.

(** No piece contains a separator. *)
Lemma split_on_pieces p s : Forall (Forall (fun c => p c = false)) (split_on p s).
Proof.
  induction s as [|c s IH]; simpl; [by repeat constructor|].
  destruct (p c) eqn:Hc; [by constructor|].
  destruct (split_on p s) as [|w ws]; [by repeat constructor|].
  inversion IH; subst. by repeat constructor.
Qed.

(** A string without separator is one piece. *)
Lemma split_on_no_sep p w : Forall (fun c => p c = false) w -> split_on p w = [w].
Proof. induction 1 as [|c w Hc _ IH]; simpl; [done|]. by rewrite Hc, IH. Qed.

Lemma split_on_app_sep p w c r :
  Forall (fun c => p c = false) w -> p c = true -> split_on p (w ++ c :: r) = w :: split_on p r.
Proof.
  intros Hw Hc. induction Hw as [|x w Hx _ IH]; simpl; [by rewrite Hc|]. by rewrite Hx, IH.
Qed.

Lemma py_split_no_space w : no_space w -> py_split w = if nonempty w then [w] else [].
Proof. intros Hw. unfold py_split. rewrite split_on_no_sep by done. by destruct w. Qed.

Lemma py_split_app_space w c r :
  no_space w -> uc_isspace c = true ->
  py_split (w ++ c :: r) = (if nonempty w then [w] else []) ++ py_split r.
Proof. intros Hw Hc. unfold py_split. rewrite split_on_app_sep by done. by destruct w. Qed.

(** A string has no white space, or a first white-space character. *)
Lemma first_space s :
  no_space s \/ exists w c r, no_space w /\ uc_isspace c = true /\ s = w ++ c :: r.
Proof.
  induction s as [|c s IH]; [left; constructor|].
  destruct (uc_isspace c) eqn:Hc.
  - right. exists [], c, s. split; [constructor|done].
  - destruct IH as [Hs|(w & d & r & Hw & Hd & ->)]; [left; by constructor|].
    right. exists (c :: w), d, r. split; [by constructor|done].
Qed.

(** *** [str.lower()] and white space *)

Lemma sigma_nonspace :
  uc_isspace capital_sigma = false /\ uc_isspace small_sigma = false /\ uc_isspace final_sigma = false.
Proof.
  pose proof uc_sigma_nonspace as H. by repeat match goal with H : Forall _ (_ :: _) |- _ => inversion H; subst; clear H end.
Qed.

(** A character that is neither case-ignorable nor cased ends the
    scans of the final-sigma rule. *)
Lemma cased_next_stop x c r :
  uc_ignorable c = false -> uc_cased c = false -> cased_next (x ++ c :: r) = cased_next x.
Proof. intros Hi Hk. induction x as [|d x IH]; simpl; [by rewrite Hi, Hk|]. by rewrite IH. Qed.

Lemma lower_from_ctx b b' s : cased_next b = cased_next b' -> lower_from b s = lower_from b' s.
Proof.
  revert b b'. induction s as [|c s IH]; intros b b' Hb; [done|]. simpl.
  f_equal; [unfold lower_char; by rewrite Hb|]. apply IH. simpl. by rewrite Hb.
Qed.

Lemma lower_char_space b c a : uc_isspace c = true -> lower_char b c a = [c].
Proof.
  intros Hc. unfold lower_char. destruct (N.eqb_spec c capital_sigma) as [->|_].
  - by rewrite (proj1 sigma_nonspace) in Hc.
  - by apply uc_space_lower.
Qed.

Lemma lower_char_nonspace b c a :
  uc_isspace c = false -> lower_char b c a <> [] /\ no_space (lower_char b c a).
Proof.
  intros Hc. unfold lower_char. destruct (N.eqb c capital_sigma); [|by apply uc_lower_nonspace].
  split; [done|]. repeat constructor. destruct sigma_nonspace as (_ & ? & ?). by destruct (_ && _).
Qed.

(** White space cuts the context of the final-sigma rule: lowering
    works on the pieces between white space separately. *)
Lemma lower_from_space b w c r :
  uc_isspace c = true -> lower_from b (w ++ c :: r) = lower_from b w ++ c :: lower_from [] r.
Proof.
  intros Hc. destruct (uc_space_context c Hc) as [Hi Hk].
  revert b. induction w as [|x w IH]; intros b; simpl.
  - rewrite lower_char_space by done. simpl. f_equal. apply lower_from_ctx. simpl. by rewrite Hi, Hk.
  - rewrite IH, app_assoc. do 2 f_equal. unfold lower_char. by rewrite cased_next_stop.
Qed.

Lemma lower_from_no_space b w :
  no_space w -> no_space (lower_from b w) /\ (w <> [] -> lower_from b w <> []).
Proof.
  revert b. induction w as [|c w IH]; intros b Hw; [done|]. inversion Hw as [|? ? Hc Hw']; subst.
  destruct (lower_char_nonspace b c w Hc) as [Hne Hl]. destruct (IH (c :: b) Hw') as [Hr _].
  simpl. split; [by apply Forall_app|]. intros _ [E _]%app_eq_nil. done.
Qed.

Lemma lower_from_all_space b s : Forall (fun c => uc_isspace c = true) s -> lower_from b s = s.
Proof.
  intros Hs. revert b. induction Hs as [|c s Hc _ IH]; intros b; [done|]. simpl.
  by rewrite lower_char_space, IH.
Qed.

(** [s.lower().split() == [w.lower() for w in s.split()]]. *)
Lemma py_split_lower s : py_split (py_lower s) = map py_lower (py_split s).
Proof.
  induction s as [s IH] using (induction_ltof1 _ (@length N)). unfold ltof in IH.
  destruct (first_space s) as [Hs|(w & c & r & Hw & Hc & ->)].
  - destruct (lower_from_no_space [] s Hs) as [Hl Hne].
    rewrite !py_split_no_space by done. unfold py_lower.
    destruct s as [|x s]; [done|]. assert (lower_from [] (x :: s) <> []) by by apply Hne.
    destruct (lower_from [] (x :: s)) eqn:E; [done|]. cbn [nonempty map]. by rewrite E.
  - destruct (lower_from_no_space [] w Hw) as [Hl Hne]. unfold py_lower at 1.
    rewrite lower_from_space, !py_split_app_space by done. fold (py_lower r).
    rewrite IH by (rewrite length_app; simpl; lia). rewrite map_app. f_equal.
    destruct w as [|x w]; [done|]. assert (lower_from [] (x :: w) <> []) by by apply Hne.
    unfold py_lower. destruct (lower_from [] (x :: w)) eqn:E; [done|]. cbn [nonempty map]. by rewrite E.
Qed.

(** Every word of [s.split()] is non-empty and has no white space. *)
Lemma py_split_words s : Forall (fun w => w <> [] /\ no_space w) (py_split s).
Proof.
  unfold py_split. generalize (split_on_pieces uc_isspace s).
  induction 1 as [|[|c w] l Hw _ IH]; simpl; [done|done|].
  constructor; [|done]. split; [done|exact Hw].
Qed.

Lemma py_split_nil : py_split [] = [].
Proof. reflexivity. Qed.

Lemma py_split_space_cons c s : uc_isspace c = true -> py_split (c :: s) = py_split s.
Proof. intros Hc. unfold py_split. simpl. by rewrite Hc. Qed.

(** A text of white space only has no words. *)
Lemma py_split_all_space s : Forall (fun c => uc_isspace c = true) s -> py_split s = [].
Proof. induction 1 as [|c s Hc _ IH]; [done|]. by rewrite py_split_space_cons. Qed.

Lemma py_lower_all_space s :
  Forall (fun c => uc_isspace c = true) s -> Forall (fun c => uc_isspace c = true) (py_lower s).
Proof. intros Hs. unfold py_lower. by rewrite lower_from_all_space. Qed.

(** What survives the cleaning: word characters and apostrophes. *)
Definition word_or_apostrophe (c : N) : bool := uc_isword c || N.eqb c apostrophe.

Lemma clean_word_chars w : forallb word_or_apostrophe (clean_word w) = true.
Proof.
  unfold clean_word. apply forallb_forall. intros c Hc.
  apply filter_In in Hc. apply Hc.
Qed.

(** ** [str.strip()] *)

(** A string with no white space at either end. *)
Definition trimmed x : Prop := lstrip x = x /\ lstrip (rev x) = rev x.

Lemma length_lstrip_le x : length (lstrip x) <= length x.
Proof. induction x as [|c x IH]; simpl; [lia|]. destruct (uc_isspace c); simpl; lia. Qed.

Lemma lstrip_app x y : x <> [] -> lstrip x = x -> lstrip (x ++ y) = x ++ y.
Proof.
  destruct x as [|c x]; [done|]. simpl. intros _.
  destruct (uc_isspace c) eqn:Hc; [|done].
  intros E. apply (f_equal length) in E.
  pose proof (length_lstrip_le x). simpl in E. lia.
Qed.

Lemma lstrip_space_cons x : lstrip (space :: x) = lstrip x.
Proof. simpl. by rewrite uc_space_space. Qed.

Lemma py_strip_trimmed x : trimmed x -> py_strip x = x.
Proof.
  intros [H1 H2]. unfold py_strip. by rewrite H1, H2, rev_involutive.
Qed.

(** Stripping the trailing space the wrap loop appends. *)
Lemma py_strip_trailing_space x : trimmed x -> py_strip (x ++ [space]) = x.
Proof.
  intros [H1 H2]. unfold py_strip.
  destruct x as [|c x']; [by simpl; rewrite uc_space_space|].
  rewrite lstrip_app, rev_unit, lstrip_space_cons, H2 by done.
  apply rev_involutive.
Qed.

Lemma lstrip_app_gen x y :
  lstrip (x ++ y) = match lstrip x with [] => lstrip y | l => l ++ y end.
Proof.
  induction x as [|c x IH]; [done|]. simpl.
  destruct (uc_isspace c); [done|reflexivity].
Qed.

Lemma lstrip_nil_strip x : lstrip x = [] -> py_strip x = [].
Proof. intros E. unfold py_strip. by rewrite E. Qed.

(** [(x + " ").strip() == x.strip()] *)
Lemma py_strip_snoc_space x : py_strip (x ++ [space]) = py_strip x.
Proof.
  unfold py_strip. rewrite lstrip_app_gen.
  destruct (lstrip x) as [|c l] eqn:E; simpl.
  - by rewrite uc_space_space.
  - rewrite rev_app_distr. simpl. rewrite uc_space_space. done.
Qed.

Lemma length_py_strip x : length (py_strip x) <= length x.
Proof.
  unfold py_strip. rewrite length_rev.
  pose proof (length_lstrip_le (rev (lstrip x))). rewrite length_rev in H.
  pose proof (length_lstrip_le x). lia.
Qed.

(** A word: non-empty, without white space. *)
Definition good_word w : Prop := w <> [] /\ no_space w.

Lemma lstrip_good_word w y : good_word w -> lstrip (w ++ y) = w ++ y.
Proof.
  intros [Hne Hw]. destruct w as [|c w]; [done|].
  inversion Hw as [|? ? Hc]. simpl. by rewrite Hc.
Qed.

Lemma good_word_rev w : good_word w -> good_word (rev w).
Proof.
  intros [Hne Hw]. split.
  - intros E. apply Hne. by apply (f_equal (@rev N)) in E; rewrite rev_involutive in E.
  - by apply Forall_rev.
Qed.

(** Words joined by single spaces have no white space at either end. *)
Lemma trimmed_join (ws : list pystr) :
  ws <> [] -> Forall good_word ws -> trimmed (join [space] ws).
Proof.
  intros Hne Hws. split.
  - destruct ws as [|w ws]; [done|]. inversion Hws; subst.
    destruct ws as [|w' ws]; simpl.
    + rewrite <-(app_nil_r w) at 2. rewrite <-(app_nil_r w) at 1.
      by apply lstrip_good_word.
    + by apply lstrip_good_word.
  - destruct (exists_last Hne) as (ws' & w & ->).
    apply Forall_app in Hws as [_ Hw]. inversion Hw; subst.
    destruct ws' as [|w0 ws'].
    + simpl. rewrite <-(app_nil_r (rev w)) at 1 2. by apply lstrip_good_word, good_word_rev.
    + rewrite join_app_single by done. rewrite app_assoc, rev_app_distr.
      by apply lstrip_good_word, good_word_rev.
Qed.
End pystr_lemmas.

#[export] Hint Resolve trimmed_join good_word_rev : pylist.
