(* ===== verification/Grammar.v ===== *)
(** * The grammar checker (app.py, class [GrammarChecker], lines 24-86)

    The two tables of [__init__] as Python dicts ([gmap], built the way
    a dict literal is evaluated), one iteration of the loop of
    [check_text] as [check_word], the loop over [enumerate(words)] as
    [check_words], and [check_text] itself; then the theorems that
    characterise its output. *)

From S2P Require Import Prelude PyStr.
From stdpp Require Import gmap.
From Stdlib Require Import Sorting.Sorted.

Local Open Scope py_scope.

Module GrammarChecker.

Abbreviation table := (gmap pystr pystr).

(** A dict literal [{k1: v1, k2: v2, ...}]: keys inserted left to
    right, a repeated key keeping its last value. *)
Definition dict_of (l : list (pystr * pystr)) : table :=
  fold_left (fun m kv => <[kv.1 := kv.2]> m) l ∅.

Record GrammarChecker := mkGrammarChecker {
  corrections : table;
  formal_suggestions : table
}.

(** The source file holds accented letters as UTF-8 read back as Mac
    Roman: each of them is the two code points below, the first of
    which is U+221A SQUARE ROOT. *)
Definition e_grave : pystr := [0x221A; 0xAE]%N.    (* "√®" for "è" *)
Definition e_acute : pystr := [0x221A; 0xA9]%N.    (* "√©" for "é" *)
Definition o_grave : pystr := [0x221A; 0x2264]%N.  (* "√≤" for "ò" *)
Definition a_grave : pystr := [0x221A; 0x2020]%N.  (* "√†" for "à" *)
Definition u_grave : pystr := [0x221A; 0x3C0]%N.   (* "√π" for "ù" *)

Definition corrections_literal : list (pystr * pystr) := [
  (⟪"qual "⟫ ++ e_grave, ⟪"qual "⟫ ++ e_grave);
  (⟪"qual"⟫ ++ e_grave, ⟪"qual "⟫ ++ e_grave);
  (⟪"qualcos"⟫ ++ e_grave, ⟪"qualcos'"⟫ ++ e_grave);
  (⟪"perch"⟫ ++ e_grave, ⟪"perch"⟫ ++ e_acute);
  (⟪"perch"⟫ ++ e_acute, ⟪"perch"⟫ ++ e_acute);
  (⟪"per"⟫ ++ o_grave, ⟪"per"⟫ ++ o_grave);
  (⟪"citt"⟫ ++ a_grave, ⟪"citt"⟫ ++ a_grave);
  (⟪"universit"⟫ ++ a_grave, ⟪"universit"⟫ ++ a_grave);
  (⟪"felicit"⟫ ++ a_grave, ⟪"felicit"⟫ ++ a_grave);
  (⟪"attivit"⟫ ++ a_grave, ⟪"attivit"⟫ ++ a_grave);
  (⟪"societ"⟫ ++ a_grave, ⟪"societ"⟫ ++ a_grave)].

Definition formal_literal : list (pystr * pystr) := [
  (⟪"ciao"⟫, ⟪"saluti"⟫);
  (⟪"hey"⟫, ⟪"gentile signore/signora"⟫);
  (⟪"ok"⟫, ⟪"d'accordo"⟫);
  (⟪"grazie mille"⟫, ⟪"la ringrazio sentitamente"⟫);
  (⟪"ti scrivo"⟫, ⟪"le scrivo"⟫);
  (⟪"puoi"⟫, ⟪"pu"⟫ ++ o_grave);
  (⟪"vuoi"⟫, ⟪"desidera"⟫)].

(** [GrammarChecker()], the module-level [grammar_checker]. *)
Definition init : GrammarChecker := {|
  corrections := dict_of corrections_literal;
  formal_suggestions := dict_of formal_literal
|}.

Inductive SuggestionType := Spelling | Formality.

#[export] Instance SuggestionType_eq_dec : EqDecision SuggestionType.
Proof. solve_decision. Defined.

(** The dict appended to [suggestions]. *)
Record Suggestion := mkSuggestion {
  stype : SuggestionType;
  original : pystr;
  suggestion : pystr;
  position : nat;
  explanation : pystr
}.

Definition spelling_explanation : pystr := ⟪"Correzione ortografica suggerita"⟫.
Definition formality_explanation : pystr :=
  ⟪"Suggerimento per linguaggio pi"⟫ ++ u_grave ++ ⟪" formale"⟫.

Section check.
Context {DB : UnicodeDB}.

(** The body of the loop for word [word] at index [i]. *)
Definition check_word (gc : GrammarChecker) (i : nat) (word : pystr) : list Suggestion :=
  let clean := clean_word word in
  match corrections gc !! clean with
  | Some s => [mkSuggestion Spelling word s i spelling_explanation]
  | None => []
  end ++
  match formal_suggestions gc !! clean with
  | Some s => [mkSuggestion Formality word s i formality_explanation]
  | None => []
  end.

(** [for i, word in enumerate(words)], from index [i]. *)
Fixpoint check_words (gc : GrammarChecker) (i : nat) (words : list pystr) : list Suggestion :=
  match words with
  | [] => []
  | w :: ws => check_word gc i w ++ check_words gc (S i) ws
  end.

(** [GrammarChecker.check_text] *)
Definition check_text (gc : GrammarChecker) (text : pystr) : list Suggestion :=
  check_words gc 0 (py_split (py_lower text)).
End check.

(** ** The output of [check_text], for every Unicode database *)

Section check_lemmas.
Context {DB : UnicodeDB}.
Implicit Types (gc : GrammarChecker) (w text : pystr) (ws : list pystr).

(** The suggestions word [w] at index [i] gives rise to. *)
Definition emits gc (i : nat) w (sg : Suggestion) : Prop :=
  original sg = w /\ position sg = i /\
  ((stype sg = Spelling /\ corrections gc !! clean_word w = Some (suggestion sg)
    /\ explanation sg = spelling_explanation) \/
   (stype sg = Formality /\ formal_suggestions gc !! clean_word w = Some (suggestion sg)
    /\ explanation sg = formality_explanation)).

Lemma check_word_spec gc i w sg : In sg (check_word gc i w) <-> emits gc i w sg.
Proof.
  unfold check_word, emits. rewrite in_app_iff.
  destruct sg as [t o s p e]; simpl.
  destruct (corrections gc !! _), (formal_suggestions gc !! _); simpl;
    split; intros Hin; destruct_hyps; simplify_eq; auto 10.
Qed.

Lemma check_word_position gc i w : Forall (fun sg => position sg = i) (check_word gc i w).
Proof. apply List.Forall_forall. intros sg Hsg%check_word_spec. apply Hsg. Qed.

Lemma check_word_length gc i w : length (check_word gc i w) <= 2.
Proof.
  unfold check_word. rewrite length_app.
  destruct (corrections gc !! _), (formal_suggestions gc !! _); simpl; lia.
Qed.

Lemma check_words_spec gc i ws sg :
  In sg (check_words gc i ws) <-> exists k w, ws !! k = Some w /\ emits gc (i + k) w sg.
Proof.
  revert i. induction ws as [|w ws IH]; intros i; simpl.
  - split; [done|]. by intros (k & w & Hk & _).
  - rewrite in_app_iff, check_word_spec, IH. split.
    + intros [Hw | (k & w' & Hk & Hem)].
      * exists 0, w. by rewrite Nat.add_0_r.
      * exists (S k), w'. by rewrite Nat.add_succ_r.
    + intros ([|k] & w' & Hk & Hem); simplify_eq/=.
      * left. by rewrite Nat.add_0_r in Hem.
      * right. exists k, w'. by rewrite Nat.add_succ_r in Hem.
Qed.

(** Every suggestion of [check_text] comes from the word at its position. *)
Lemma check_text_emits gc text sg :
  In sg (check_text gc text) ->
  exists w, py_split (py_lower text) !! position sg = Some w /\ emits gc (position sg) w sg.
Proof.
  unfold check_text. rewrite check_words_spec. intros (k & w & Hk & Hem).
  pose proof Hem as (_ & Hp & _). simpl in Hp. rewrite Hp. eauto.
Qed.

Lemma check_words_positions gc i ws :
  Forall (fun sg => i <= position sg < i + length ws) (check_words gc i ws).
Proof.
  apply List.Forall_forall. intros sg (k & w & Hk & _ & Hp & _)%check_words_spec.
  apply lookup_lt_Some in Hk. lia.
Qed.

Lemma check_words_length gc i ws : length (check_words gc i ws) <= 2 * length ws.
Proof.
  revert i. induction ws as [|w ws IH]; intros i; simpl; [lia|].
  rewrite length_app. pose proof (check_word_length gc i w). specialize (IH (S i)). lia.
Qed.

(** The suggestions at one index are those of the word at that index. *)
Lemma check_words_at gc i ws k :
  List.filter (fun sg => Nat.eqb (position sg) (i + k)) (check_words gc i ws)
  = match ws !! k with Some w => check_word gc (i + k) w | None => [] end.
Proof.
  revert i k. induction ws as [|w ws IH]; intros i k; [by destruct k|].
  simpl. rewrite List.filter_app. destruct k as [|k]; simpl.
  - rewrite Nat.add_0_r, lfilter_all, lfilter_none, app_nil_r; [done| |].
    + eapply Forall_impl; [apply (check_words_positions gc (S i) ws)|].
      intros sg Hp. simpl in Hp. apply Nat.eqb_neq. lia.
    + eapply Forall_impl; [apply check_word_position|].
      intros sg ->. apply Nat.eqb_refl.
  - rewrite lfilter_none, Nat.add_succ_r, <-Nat.add_succ_l, IH; [done|].
    eapply Forall_impl; [apply check_word_position|].
    intros sg ->. apply Nat.eqb_neq. lia.
Qed.

(** Suggestions come by position, spelling before formality. *)
Definition before (a b : Suggestion) : Prop :=
  position a < position b \/
  (position a = position b /\ stype a = Spelling /\ stype b = Formality).

Lemma check_word_sorted gc i w : StronglySorted before (check_word gc i w).
Proof.
  unfold check_word.
  destruct (corrections gc !! _), (formal_suggestions gc !! _); simpl;
    repeat constructor; right; repeat split.
Qed.

Lemma check_words_sorted gc i ws : StronglySorted before (check_words gc i ws).
Proof.
  revert i. induction ws as [|w ws IH]; intros i; simpl; [constructor|].
  apply StronglySorted_app; [apply check_word_sorted|apply IH|].
  intros a b Ha Hb. left.
  pose proof (check_word_position gc i w) as Hpa.
  pose proof (check_words_positions gc (S i) ws) as Hpb.
  rewrite List.Forall_forall in Hpa, Hpb.
  specialize (Hpa a Ha). specialize (Hpb b Hb). simpl in Hpb. lia.
Qed.
End check_lemmas.

(** ** The dict literals *)

Lemma dict_of_lookup_in (l : list (pystr * pystr)) k v :
  dict_of l !! k = Some v -> In (k, v) l.
Proof.
  unfold dict_of.
  enough (forall m : table, fold_left (fun m kv => <[kv.1 := kv.2]> m) l m !! k = Some v ->
                    In (k, v) l \/ m !! k = Some v) as Hgen.
  { intros Hk. by destruct (Hgen ∅ Hk). }
  induction l as [|[k' v'] l IH]; intros m Hk; simpl in *; [by right|].
  destruct (IH _ Hk) as [Hin|Hm]; [by left; right|].
  destruct (decide (k' = k)) as [->|Hne].
  - rewrite lookup_insert_eq in Hm. simplify_eq. by left; left.
  - rewrite lookup_insert_ne in Hm by done. by right.
Qed.

(** The spec's contract (spec.md 4.1): tokens are the white-space
    separated words of the raw text with their index; a token's
    normalised form is its lower-cased, cleaned text; a suggestion
    carries the raw token. *)
Record Token := mkToken { raw : pystr; index : nat }.

Section spec.
Context {DB : UnicodeDB}.

Definition normalized (t : Token) : pystr := clean_word (py_lower (raw t)).

Definition tokenize (text : pystr) : list Token :=
  zip_with (fun w i => mkToken w i) (py_split text) (seq 0 (length (py_split text))).

Definition spec_suggestions (gc : GrammarChecker) (t : Token) : list Suggestion :=
  match corrections gc !! normalized t with
  | Some s => [mkSuggestion Spelling (raw t) s (index t) spelling_explanation]
  | None => []
  end ++
  match formal_suggestions gc !! normalized t with
  | Some s => [mkSuggestion Formality (raw t) s (index t) formality_explanation]
  | None => []
  end.

Definition spec_check (gc : GrammarChecker) (text : pystr) : list Suggestion :=
  flat_map (spec_suggestions gc) (tokenize text).

Definition lower_original (sg : Suggestion) : Suggestion :=
  mkSuggestion (stype sg) (py_lower (original sg)) (suggestion sg) (position sg)
    (explanation sg).

Lemma check_words_spec_tokens gc i ws :
  check_words gc i (map py_lower ws) =
  map lower_original (flat_map (spec_suggestions gc)
    (zip_with (fun w i => mkToken w i) ws (seq i (length ws)))).
Proof.
  revert i. induction ws as [|w ws IH]; intros i; [done|].
  simpl. rewrite map_app, IH. f_equal.
  unfold check_word, spec_suggestions, normalized. simpl.
  by destruct (corrections gc !! _), (formal_suggestions gc !! _).
Qed.
End spec.

(** ** Properties of [check_text] *)

Section check_theorems.
Context {DB : UnicodeDB}.
Implicit Types (gc : GrammarChecker) (text : pystr).

(** C1: [check_text] emits exactly the suggestions of its words: a
    suggestion is in the output iff the word at its position (in
    the lower-cased, white-space split text) is its [original], and
    it is a [spelling] suggestion whose cleaned word maps to its
    [suggestion] in [corrections], or a [formality] one whose
    cleaned word maps to it in [formal_suggestions]. *)
Theorem check_text_spec gc text sg :
  In sg (check_text gc text) <->
  exists w, py_split (py_lower text) !! position sg = Some w /\ emits gc (position sg) w sg.
Proof.
  split; [apply check_text_emits|].
  intros (w & Hw & Hem). unfold check_text. apply check_words_spec.
  by exists (position sg), w.
Qed.

(** C2: a word whose cleaned form is a key of both tables yields
    exactly two suggestions at its index, the spelling one first. *)
Theorem check_text_both_tables gc text k w a b :
  py_split (py_lower text) !! k = Some w ->
  corrections gc !! clean_word w = Some a ->
  formal_suggestions gc !! clean_word w = Some b ->
  List.filter (fun sg => Nat.eqb (position sg) k) (check_text gc text) =
  [mkSuggestion Spelling w a k spelling_explanation;
   mkSuggestion Formality w b k formality_explanation].
Proof.
  intros Hk Ha Hb. unfold check_text.
  rewrite (check_words_at gc 0 _ k), Hk. unfold check_word. by rewrite Ha, Hb.
Qed.

(** C3: at most two suggestions per white-space separated word of the
    raw text. *)
Theorem check_text_length_bound gc text :
  length (check_text gc text) <= 2 * length (py_split text).
Proof.
  unfold check_text. rewrite py_split_lower.
  rewrite <-(length_map py_lower (py_split text)). apply check_words_length.
Qed.

(** C4: the output is strictly ordered by word index, and at one
    index the spelling suggestion precedes the formality one. *)
Theorem check_text_sorted gc text : StronglySorted before (check_text gc text).
Proof. apply check_words_sorted. Qed.

(** C5: a text of white space only (the empty text included) yields
    no suggestion. *)
Theorem check_text_blank gc text :
  Forall (fun c => uc_isspace c = true) text -> check_text gc text = [].
Proof.
  intros Hs. unfold check_text.
  by rewrite (py_split_all_space (py_lower text)) by by apply py_lower_all_space.
Qed.

(** C6: [check_text] refines the spec's contract: it returns the
    suggestions of the tokens of the raw text, in order, except that
    each suggestion's [original] is the lower-cased token, not the
    token as written. *)
Theorem check_text_refines_spec gc text :
  check_text gc text = map lower_original (spec_check gc text).
Proof.
  unfold check_text, spec_check, tokenize. rewrite py_split_lower.
  apply check_words_spec_tokens.
Qed.
End check_theorems.

(** A checker whose two tables share the key "ciao". *)
Definition both_tables_checker : GrammarChecker :=
  mkGrammarChecker {[⟪"ciao"⟫ := ⟪"Ciao"⟫]} (formal_suggestions init).

Lemma check_text_both_tables_witness :
  py_split (py_lower ⟪"Ciao!"⟫) !! 0 = Some ⟪"ciao!"⟫ /\
  corrections both_tables_checker !! clean_word ⟪"ciao!"⟫ = Some ⟪"Ciao"⟫ /\
  formal_suggestions both_tables_checker !! clean_word ⟪"ciao!"⟫ = Some ⟪"saluti"⟫ /\
  List.filter (fun sg => Nat.eqb (position sg) 0) (check_text both_tables_checker ⟪"Ciao!"⟫) =
  [mkSuggestion Spelling ⟪"ciao!"⟫ ⟪"Ciao"⟫ 0 spelling_explanation;
   mkSuggestion Formality ⟪"ciao!"⟫ ⟪"saluti"⟫ 0 formality_explanation].
Proof.
  split; [vm_compute; reflexivity|]. split; [vm_compute; reflexivity|].
  split; [vm_compute; reflexivity|].
  apply check_text_both_tables; vm_compute; reflexivity.
Defined.

Lemma check_text_blank_witness :
  Forall (fun c => uc_isspace c = true) [space; newline; 0xA0%N] /\
  check_text init [space; newline; 0xA0%N] = [].
Proof.
  assert (H : Forall (fun c => uc_isspace c = true) [space; newline; 0xA0%N])
    by (repeat constructor).
  split; [exact H|]. exact (check_text_blank init _ H).
Defined.

(** ** The tables of [__init__], with CPython's Unicode tables *)

(** Keys of a table that a cleaned word can equal. *)
Definition live_rules (l : list (pystr * pystr)) : list (pystr * pystr) :=
  List.filter (fun kv => forallb word_or_apostrophe kv.1) l.

Definition reachable_formal : list (pystr * pystr) := [
  (⟪"ciao"⟫, ⟪"saluti"⟫);
  (⟪"hey"⟫, ⟪"gentile signore/signora"⟫);
  (⟪"ok"⟫, ⟪"d'accordo"⟫);
  (⟪"puoi"⟫, ⟪"pu"⟫ ++ o_grave);
  (⟪"vuoi"⟫, ⟪"desidera"⟫)].

Lemma dict_of_live (l : list (pystr * pystr)) w v :
  dict_of l !! clean_word w = Some v -> In (clean_word w, v) (live_rules l).
Proof.
  intros Hk%dict_of_lookup_in. apply filter_In. split; [done|].
  apply clean_word_chars.
Qed.

Lemma live_corrections : live_rules corrections_literal = [].
Proof. vm_compute. reflexivity. Qed.

Lemma live_formal : live_rules formal_literal = reachable_formal.
Proof. vm_compute. reflexivity. Qed.

(** C7: with the tables of [__init__], [check_text] never emits a
    spelling suggestion (every key of [corrections] contains U+221A,
    which the cleaning removes), and its formality suggestions come
    only from the five one-word rules: "grazie mille" and "ti scrivo"
    contain a space and never match a word. *)
Theorem init_suggestions_formality_only text sg :
  In sg (check_text init text) ->
  stype sg = Formality /\ In (clean_word (original sg), suggestion sg) reachable_formal.
Proof.
  intros (w & _ & Ho & _ & Hcase)%check_text_emits. rewrite Ho.
  destruct Hcase as [(_ & Hc & _)|(Ht & Hf & _)].
  - apply dict_of_live in Hc. by rewrite live_corrections in Hc.
  - apply dict_of_live in Hf. by rewrite live_formal in Hf.
Qed.

Lemma init_suggestions_formality_only_witness :
  In (mkSuggestion Formality ⟪"ciao"⟫ ⟪"saluti"⟫ 0 formality_explanation)
     (check_text init ⟪"Ciao"⟫) /\
  stype (mkSuggestion Formality ⟪"ciao"⟫ ⟪"saluti"⟫ 0 formality_explanation) = Formality /\
  In (clean_word ⟪"ciao"⟫, ⟪"saluti"⟫) reachable_formal.
Proof.
  assert (H : In (mkSuggestion Formality ⟪"ciao"⟫ ⟪"saluti"⟫ 0 formality_explanation)
                 (check_text init ⟪"Ciao"⟫)) by (vm_compute; left; reflexivity).
  split; [exact H|].
  exact (init_suggestions_formality_only ⟪"Ciao"⟫ _ H).
Defined.

End GrammarChecker.
