(* ===== verification/Pdf.v ===== *)
(** * The PDF export (app.py, [export_pdf], lines 284-336)

    The handler's calls on the reportlab canvas as a list of
    [CanvasOp]s, its two local variables [y_position] and the canvas as
    the record [PdfState], the inner wrap loop's [current_line] as
    [WrapState]; one iteration of the outer loop is [process_line] and
    [export_pdf_ops] is the whole call sequence.  [wrap_texts] computes
    only the texts of the wrap loop, and [layout] reads the spec's
    LayoutLine records (text, page, offset) off a call sequence. *)

From S2P Require Import Prelude PyStr.

Local Open Scope py_scope.

Module ExportPdf.

(** The canvas methods the handler calls. *)
Inductive CanvasOp :=
| SetFont (name : pystr) (size : Z)     (* p.setFont(name, size) *)
| DrawString (x y : Z) (text : pystr)   (* p.drawString(x, y, text) *)
| ShowPage                              (* p.showPage() *)
| Save.                                 (* p.save() *)

Definition helvetica_bold : pystr := ⟪"Helvetica-Bold"⟫.
Definition helvetica : pystr := ⟪"Helvetica"⟫.

(** The literals of the handler. *)
Definition left_x : Z := 50.          (* drawString(50, ...) *)
Definition title_y : Z := 750.        (* p.drawString(50, 750, title) *)
Definition content_top : Z := 720.    (* y_position = 720 *)
Definition bottom_y : Z := 50.        (* if y_position < 50 *)
Definition page_top : Z := 750.       (* y_position = 750 after showPage *)
Definition line_pitch : Z := 15.      (* y_position -= 15 *)
Definition wrap_width : nat := 80.    (* len(line) > 80, len(...) < 80 *)

(** The handler's mutable state: [y_position] and the calls made so
    far on the canvas, in order. *)
Record PdfState := mkPdfState { y_position : Z; canvas : list CanvasOp }.

(** [p.drawString(50, y_position, text); y_position -= 15] *)
Definition draw (st : PdfState) (text : pystr) : PdfState :=
  mkPdfState (y_position st - line_pitch)
             (canvas st ++ [DrawString left_x (y_position st) text]).

(** [if y_position < 50: p.showPage(); y_position = 750] *)
Definition new_page_if_needed (st : PdfState) : PdfState :=
  if (y_position st <? bottom_y)%Z
  then mkPdfState page_top (canvas st ++ [ShowPage])
  else st.

Record WrapState := mkWrapState { current_line : pystr; wstate : PdfState }.

Section pdf.
Context {DB : UnicodeDB}.

(** One iteration of [for word in words] (lines 313-319). *)
Definition wrap_step (ws : WrapState) (word : pystr) : WrapState :=
  if Nat.ltb (length (current_line ws ++ word)) wrap_width
  then mkWrapState (current_line ws ++ word ++ [space]) (wstate ws)
  else mkWrapState (word ++ [space]) (draw (wstate ws) (py_strip (current_line ws))).

(** Lines 311-322: split on single spaces, run the loop from an
    empty [current_line], and draw what is left. *)
Definition wrap_line (st : PdfState) (line : pystr) : PdfState :=
  let ws := fold_left wrap_step (py_split_sep space line) (mkWrapState [] st) in
  if nonempty (current_line ws)
  then draw (wstate ws) (py_strip (current_line ws))
  else wstate ws.

(** One iteration of [for line in lines] (lines 305-325). *)
Definition process_line (st : PdfState) (line : pystr) : PdfState :=
  let st1 := new_page_if_needed st in
  if Nat.ltb wrap_width (length line) then wrap_line st1 line else draw st1 line.

(** The state after the title (lines 296-302). *)
Definition initial_state (title : pystr) : PdfState :=
  mkPdfState content_top
    [SetFont helvetica_bold 16; DrawString left_x title_y title; SetFont helvetica 12].

(** Every call [export_pdf] makes on the canvas, [p.save()] last. *)
Definition export_pdf_ops (title content : pystr) : list CanvasOp :=
  canvas (fold_left process_line (py_split_sep newline content) (initial_state title))
  ++ [Save].

(** The texts the wrap loop draws for a line, without the offsets. *)
Definition wrap_acc (acc : pystr * list pystr) (word : pystr) : pystr * list pystr :=
  let '(cur, out) := acc in
  if Nat.ltb (length (cur ++ word)) wrap_width
  then (cur ++ word ++ [space], out)
  else (word ++ [space], out ++ [py_strip cur]).

Definition wrap_texts (line : pystr) : list pystr :=
  let '(cur, out) := fold_left wrap_acc (py_split_sep space line) ([], []) in
  if nonempty cur then out ++ [py_strip cur] else out.
End pdf.

(** Drawing texts one after the other. *)
Definition draw_all (st : PdfState) (texts : list pystr) : PdfState :=
  fold_left draw texts st.

(** ** The spec's view: LayoutLine records *)

Record LayoutLine := mkLayoutLine { ll_text : pystr; ll_page : nat; ll_y : Z }.

Fixpoint layout_from (page : nat) (ops : list CanvasOp) : list LayoutLine :=
  match ops with
  | [] => []
  | DrawString _ y t :: r => mkLayoutLine t page y :: layout_from page r
  | ShowPage :: r => layout_from (S page) r
  | _ :: r => layout_from page r
  end.

(** The lines drawn, with their 1-based page. *)
Definition layout (ops : list CanvasOp) : list LayoutLine := layout_from 1 ops.

Definition is_show_page (op : CanvasOp) : bool :=
  match op with ShowPage => true | _ => false end.

(** reportlab emits one page per [showPage] call, and [save] the last. *)
Definition page_count (ops : list CanvasOp) : nat :=
  S (length (List.filter is_show_page ops)).

Fixpoint drawn_texts (ops : list CanvasOp) : list pystr :=
  match ops with
  | [] => []
  | DrawString _ _ t :: r => t :: drawn_texts r
  | _ :: r => drawn_texts r
  end.

(** A drawn line whose offset is inside the page margins. *)
Definition in_margins (op : CanvasOp) : Prop :=
  match op with DrawString _ y _ => (bottom_y <= y <= page_top)%Z | _ => True end.

(** ** Drawing *)

Lemma draw_all_app st ts ts' : draw_all st (ts ++ ts') = draw_all (draw_all st ts) ts'.
Proof. apply fold_left_app. Qed.

Lemma draw_all_y st ts :
  y_position (draw_all st ts) = (y_position st - line_pitch * Z.of_nat (length ts))%Z.
Proof.
  revert st. induction ts as [|t ts IH]; intros st; simpl; [lia|].
  rewrite IH. simpl. lia.
Qed.

(** The texts are drawn one below the other from the current offset. *)
Lemma draw_all_canvas st ts :
  canvas (draw_all st ts) =
  canvas st ++ imap (fun i t => DrawString left_x (y_position st - line_pitch * Z.of_nat i) t) ts.
Proof.
  revert st. induction ts as [|t ts IH]; intros st; simpl; [by rewrite app_nil_r|].
  rewrite IH. simpl. rewrite <-app_assoc. f_equal. simpl.
  f_equal; [f_equal; lia|]. apply imap_ext. intros i x _. simpl. f_equal. lia.
Qed.

Section pdf_lemmas.
Context {DB : UnicodeDB}.

Lemma fold_wrap_step st words cur out :
  fold_left wrap_step words (mkWrapState cur (draw_all st out)) =
  let '(cur', out') := fold_left wrap_acc words (cur, out) in
  mkWrapState cur' (draw_all st out').
Proof.
  revert cur out. induction words as [|w words IH]; intros cur out; [done|].
  simpl. unfold wrap_step. simpl.
  destruct (Nat.ltb _ _).
  - apply IH.
  - rewrite <-IH. unfold draw_all. by rewrite fold_left_app.
Qed.

(** The wrap loop draws [wrap_texts line] at consecutive offsets. *)
Lemma wrap_line_draw_all st line : wrap_line st line = draw_all st (wrap_texts line).
Proof.
  unfold wrap_line, wrap_texts.
  change (mkWrapState [] st) with (mkWrapState [] (draw_all st [])).
  rewrite fold_wrap_step.
  destruct (fold_left wrap_acc _ _) as [cur out]; simpl.
  destruct (nonempty cur); [|done]. by rewrite draw_all_app.
Qed.

(** Every input line is drawn as a list of texts from the offset left
    by the page check. *)
Definition line_texts (line : pystr) : list pystr :=
  if Nat.ltb wrap_width (length line) then wrap_texts line else [line].

Lemma process_line_draw_all st line :
  process_line st line = draw_all (new_page_if_needed st) (line_texts line).
Proof.
  unfold process_line, line_texts.
  destruct (Nat.ltb _ _); [apply wrap_line_draw_all|done].
Qed.

(** *** Round trip of the wrap loop *)

(** The words so far, [processed], are the texts already drawn (empty
    ones left out) followed by the words [cws] of [current_line]. *)
Definition wrap_inv (acc : pystr * list pystr) (processed : list pystr) : Prop :=
  exists cws, cws <> [] /\ Forall good_word cws /\
    acc.1 = join [space] cws ++ [space] /\
    join [space] (List.filter nonempty acc.2 ++ [join [space] cws]) = join [space] processed.

Lemma join_snoc_not_nil (sep : pystr) (l : list pystr) x :
  x <> [] -> join sep (l ++ [x]) <> [].
Proof.
  intros Hx. destruct l as [|a l]; [done|].
  rewrite join_app_single by done. intros E.
  apply app_eq_nil in E as [_ E]. apply app_eq_nil in E as [_ E]. done.
Qed.

Lemma join_snoc_app (l : list pystr) x y :
  join [space] (l ++ [x ++ y]) = join [space] (l ++ [x]) ++ y.
Proof.
  destruct l as [|a l]; [done|].
  rewrite !join_app_single by done. by rewrite !app_assoc.
Qed.

Lemma nonempty_join (ws : list pystr) :
  ws <> [] -> Forall good_word ws -> nonempty (join [space] ws) = true.
Proof.
  intros Hne Hws. destruct ws as [|w ws]; [done|].
  inversion Hws as [|? ? [Hw _]]; subst.
  destruct w as [|c w]; [done|]. by destruct ws.
Qed.

Lemma wrap_inv_first w : good_word w -> wrap_inv (wrap_acc ([], []) w) [w].
Proof.
  intros Hw. exists [w]. unfold wrap_acc.
  destruct (Nat.ltb _ _); simpl; repeat split; auto.
Qed.

Lemma wrap_inv_step acc processed w :
  good_word w -> wrap_inv acc processed -> wrap_inv (wrap_acc acc w) (processed ++ [w]).
Proof.
  intros Hw (cws & Hne & Hcws & Hcur & Hjoin). destruct acc as [cur out]; simpl in *.
  assert (processed <> []) as Hp.
  { intros ->. apply (join_snoc_not_nil [space] (List.filter nonempty out) (join [space] cws)).
    - destruct cws as [|w0 ws0]; [done|]. inversion Hcws as [|? ? [Hw0 _]]; subst.
      destruct w0; [done|]. by destruct ws0.
    - exact Hjoin. }
  subst cur. destruct (Nat.ltb _ _).
  - exists (cws ++ [w]). simpl.
    split; [by intros [_ ?]%app_eq_nil|]. split; [apply Forall_app; split; [done|by constructor]|].
    rewrite join_app_single by done. split; [by rewrite <-!app_assoc|].
    by rewrite join_snoc_app, Hjoin, join_app_single.
  - exists [w]. repeat split; auto.
    rewrite py_strip_trailing_space by by apply trimmed_join.
    simpl. rewrite List.filter_app. simpl. rewrite nonempty_join by done.
    rewrite join_app_single by (by intros [_ ?]%app_eq_nil).
    by rewrite Hjoin, join_app_single.
Qed.

Lemma wrap_inv_fold acc processed words :
  Forall good_word words -> wrap_inv acc processed ->
  wrap_inv (fold_left wrap_acc words acc) (processed ++ words).
Proof.
  intros Hws. revert acc processed. induction Hws as [|w words Hw _ IH];
    intros acc processed Hinv; simpl; [by rewrite app_nil_r|].
  rewrite cons_middle, app_assoc. apply IH. by apply wrap_inv_step.
Qed.

(** A line made of non-empty words separated by single spaces, with
    no other white space. *)
Definition single_spaced (line : pystr) : bool :=
  forallb (fun w => nonempty w && forallb (fun c => negb (uc_isspace c)) w)
          (py_split_sep space line).

Lemma single_spaced_words line :
  single_spaced line = true -> Forall good_word (py_split_sep space line).
Proof.
  unfold single_spaced. intros Hs. apply List.Forall_forall. intros w Hw.
  eapply forallb_forall in Hs; [|exact Hw]. apply andb_true_iff in Hs as [Hne Hns].
  split; [by destruct w|]. apply List.Forall_forall. intros c Hc.
  eapply forallb_forall in Hns; [|exact Hc]. by apply negb_true_iff.
Qed.

Lemma wrap_texts_roundtrip line :
  single_spaced line = true -> join [space] (List.filter nonempty (wrap_texts line)) = line.
Proof.
  intros Hs%single_spaced_words. unfold wrap_texts.
  destruct (py_split_sep space line) as [|w ws] eqn:E; [by apply split_on_not_nil in E|].
  inversion Hs as [|? ? Hw Hws]; subst. simpl.
  destruct (wrap_inv_fold _ [w] ws Hws (wrap_inv_first w Hw)) as (cws & Hne & Hcws & Hcur & Hjoin).
  destruct (fold_left wrap_acc ws _) as [cur out]. simpl in *. subst cur.
  replace (nonempty (join [space] cws ++ [space])) with true by (by destruct (join [space] cws)).
  rewrite py_strip_trailing_space by by apply trimmed_join.
  rewrite List.filter_app. simpl. rewrite nonempty_join by done.
  rewrite Hjoin. rewrite <-(join_split_sep space line), E. done.
Qed.

(** *** Width of the wrapped lines *)

Definition fits_or_word (words : list pystr) (t : pystr) : Prop :=
  length t < wrap_width \/ exists w, In w words /\ t = py_strip w.

Definition wrap_width_inv (words : list pystr) (acc : pystr * list pystr) : Prop :=
  (acc.1 = [] \/ (exists x, acc.1 = x ++ [space] /\ length x < wrap_width)
             \/ (exists w, In w words /\ acc.1 = w ++ [space])) /\
  Forall (fits_or_word words) acc.2.

Lemma fits_or_word_strip words cur :
  (cur = [] \/ (exists x, cur = x ++ [space] /\ length x < wrap_width)
            \/ (exists w, In w words /\ cur = w ++ [space])) ->
  fits_or_word words (py_strip cur).
Proof.
  intros [->|[(x & -> & Hx)|(w & Hw & ->)]].
  - left. cbv. lia.
  - left. rewrite py_strip_snoc_space. pose proof (length_py_strip x). lia.
  - right. exists w. by rewrite py_strip_snoc_space.
Qed.

Lemma wrap_width_fold words sub acc :
  (forall w, In w sub -> In w words) -> wrap_width_inv words acc ->
  wrap_width_inv words (fold_left wrap_acc sub acc).
Proof.
  revert acc. induction sub as [|w sub IH]; intros [cur out] Hsub [Hcur Hout]; simpl; [by split|].
  apply IH; [intros v Hv; apply Hsub; by right|].
  unfold wrap_acc. destruct (Nat.ltb _ _) eqn:Hlt; split; simpl.
  - right; left. exists (cur ++ w). split; [by rewrite <-app_assoc|].
    by apply Nat.ltb_lt.
  - done.
  - right; right. exists w. split; [apply Hsub; by left|done].
  - apply Forall_app. split; [done|]. constructor; [|done].
    by apply fits_or_word_strip.
Qed.

Lemma wrap_texts_width line :
  Forall (fits_or_word (py_split_sep space line)) (wrap_texts line).
Proof.
  unfold wrap_texts.
  pose proof (wrap_width_fold (py_split_sep space line) (py_split_sep space line) ([], [])
                (fun w Hw => Hw) (conj (or_introl eq_refl) (Forall_nil _))) as [Hcur Hout].
  destruct (fold_left wrap_acc _ _) as [cur out]; simpl in *.
  destruct (nonempty cur); [|done].
  apply Forall_app. split; [done|]. constructor; [|done]. by apply fits_or_word_strip.
Qed.

(** *** Offsets and pages *)

Lemma drawn_texts_app ops ops' : drawn_texts (ops ++ ops') = drawn_texts ops ++ drawn_texts ops'.
Proof. induction ops as [|[] ops IH]; simpl; by rewrite ?IH. Qed.

Lemma drawn_texts_draws (f : nat -> Z) ts :
  drawn_texts (imap (fun i t => DrawString left_x (f i) t) ts) = ts.
Proof.
  revert f. induction ts as [|t ts IH]; intros f; [done|]. simpl.
  f_equal. apply (IH (fun i => f (S i))).
Qed.

Lemma show_pages_draws (f : nat -> Z) ts :
  List.filter is_show_page (imap (fun i t => DrawString left_x (f i) t) ts) = [].
Proof.
  revert f. induction ts as [|t ts IH]; intros f; [done|]. simpl.
  apply (IH (fun i => f (S i))).
Qed.

Lemma new_page_bounds st :
  (y_position st <= page_top)%Z ->
  (bottom_y <= y_position (new_page_if_needed st) <= page_top)%Z.
Proof.
  unfold new_page_if_needed. destruct (Z.ltb_spec (y_position st) bottom_y); simpl;
    cbv [bottom_y page_top] in *; lia.
Qed.

Lemma process_line_y st line :
  (y_position (process_line st line) <= y_position (new_page_if_needed st))%Z.
Proof. rewrite process_line_draw_all, draw_all_y. cbv [line_pitch]. lia. Qed.

Lemma fold_process_y lines st :
  (y_position st <= page_top)%Z ->
  (y_position (fold_left process_line lines st) <= page_top)%Z.
Proof.
  revert st. induction lines as [|l lines IH]; intros st Hy; [done|].
  apply IH. pose proof (process_line_y st l). pose proof (new_page_bounds st Hy). lia.
Qed.

Lemma new_page_canvas st :
  canvas (new_page_if_needed st) = canvas st \/
  canvas (new_page_if_needed st) = canvas st ++ [ShowPage].
Proof. unfold new_page_if_needed. destruct (_ <? _)%Z; auto. Qed.

(** Short lines keep every offset inside the margins. *)
Lemma fold_process_margins lines st :
  Forall (fun line => length line <= wrap_width) lines ->
  (y_position st <= page_top)%Z -> Forall in_margins (canvas st) ->
  Forall in_margins (canvas (fold_left process_line lines st)).
Proof.
  intros Hl. revert st. induction Hl as [|l lines Hl _ IH]; intros st Hy Hc; [done|].
  simpl. apply IH.
  - pose proof (process_line_y st l). pose proof (new_page_bounds st Hy). lia.
  - unfold process_line. replace (Nat.ltb wrap_width (length l)) with false
      by (symmetry; apply Nat.ltb_ge; done).
    simpl. apply Forall_app. split.
    + destruct (new_page_canvas st) as [->| ->]; [done|].
      apply Forall_app. by repeat constructor.
    + constructor; [|done]. by apply new_page_bounds.
Qed.

(** At most one page break per input line. *)
Lemma process_line_pages st line :
  length (List.filter is_show_page (canvas (process_line st line))) <=
  length (List.filter is_show_page (canvas st)) +
  (if (y_position st <? bottom_y)%Z then 1 else 0).
Proof.
  rewrite process_line_draw_all, draw_all_canvas, List.filter_app, show_pages_draws, app_nil_r.
  unfold new_page_if_needed. destruct (_ <? _)%Z; simpl; [|lia].
  rewrite List.filter_app, length_app. simpl. lia.
Qed.

Lemma fold_process_pages lines st :
  length (List.filter is_show_page (canvas (fold_left process_line lines st))) <=
  length (List.filter is_show_page (canvas st)) + length lines.
Proof.
  revert st. induction lines as [|l lines IH]; intros st; simpl; [lia|].
  specialize (IH (process_line st l)). pose proof (process_line_pages st l).
  destruct (_ <? _)%Z; lia.
Qed.
End pdf_lemmas.

(** ** Properties of [export_pdf] *)

Section pdf_theorems.
Context {DB : UnicodeDB}.

(** C9: wrapping loses and duplicates no word: for a line of words
    separated by single spaces, the texts the wrap loop draws, the
    empty ones left out, joined by single spaces give back the line. *)
Theorem wrap_line_roundtrip st line :
  single_spaced line = true ->
  exists added, canvas (wrap_line st line) = canvas st ++ added /\
    join [space] (List.filter nonempty (drawn_texts added)) = line.
Proof.
  intros Hs. rewrite wrap_line_draw_all, draw_all_canvas.
  eexists. split; [reflexivity|].
  rewrite drawn_texts_draws. by apply wrap_texts_roundtrip.
Qed.

(** C10: every text the wrap loop draws is shorter than 80 characters,
    or is a single word of the line (stripped): a word is never split,
    so a word of 80 characters or more is drawn past the width. *)
Theorem wrap_line_width st line :
  exists added, canvas (wrap_line st line) = canvas st ++ added /\
    Forall (fun t => length t < wrap_width \/
                     exists w, In w (py_split_sep space line) /\ t = py_strip w)
           (drawn_texts added).
Proof.
  rewrite wrap_line_draw_all, draw_all_canvas.
  eexists. split; [reflexivity|].
  rewrite drawn_texts_draws. apply wrap_texts_width.
Qed.

(** C11: the page check before every input line leaves the offset
    inside [50, 750]: the offset never exceeds the top of the page,
    and a new page starts whenever it fell below the bottom margin. *)
Theorem page_check_bounds title content n :
  let st := fold_left process_line (take n (py_split_sep newline content)) (initial_state title) in
  (bottom_y <= y_position (new_page_if_needed st) <= page_top)%Z.
Proof.
  intros st. apply new_page_bounds. subst st.
  apply fold_process_y. cbv. done.
Qed.

(** C12: when no input line is longer than 80 characters, every line
    of the document (title included) is drawn inside the margins. *)
Theorem export_pdf_margins title content :
  Forall (fun line => length line <= wrap_width) (py_split_sep newline content) ->
  Forall in_margins (export_pdf_ops title content).
Proof.
  intros Hl. unfold export_pdf_ops. apply Forall_app. split; [|by repeat constructor].
  apply fold_process_margins; [done|cbv; done|].
  repeat constructor; cbv; done.
Qed.

(** C13: the document has at most one page per input line: a page
    break happens only before an input line, never before the first. *)
Theorem export_pdf_page_count title content :
  page_count (export_pdf_ops title content) <= length (py_split_sep newline content).
Proof.
  unfold page_count, export_pdf_ops. rewrite List.filter_app, length_app. simpl.
  destruct (py_split_sep newline content) as [|l lines] eqn:E;
    [by apply split_on_not_nil in E|].
  simpl. pose proof (fold_process_pages lines (process_line (initial_state title) l)) as H.
  pose proof (process_line_pages (initial_state title) l) as H1. simpl in H1. lia.
Qed.
End pdf_theorems.

Lemma export_pdf_margins_witness :
  Forall (fun line => length line <= wrap_width) (py_split_sep newline ⟪"Gentile Signore,"⟫) /\
  Forall in_margins (export_pdf_ops ⟪"Lettera"⟫ ⟪"Gentile Signore,"⟫).
Proof.
  assert (H : Forall (fun line => length line <= wrap_width)
                     (py_split_sep newline ⟪"Gentile Signore,"⟫))
    by (vm_compute; repeat constructor; lia).
  split; [exact H|]. exact (export_pdf_margins _ _ H).
Defined.

(** ** Runs of [export_pdf] that the spec describes otherwise *)



(** A line of one hundred 39-letter words. *)
Definition long_line : pystr := join [space] (repeat (repeat 97%N 39) 100).


Lemma wrap_line_roundtrip_witness :
  single_spaced long_line = true /\
  exists added, canvas (wrap_line (initial_state ⟪"T"⟫) long_line)
                = canvas (initial_state ⟪"T"⟫) ++ added /\
    join [space] (List.filter nonempty (drawn_texts added)) = long_line.
Proof.
  assert (H : single_spaced long_line = true) by (vm_compute; reflexivity).
  split; [exact H|]. exact (wrap_line_roundtrip (initial_state ⟪"T"⟫) long_line H).
Defined.
End ExportPdf.
