(* ===== verification/Layout.v ===== *)
(** * The layout contract of the PDF export (spec.md 4.2 and 9)

    The spec describes the pagination as a machine over a page cursor
    [OnPage(page, y)] with one transition [advance_if_needed], emitting
    LayoutLine records (text, page, offset).  Module [PageLayout] states
    that machine ([Cursor], [advance_if_needed], [emit], [layout_line],
    [spec_layout]) over the texts the handler's wrap loop produces, and
    proves that the call sequence of [export_pdf] (Module [ExportPdf])
    implements it: reading its LayoutLines off the canvas calls gives
    the machine's lines, and reportlab's page count is the cursor's
    final page.  It then proves the contract's shape properties on the
    machine (how far below the margin a line can go among them), and
    gives the variant (b) of the spec's open question, a
    page check before every drawn line ([process_line_strict]), with
    the theorems that it keeps every line inside the margins and draws
    the same texts in the same order. *)

From S2P Require Import Prelude PyStr Pdf.

Local Open Scope py_scope.

Module PageLayout.
Import ExportPdf.

(** The spec's [PageCursor]: [OnPage(page, y)]. *)
Record Cursor := mkCursor { cur_page : nat; cur_y : Z }.

(** [advance_if_needed]: a new page when the offset is below the bottom
    margin. *)
Definition advance_if_needed (c : Cursor) : Cursor :=
  if (cur_y c <? bottom_y)%Z then mkCursor (S (cur_page c)) page_top else c.

(** Emit one LayoutLine at the cursor and move it one pitch down. *)
Definition emit (acc : list LayoutLine * Cursor) (t : pystr) : list LayoutLine * Cursor :=
  let '(out, c) := acc in
  (out ++ [mkLayoutLine t (cur_page c) (cur_y c)], mkCursor (cur_page c) (cur_y c - line_pitch)).

Section machine.
Context {DB : UnicodeDB}.

(** One input line: the page check, then its texts. *)
Definition layout_line (acc : list LayoutLine * Cursor) (line : pystr) : list LayoutLine * Cursor :=
  fold_left emit (line_texts line) (acc.1, advance_if_needed acc.2).

(** The content's lines, from page 1 at the first content offset. *)
Definition content_layout (content : pystr) : list LayoutLine * Cursor :=
  fold_left layout_line (py_split_sep newline content) ([], mkCursor 1 content_top).

(** [layout(title, content)]: the title first, on page 1 at the top,
    then the content's lines; and the total page count. *)
Definition spec_layout (title content : pystr) : list LayoutLine * nat :=
  (mkLayoutLine title 1 title_y :: (content_layout content).1, cur_page (content_layout content).2).

(** Variant (b) of the spec's open question: the page check before
    every drawn line, not only before every input line. *)
Definition draw_checked (st : PdfState) (t : pystr) : PdfState :=
  draw (new_page_if_needed st) t.

Definition process_line_strict (st : PdfState) (line : pystr) : PdfState :=
  fold_left draw_checked (line_texts line) st.

Definition export_pdf_ops_strict (title content : pystr) : list CanvasOp :=
  canvas (fold_left process_line_strict (py_split_sep newline content) (initial_state title))
  ++ [Save].
End machine.

(** Two consecutive lines of the content: the second one pitch below
    the first on the same page, or at the top of the next page. *)
Definition next_line (a b : LayoutLine) : Prop :=
  (ll_page b = ll_page a /\ ll_y b = (ll_y a - line_pitch)%Z) \/
  (ll_page b = S (ll_page a) /\ ll_y b = page_top).

(** ** Reading LayoutLines off a call sequence *)

Definition show_pages (ops : list CanvasOp) : nat := length (List.filter is_show_page ops).

Lemma layout_from_app p ops ops' :
  layout_from p (ops ++ ops') = layout_from p ops ++ layout_from (p + show_pages ops) ops'.
Proof.
  unfold show_pages. revert p.
  induction ops as [|[] ops IH]; intros p; simpl; rewrite ?IH; try done.
  - by rewrite Nat.add_0_r.
  - do 2 f_equal. lia.
Qed.

Lemma show_pages_app ops ops' : show_pages (ops ++ ops') = show_pages ops + show_pages ops'.
Proof. unfold show_pages. by rewrite List.filter_app, length_app. Qed.

#[local] Hint Rewrite layout_from_app show_pages_app : pyrw.

(** The simulation: the canvas calls so far read as the title line
    followed by the machine's lines, one page per [showPage] after the
    first, and the same offset. *)
Definition simulates (title : pystr) (st : PdfState) (acc : list LayoutLine * Cursor) : Prop :=
  layout (canvas st) = mkLayoutLine title 1 title_y :: acc.1 /\
  cur_page acc.2 = S (show_pages (canvas st)) /\
  cur_y acc.2 = y_position st.

Section refinement.
Context {DB : UnicodeDB} (title : pystr).

Lemma simulates_draw st acc t :
  simulates title st acc -> simulates title (draw st t) (emit acc t).
Proof.
  destruct acc as [out c]. intros (Hl & Hp & Hy). unfold simulates, layout, draw in *; simpl in *.
  rewrite layout_from_app, show_pages_app, Hl, Hp, Hy. simpl.
  repeat split; try lia. unfold show_pages. simpl. lia.
Qed.

Lemma simulates_draw_all st acc ts :
  simulates title st acc -> simulates title (draw_all st ts) (fold_left emit ts acc).
Proof.
  revert st acc. induction ts as [|t ts IH]; intros st acc H; [done|].
  apply IH. by apply simulates_draw.
Qed.

Lemma simulates_new_page st acc :
  simulates title st acc ->
  simulates title (new_page_if_needed st) (acc.1, advance_if_needed acc.2).
Proof.
  intros (Hl & Hp & Hy). unfold new_page_if_needed, advance_if_needed.
  rewrite Hy. destruct (_ <? _)%Z; [|done].
  split; [|split]; simpl; [|rewrite show_pages_app, Hp; unfold show_pages; simpl; lia|done].
  unfold layout in *. rewrite layout_from_app, Hl. simpl. by rewrite app_nil_r.
Qed.

Lemma simulates_process_line st acc line :
  simulates title st acc -> simulates title (process_line st line) (layout_line acc line).
Proof.
  intros H. rewrite process_line_draw_all. unfold layout_line.
  by apply simulates_draw_all, simulates_new_page.
Qed.

Lemma simulates_fold st acc lines :
  simulates title st acc ->
  simulates title (fold_left process_line lines st) (fold_left layout_line lines acc).
Proof.
  revert st acc. induction lines as [|l lines IH]; intros st acc H; [done|].
  apply IH. by apply simulates_process_line.
Qed.

Lemma simulates_initial : simulates title (initial_state title) ([], mkCursor 1 content_top).
Proof. done. Qed.
End refinement.

(** ** The machine's runs *)

(** Emitting texts from a cursor appends one line per text, all on the
    cursor's page, and moves the cursor down. *)
Lemma fold_emit ts out c :
  exists new, fold_left emit ts (out, c) =
    (out ++ new, mkCursor (cur_page c) (cur_y c - line_pitch * Z.of_nat (length ts))%Z) /\
    Forall (fun l => ll_page l = cur_page c) new /\ length new = length ts.
Proof.
  revert out c. induction ts as [|t ts IH]; intros out [p y].
  - exists []. rewrite app_nil_r. simpl. repeat split; [do 2 f_equal; lia|constructor].
  - simpl. destruct (IH (out ++ [mkLayoutLine t p y]) (mkCursor p (y - line_pitch)))
      as (new & -> & Hp & Hn).
    exists (mkLayoutLine t p y :: new). rewrite <-app_assoc. simpl.
    repeat split; [do 2 f_equal; cbv [line_pitch]; lia|by constructor|by rewrite Hn].
Qed.

(** The offsets of the lines emitted from a cursor: from the cursor's
    offset down, one pitch apart. *)
Lemma fold_emit_y ts out c :
  exists new, (fold_left emit ts (out, c)).1 = out ++ new /\
    Forall (fun l => (cur_y c - line_pitch * (Z.of_nat (length ts) - 1) <= ll_y l <= cur_y c)%Z) new.
Proof.
  revert out c. induction ts as [|t ts IH]; intros out [p y].
  - exists []. by rewrite app_nil_r.
  - simpl. destruct (IH (out ++ [mkLayoutLine t p y]) (mkCursor p (y - line_pitch))) as (new & -> & Hy).
    exists (mkLayoutLine t p y :: new). rewrite <-app_assoc. split; [done|].
    constructor; [simpl; cbv [line_pitch]; lia|].
    eapply Forall_impl; [|exact Hy]. intros l Hl. hnf in Hl. simpl in Hl. cbv [line_pitch] in *. lia.
Qed.

Lemma advance_bounds c :
  (cur_y c <= page_top)%Z -> (bottom_y <= cur_y (advance_if_needed c) <= page_top)%Z.
Proof.
  unfold advance_if_needed. destruct (Z.ltb_spec (cur_y c) bottom_y); simpl;
    cbv [bottom_y page_top] in *; lia.
Qed.

Section machine_lemmas.
Context {DB : UnicodeDB}.

Lemma wrap_acc_nonempty acc w ws : nonempty (fold_left wrap_acc (w :: ws) acc).1 = true.
Proof.
  revert acc w. induction ws as [|w' ws IH]; intros [cur out] w; simpl; [|apply IH].
  unfold wrap_acc. destruct (Nat.ltb _ _); simpl; by destruct cur, w.
Qed.

(** Every input line is drawn as at least one text. *)
Lemma line_texts_not_nil line : line_texts line <> [].
Proof.
  unfold line_texts. destruct (Nat.ltb _ _); [|done]. unfold wrap_texts.
  destruct (py_split_sep space line) as [|w ws] eqn:E; [by apply split_on_not_nil in E|].
  pose proof (wrap_acc_nonempty ([], []) w ws) as H.
  destruct (fold_left wrap_acc (w :: ws) ([], [])) as [cur out]. simpl in H. rewrite H.
  by intros [_ ?]%app_eq_nil.
Qed.

Lemma layout_line_emit acc line :
  exists t ts, line_texts line = t :: ts /\
    layout_line acc line = fold_left emit ts (emit (acc.1, advance_if_needed acc.2) t).
Proof.
  unfold layout_line. destruct (line_texts line) as [|t ts] eqn:E;
    [by apply line_texts_not_nil in E|]. by exists t, ts.
Qed.

(** *** The page count is the highest page *)

Definition page_inv (acc : list LayoutLine * Cursor) : Prop :=
  1 <= cur_page acc.2 /\ Forall (fun l => ll_page l <= cur_page acc.2) acc.1 /\
  (cur_page acc.2 = 1 \/ Exists (fun l => ll_page l = cur_page acc.2) acc.1).

Lemma layout_line_page_inv acc line : page_inv acc -> page_inv (layout_line acc line).
Proof.
  intros (H1 & Hle & _). destruct (layout_line_emit acc line) as (t & ts & _ & ->).
  destruct acc as [out c]. simpl in *.
  set (c' := advance_if_needed c).
  assert (cur_page c <= cur_page c') as Hc by (subst c'; unfold advance_if_needed; destruct (_ <? _)%Z; simpl; lia).
  destruct (fold_emit ts (out ++ [mkLayoutLine t (cur_page c') (cur_y c')])
              (mkCursor (cur_page c') (cur_y c' - line_pitch))) as (new & -> & Hp & _).
  unfold page_inv. simpl. split; [lia|]. split.
  - apply Forall_app. split; [apply Forall_app; split|].
    + eapply Forall_impl; [|exact Hle]. intros a Ha. hnf in Ha. lia.
    + constructor; [simpl; lia|constructor].
    + eapply Forall_impl; [|exact Hp]. intros a Ha. hnf in Ha. simpl in Ha. lia.
  - right. apply Exists_app. left. apply Exists_app. right. by constructor.
Qed.

Lemma content_layout_page_inv content : page_inv (content_layout content).
Proof.
  unfold content_layout. generalize (py_split_sep newline content).
  intros lines. cut (forall acc, page_inv acc -> page_inv (fold_left layout_line lines acc)).
  - intros H. apply H. split; [simpl; lia|split; [constructor|by left]].
  - induction lines as [|l lines IH]; intros acc Hacc; [done|].
    apply IH. by apply layout_line_page_inv.
Qed.

(** *** Consecutive lines *)

(** The last line is one pitch above the cursor, on its page. *)
Definition chain_inv (acc : list LayoutLine * Cursor) : Prop :=
  Sorted next_line acc.1 /\
  forall l, list.last acc.1 = Some l ->
    ll_page l = cur_page acc.2 /\ cur_y acc.2 = (ll_y l - line_pitch)%Z.

Lemma emit_chain out c t :
  Sorted next_line out ->
  (forall l, list.last out = Some l -> next_line l (mkLayoutLine t (cur_page c) (cur_y c))) ->
  chain_inv (emit (out, c) t).
Proof.
  intros Hs Hl. split; simpl; [by apply Sorted_snoc|].
  intros l. rewrite last_snoc. intros [= <-]. simpl. done.
Qed.

Lemma fold_emit_chain ts acc : chain_inv acc -> chain_inv (fold_left emit ts acc).
Proof.
  revert acc. induction ts as [|t ts IH]; intros [out c] [Hs Hl]; [by split|].
  simpl in *. apply IH, emit_chain; [done|]. intros l Hlast. left. simpl.
  destruct (Hl l Hlast) as [-> ->]. done.
Qed.

Lemma layout_line_chain acc line : chain_inv acc -> chain_inv (layout_line acc line).
Proof.
  intros [Hs Hl]. destruct (layout_line_emit acc line) as (t & ts & _ & ->).
  apply fold_emit_chain, emit_chain; [done|]. intros l Hlast.
  destruct (Hl l Hlast) as [Hp Hy]. unfold advance_if_needed, next_line.
  destruct (_ <? _)%Z; simpl; [right|left]; rewrite Hp, ?Hy; split; done.
Qed.

(** The first input line starts at the first content offset of page 1,
    and later lines only add lines after it. *)
Lemma layout_line_prefix acc line : exists new, (layout_line acc line).1 = acc.1 ++ new.
Proof.
  destruct (layout_line_emit acc line) as (t & ts & _ & ->). destruct acc as [out c].
  simpl. set (c' := advance_if_needed c).
  destruct (fold_emit ts (out ++ [mkLayoutLine t (cur_page c') (cur_y c')])
              (mkCursor (cur_page c') (cur_y c' - line_pitch))) as (new & -> & _).
  rewrite <-app_assoc. by eexists.
Qed.

Lemma fold_layout_prefix lines acc : exists new, (fold_left layout_line lines acc).1 = acc.1 ++ new.
Proof.
  revert acc. induction lines as [|l lines IH]; intros acc; [exists []; symmetry; apply app_nil_r|].
  simpl. destruct (layout_line_prefix acc l) as (n1 & E1).
  destruct (IH (layout_line acc l)) as (n2 & E2). rewrite E2, E1, <-app_assoc. by eexists.
Qed.

Lemma content_layout_first content :
  exists first rest, (content_layout content).1 = first :: rest /\
    ll_page first = 1 /\ ll_y first = content_top.
Proof.
  unfold content_layout.
  destruct (py_split_sep newline content) as [|l lines] eqn:E; [by apply split_on_not_nil in E|].
  simpl. destruct (layout_line_emit ([], mkCursor 1 content_top) l) as (t & ts & _ & Ht).
  destruct (fold_layout_prefix lines (layout_line ([], mkCursor 1 content_top) l)) as (n & ->).
  rewrite Ht. simpl.
  destruct (fold_emit ts [mkLayoutLine t 1 content_top] (mkCursor 1 (content_top - line_pitch)))
    as (new & -> & _).
  simpl. by exists (mkLayoutLine t 1 content_top), (new ++ n).
Qed.

Lemma content_layout_chain content : chain_inv (content_layout content).
Proof.
  unfold content_layout. generalize (py_split_sep newline content).
  intros lines. cut (forall acc, chain_inv acc -> chain_inv (fold_left layout_line lines acc)).
  - intros H. apply H. split; [constructor|done].
  - induction lines as [|l lines IH]; intros acc Hacc; [done|].
    apply IH. by apply layout_line_chain.
Qed.
(** *** How far below the margin *)

(** With at most [k] texts per input line, every line is at most
    [k - 1] pitches below the bottom margin. *)
Definition low_inv (k : Z) (acc : list LayoutLine * Cursor) : Prop :=
  (cur_y acc.2 <= page_top)%Z /\
  Forall (fun l => (bottom_y - line_pitch * (k - 1) <= ll_y l)%Z) acc.1.

Lemma layout_line_low_inv k acc line :
  (Z.of_nat (length (line_texts line)) <= k)%Z -> low_inv k acc -> low_inv k (layout_line acc line).
Proof.
  intros Hk [Hc Hl]. destruct acc as [out c]. unfold layout_line. simpl in *.
  pose proof (advance_bounds c Hc) as Hb.
  destruct (fold_emit_y (line_texts line) out (advance_if_needed c)) as (new & E & Hnew).
  destruct (fold_emit (line_texts line) out (advance_if_needed c)) as (new' & E' & _).
  split.
  - rewrite E'. simpl. pose proof (line_texts_not_nil line). cbv [line_pitch] in *. lia.
  - rewrite E. apply Forall_app. split; [done|].
    eapply Forall_impl; [|exact Hnew]. intros l Hl'. hnf in Hl'. cbv [line_pitch bottom_y] in *. lia.
Qed.

Lemma content_layout_low content k :
  Forall (fun line => (Z.of_nat (length (line_texts line)) <= k)%Z) (py_split_sep newline content) ->
  low_inv k (content_layout content).
Proof.
  unfold content_layout. generalize (py_split_sep newline content) as lines. intros lines Hk.
  cut (forall acc, low_inv k acc -> low_inv k (fold_left layout_line lines acc)).
  - intros H. apply H. split; [cbv; done|constructor].
  - induction Hk as [|l lines Hl _ IH]; intros acc Hacc; [done|].
    apply IH. by apply layout_line_low_inv.
Qed.
End machine_lemmas.

(** ** Texts and margins of the two page-check policies *)

Section strict_lemmas.
Context {DB : UnicodeDB}.

Lemma drawn_texts_draw st t : drawn_texts (canvas (draw st t)) = drawn_texts (canvas st) ++ [t].
Proof. unfold draw. simpl. by rewrite drawn_texts_app. Qed.

Lemma drawn_texts_new_page st :
  drawn_texts (canvas (new_page_if_needed st)) = drawn_texts (canvas st).
Proof.
  unfold new_page_if_needed. destruct (_ <? _)%Z; [|done].
  simpl. by rewrite drawn_texts_app, app_nil_r.
Qed.

Lemma drawn_texts_process_line st line :
  drawn_texts (canvas (process_line st line)) = drawn_texts (canvas st) ++ line_texts line.
Proof.
  rewrite process_line_draw_all, draw_all_canvas, drawn_texts_app, drawn_texts_draws.
  by rewrite drawn_texts_new_page.
Qed.

Lemma drawn_texts_process_line_strict st line :
  drawn_texts (canvas (process_line_strict st line)) = drawn_texts (canvas st) ++ line_texts line.
Proof.
  unfold process_line_strict. generalize (line_texts line) as ts. intros ts. revert st.
  induction ts as [|t ts IH]; intros st; simpl; [by rewrite app_nil_r|].
  rewrite IH. unfold draw_checked. by rewrite drawn_texts_draw, drawn_texts_new_page, <-app_assoc.
Qed.

(** A loop over the input lines whose body draws each line's texts
    draws all of them, in order. *)
Lemma drawn_texts_fold (f : PdfState -> pystr -> PdfState) lines st :
  (forall st line, drawn_texts (canvas (f st line)) = drawn_texts (canvas st) ++ line_texts line) ->
  drawn_texts (canvas (fold_left f lines st)) =
  drawn_texts (canvas st) ++ concat (map line_texts lines).
Proof.
  intros Hf. revert st. induction lines as [|l lines IH]; intros st; simpl; [by rewrite app_nil_r|].
  by rewrite IH, Hf, <-app_assoc.
Qed.

Definition margins_inv (st : PdfState) : Prop :=
  (y_position st <= page_top)%Z /\ Forall in_margins (canvas st).

Lemma draw_checked_inv st t : margins_inv st -> margins_inv (draw_checked st t).
Proof.
  intros [Hy Hc]. pose proof (new_page_bounds st Hy) as Hb.
  unfold draw_checked, draw. split; simpl; [cbv [line_pitch] in *; lia|].
  apply Forall_app. split; [|by constructor].
  destruct (new_page_canvas st) as [-> | ->]; [done|].
  apply Forall_app. split; [done|by repeat constructor].
Qed.

Lemma fold_strict_inv lines st :
  margins_inv st -> margins_inv (fold_left process_line_strict lines st).
Proof.
  revert st. induction lines as [|l lines IH]; intros st H; [done|]. simpl. apply IH.
  unfold process_line_strict. generalize (line_texts l) as ts. intros ts. revert st H.
  induction ts as [|t ts IH']; intros st H; [done|]. simpl. by apply IH', draw_checked_inv.
Qed.

Lemma export_pdf_content_layout title content :
  layout (export_pdf_ops title content) = mkLayoutLine title 1 title_y :: (content_layout content).1 /\
  page_count (export_pdf_ops title content) = cur_page (content_layout content).2.
Proof.
  destruct (simulates_fold title _ _ (py_split_sep newline content) (simulates_initial title))
    as (Hl & Hp & _).
  unfold export_pdf_ops, content_layout. split.
  - unfold layout in *. rewrite layout_from_app, Hl. simpl. by rewrite app_nil_r.
  - change (page_count ?ops) with (S (show_pages ops)).
    rewrite show_pages_app, Hp. unfold show_pages. simpl. lia.
Qed.
End strict_lemmas.

(** ** The contract *)

Section layout_theorems.
Context {DB : UnicodeDB}.

(** C29: the handler refines the spec's pagination machine: the
    LayoutLines read off its canvas calls (text, page, offset) are the
    title on page 1 at 750 followed by the lines the page-cursor machine
    emits for the content, and reportlab's page count is the cursor's
    final page. *)
Theorem export_pdf_refines_layout title content :
  (layout (export_pdf_ops title content), page_count (export_pdf_ops title content)) =
  spec_layout title content.
Proof. by destruct (export_pdf_content_layout title content) as [-> ->]. Qed.

(** C30: the document's page count is the highest page any drawn line
    is on: no page is left empty at the end. *)
Theorem export_pdf_page_count_max title content :
  page_count (export_pdf_ops title content) =
  list_max (map ll_page (layout (export_pdf_ops title content))).
Proof.
  destruct (export_pdf_content_layout title content) as [-> ->].
  destruct (content_layout_page_inv content) as (H1 & Hle & Hex). simpl.
  apply Nat.le_antisymm.
  - destruct Hex as [-> | Hex]; [lia|].
    apply List.Exists_exists in Hex as (l & Hin & <-).
    pose proof (in_list_max _ _ (in_map ll_page _ _ Hin)). lia.
  - apply Nat.max_lub; [done|]. apply list_max_le, List.Forall_map. done.
Qed.

(** C31: the content starts at 720 on page 1, and every drawn line is
    either one pitch (15) below the line before it on the same page,
    or at the top (750) of the next page: pages never go back or skip
    one, and a new page is only ever started at its top. *)
Theorem export_pdf_layout_chain title content :
  exists first rest,
    layout (export_pdf_ops title content) = mkLayoutLine title 1 title_y :: first :: rest /\
    ll_page first = 1 /\ ll_y first = content_top /\ Sorted next_line (first :: rest).
Proof.
  destruct (export_pdf_content_layout title content) as [-> _].
  destruct (content_layout_first content) as (first & rest & E & Hp & Hy).
  destruct (content_layout_chain content) as [Hs _]. rewrite E in *. by exists first, rest.
Qed.


(** C40: no line is drawn more than [15 * (k - 1)] below the bottom
    margin, where [k] is the largest number of texts an input line is
    wrapped into: lines leave the page only through the wrapping of one
    input line, never by accumulating across input lines. *)
Theorem export_pdf_overflow_bound title content :
  let k := list_max (map (fun line => length (line_texts line)) (py_split_sep newline content)) in
  Forall (fun l => (bottom_y - line_pitch * (Z.of_nat k - 1) <= ll_y l)%Z)
         (layout (export_pdf_ops title content)).
Proof.
  intros k. destruct (export_pdf_content_layout title content) as [-> _].
  constructor; [cbv [ll_y title_y bottom_y line_pitch]; lia|].
  apply content_layout_low. apply List.Forall_forall. intros line Hl.
  apply Nat2Z.inj_le, in_list_max, in_map_iff. by exists line.
Qed.
End layout_theorems.
End PageLayout.
