(* ===== verification/Json.v ===== *)
(** * The Flask boundary the handlers of app.py use

    JSON values as [request.get_json()] returns them and [jsonify]
    takes them, Python's truthiness of those values ([if not text:]),
    [dict.get(key, default)] on a request object, the response of a
    handler (a status and a JSON body) and the Python exceptions a
    handler can let escape (Flask answers them with status 500). *)

From S2P Require Import Prelude PyStr.

Local Open Scope py_scope.

Module Json.

(** A JSON document after [json.loads]: objects keep their fields in
    document order, duplicates included. *)
#[warnings="-register-all"]
Inductive json :=
| JNull
| JBool (b : bool)
| JNum (z : Z)
| JStr (s : pystr)
| JArr (l : list json)
| JObj (fields : list (pystr * json)).

(** [bool(v)] for the Python value [json.loads] builds. *)
Definition truthy (v : json) : bool :=
  match v with
  | JNull => false
  | JBool b => b
  | JNum z => negb (Z.eqb z 0)
  | JStr s => nonempty s
  | JArr l => match l with [] => false | _ => true end
  | JObj f => match f with [] => false | _ => true end
  end.

(** The exceptions a handler of app.py can raise. *)
Inductive PyExc := AttributeError | KeyError | TypeError.

(** A handler's outcome: a response, or an exception Flask turns into an
    internal server error. *)
Record Response := mkResponse { status : nat; body : json }.

Inductive Outcome := Respond (r : Response) | Raise (e : PyExc).

(** [jsonify(v)] *)
Definition jsonify (v : json) : Outcome := Respond (mkResponse 200 v).

(** [jsonify({'error': msg}), code] *)
Definition error_response (msg : pystr) (code : nat) : Outcome :=
  Respond (mkResponse code (JObj [(⟪"error"⟫, JStr msg)])).

(** The last field named [k]: [json.loads] keeps the last duplicate. *)
Definition lookup_field (fields : list (pystr * json)) (k : pystr) : option json :=
  snd <$> List.find (fun kv => bool_decide (kv.1 = k)) (rev fields).

(** [data.get(k, default)], with [data = request.get_json()]; anything
    but an object has no [get] method. *)
Definition get (data : json) (k : pystr) (dflt : json) : PyExc + json :=
  match data with
  | JObj fields => inr (match lookup_field fields k with Some v => v | None => dflt end)
  | _ => inl AttributeError
  end.

Lemma lookup_field_snoc fields k v :
  lookup_field (fields ++ [(k, v)]) k = Some v.
Proof.
  unfold lookup_field. rewrite rev_app_distr. simpl.
  by rewrite bool_decide_eq_true_2.
Qed.

Lemma lookup_field_nil k : lookup_field [] k = None.
Proof. reflexivity. Qed.

(** ** Lookups in a list of pairs with distinct keys *)

Section assoc.
Context {V : Type}.
Implicit Types (l : list (pystr * V)) (k : pystr).

Definition key_is k (kv : pystr * V) : bool := bool_decide (kv.1 = k).

Lemma find_key_Some l k kv : List.find (key_is k) l = Some kv -> In kv l /\ kv.1 = k.
Proof.
  intros H. apply find_some in H as [Hin Hk]. split; [done|].
  unfold key_is in Hk. by case_bool_decide.
Qed.

Lemma find_key_None l k : List.find (key_is k) l = None <-> k ∉ map fst l.
Proof.
  split.
  - intros H Hk. apply list_elem_of_In, in_map_iff in Hk as (kv & Hkv & Hin).
    pose proof (find_none _ _ H kv Hin) as Hf. unfold key_is in Hf.
    by rewrite bool_decide_eq_true_2 in Hf.
  - induction l as [|kv l IH]; intros Hk; [done|]. simpl.
    unfold key_is at 1. rewrite bool_decide_eq_false_2.
    + apply IH. intros Hk'. apply Hk. simpl. by right.
    + intros E. apply Hk. rewrite <-E. simpl. by left.
Qed.

(** With distinct keys, the entry found is the one of the key. *)
Lemma find_key_In l k v :
  NoDup (map fst l) -> In (k, v) l -> List.find (key_is k) l = Some (k, v).
Proof.
  induction l as [|[k' v'] l IH]; intros Hnd Hin; [done|].
  simpl in *. inversion Hnd as [|? ? Hk' Hnd']; subst. unfold key_is at 1. simpl.
  destruct Hin as [E|Hin].
  - simplify_eq. by rewrite bool_decide_eq_true_2.
  - rewrite bool_decide_eq_false_2; [by apply IH|].
    intros ->. apply Hk'. apply list_elem_of_In, in_map_iff. by exists (k, v).
Qed.

Lemma find_key_rev l k :
  NoDup (map fst l) -> List.find (key_is k) (rev l) = List.find (key_is k) l.
Proof.
  intros Hnd. destruct (List.find (key_is k) l) as [[k' v]|] eqn:E.
  - apply find_key_Some in E as [Hin Hk]. simpl in Hk. subst k'.
    apply find_key_In; [|by rewrite <-in_rev].
    rewrite map_rev. by apply NoDup_ListNoDup, NoDup_rev, NoDup_ListNoDup.
  - apply find_key_None. rewrite map_rev. intros Hk.
    apply find_key_None in E. apply E. by apply list_elem_of_In, in_rev, list_elem_of_In.
Qed.
End assoc.
End Json.
