(* ===== verification/ExportRoute.v ===== *)
(** * The PDF export route (app.py, [export_pdf], lines 284-336)

    The request handling around the pagination: the handler reads
    [title] and [content] from the request's JSON object with their
    defaults, draws the title, splits the content on line breaks (which
    raises AttributeError on a value that is not a string), runs the
    canvas calls of Module [ExportPdf] and answers [send_file] with the
    PDF as an attachment named [f"{title}.pdf"].  What reportlab does
    with a title that is not a string, and Python's [repr] of a list or
    dict in the f-string, are the class [PdfRuntime]; the theorems hold
    for every instance. *)

From S2P Require Import Prelude PyStr Json Pdf Layout.

Local Open Scope py_scope.

Module ExportRoute.
Import Json ExportPdf PageLayout.

(** The library behaviour the handler relies on without checking the
    type of [title]. *)
Class PdfRuntime := {
  (** [p.drawString(50, 750, title)]: the text reportlab draws for the
      value, or the exception it raises *)
  draw_arg : json -> PyExc + pystr;
  draw_arg_str : forall s, draw_arg (JStr s) = inr s;
  (** [repr(v)] of a list or dict (it depends on the printability of
      the characters of its strings) *)
  container_repr : json -> pystr
}.

(** The decimal digits of a Python int. *)
Fixpoint uint_digits (u : Decimal.uint) : pystr :=
  match u with
  | Decimal.Nil => []
  | Decimal.D0 u => 48%N :: uint_digits u
  | Decimal.D1 u => 49%N :: uint_digits u
  | Decimal.D2 u => 50%N :: uint_digits u
  | Decimal.D3 u => 51%N :: uint_digits u
  | Decimal.D4 u => 52%N :: uint_digits u
  | Decimal.D5 u => 53%N :: uint_digits u
  | Decimal.D6 u => 54%N :: uint_digits u
  | Decimal.D7 u => 55%N :: uint_digits u
  | Decimal.D8 u => 56%N :: uint_digits u
  | Decimal.D9 u => 57%N :: uint_digits u
  end.

(** [str(z)] for an int. *)
Definition int_str (z : Z) : pystr :=
  match Z.to_int z with
  | Decimal.Pos u => uint_digits u
  | Decimal.Neg u => ⟪"-"⟫ ++ uint_digits u
  end.

(** The [send_file] answer: the PDF the canvas calls produce, as an
    attachment. *)
Record FileResponse := mkFileResponse {
  file_ops : list CanvasOp;      (* the buffer's content, as the calls that drew it *)
  as_attachment : bool;
  download_name : pystr;
  mimetype : pystr
}.

Section route.
Context {DB : UnicodeDB} {RT : PdfRuntime}.

(** [str(v)], as [f"{title}"] formats it. *)
Definition py_str (v : json) : pystr :=
  match v with
  | JNull => ⟪"None"⟫
  | JBool true => ⟪"True"⟫
  | JBool false => ⟪"False"⟫
  | JNum z => int_str z
  | JStr s => s
  | JArr _ | JObj _ => container_repr v
  end.

(** [export_pdf()], with [data = request.get_json()]. *)
Definition export_pdf (data : json) : PyExc + FileResponse :=
  match get data ⟪"title"⟫ (JStr ⟪"Documento"⟫), get data ⟪"content"⟫ (JStr []) with
  | inl e, _ | _, inl e => inl e
  | inr title, inr content =>
      match draw_arg title with
      | inl e => inl e
      | inr t =>
          match content with
          | JStr c =>
              inr (mkFileResponse (export_pdf_ops t c) true (py_str title ++ ⟪".pdf"⟫)
                                  ⟪"application/pdf"⟫)
          | _ => inl AttributeError     (* content.split('\n') *)
          end
      end
  end.
End route.

(** A runtime for running examples: reportlab refusing every title that
    is not a string. *)
#[export] Instance strict_runtime : PdfRuntime := {|
  draw_arg v := match v with JStr s => inr s | _ => inl TypeError end;
  draw_arg_str s := eq_refl;
  container_repr _ := []
|}.

Section route_theorems.
Context {DB : UnicodeDB} {RT : PdfRuntime}.


(** C35: a [content] that is not a string (a number, a list, ...) makes
    the handler raise AttributeError after drawing the title: an
    internal server error, where [title] is drawable. *)
Theorem export_pdf_content_not_string data title t v :
  get data ⟪"title"⟫ (JStr ⟪"Documento"⟫) = inr title -> draw_arg title = inr t ->
  get data ⟪"content"⟫ (JStr []) = inr v -> (forall s, v <> JStr s) ->
  export_pdf data = inl AttributeError.
Proof.
  intros Ht Hd Hc Hv. unfold export_pdf. rewrite Ht, Hc, Hd.
  destruct v; try done. by destruct (Hv s).
Qed.
End route_theorems.


Lemma export_pdf_content_not_string_witness :
  @export_pdf cpython_db strict_runtime
    (JObj [(⟪"title"⟫, JStr ⟪"Lettera"⟫); (⟪"content"⟫, JNum 5)]) = inl AttributeError.
Proof.
  apply (export_pdf_content_not_string _ (JStr ⟪"Lettera"⟫) ⟪"Lettera"⟫ (JNum 5));
    [reflexivity|reflexivity|reflexivity|discriminate].
Defined.
End ExportRoute.
