(* ===== verification/Templates.v ===== *)
(** * The template catalogue (app.py, [DOCUMENT_TEMPLATES], lines 88-219,
    and the routes [get_templates] and [get_template], lines 243-254)

    The six templates transcribed code point for code point from the
    source (accented letters and icons are, in the source, UTF-8 read
    back as Mac Roman, and are kept so), the dict in its insertion order,
    and the two handlers that serve it. *)

From S2P Require Import Prelude PyStr Json Grammar Pdf.

Local Open Scope py_scope.

Module Templates.
Import Json.

(** One entry: [{'name': ..., 'template': ..., 'icon': ...}]. *)
Record Template := mkTemplate { name : pystr; template : pystr; icon : pystr }.

(** [DOCUMENT_TEMPLATES['lettera_contestazione']] *)
Definition lettera_contestazione : Template := {|
  name := ⟪"Lettera di Contestazione"⟫;
  template :=
    ⟪"Spett.le [Nome Azienda/Ente],"⟫ ++ [newline] ++
    [newline] ++
    ⟪"Oggetto: Contestazione [specificare il motivo]"⟫ ++ [newline] ++
    [newline] ++
    ⟪"Io sottoscritto/a [Nome e Cognome], nato/a a [Luogo] il [Data], residente in [Indirizzo completo], con la presente intendo contestare [specificare dettagliatamente il problema]."⟫ ++ [newline] ++
    [newline] ++
    ⟪"I fatti si sono svolti nel seguente modo: [descrivere i fatti cronologicamente]."⟫ ++ [newline] ++
    [newline] ++
    ⟪"Ritengo che [esporre le proprie ragioni e il diritto che si ritiene violato]."⟫ ++ [newline] ++
    [newline] ++
    ⟪"Pertanto, chiedo [specificare ci"⟫ ++ [0x221A; 0x2264]%N ++ ⟪" che si richiede: rimborso, sostituzione, riparazione, etc.]."⟫ ++ [newline] ++
    [newline] ++
    ⟪"In attesa di un Vostro cortese riscontro, porgo distinti saluti."⟫ ++ [newline] ++
    [newline] ++
    ⟪"[Luogo e data]"⟫ ++ [newline] ++
    ⟪"[Firma]"⟫;
  icon := [0x201A; 0xF6; 0xF1; 0xD4; 0x220F; 0xE8]%N
|}.

(** [DOCUMENT_TEMPLATES['email_formale']] *)
Definition email_formale : Template := {|
  name := ⟪"Email Formale"⟫;
  template :=
    ⟪"Oggetto: [Specificare l'oggetto della comunicazione]"⟫ ++ [newline] ++
    [newline] ++
    ⟪"Gentile [Signore/Signora/Dottore] [Cognome],"⟫ ++ [newline] ++
    [newline] ++
    ⟪"La presente per [specificare il motivo della comunicazione]."⟫ ++ [newline] ++
    [newline] ++
    ⟪"[Corpo del messaggio - esporre chiaramente la richiesta o l'informazione]"⟫ ++ [newline] ++
    [newline] ++
    ⟪"In attesa di una Sua cortese risposta, La ringrazio per l'attenzione."⟫ ++ [newline] ++
    [newline] ++
    ⟪"Distinti saluti,"⟫ ++ [newline] ++
    [newline] ++
    ⟪"[Nome e Cognome]"⟫ ++ [newline] ++
    ⟪"[Telefono]"⟫ ++ [newline] ++
    ⟪"[Email]"⟫;
  icon := [0xF8FF; 0xFC; 0xEC; 0xDF]%N
|}.

(** [DOCUMENT_TEMPLATES['lettera_auguri']] *)
Definition lettera_auguri : Template := {|
  name := ⟪"Lettera di Auguri"⟫;
  template :=
    ⟪"Caro/a [Nome],"⟫ ++ [newline] ++
    [newline] ++
    ⟪"In occasione di [specificare l'occasione: compleanno, matrimonio, laurea, etc.], desidero porgerti i miei pi"⟫ ++ [0x221A; 0x3C0]%N ++ ⟪" sinceri auguri."⟫ ++ [newline] ++
    [newline] ++
    ⟪"[Aggiungere un messaggio personale e affettuoso]"⟫ ++ [newline] ++
    [newline] ++
    ⟪"Ti auguro ogni bene e tanta felicit"⟫ ++ [0x221A; 0x2020]%N ++ ⟪"."⟫ ++ [newline] ++
    [newline] ++
    ⟪"Con affetto,"⟫ ++ [newline] ++
    ⟪"[Il tuo nome]"⟫ ++ [newline] ++
    [newline] ++
    ⟪"[Data]"⟫;
  icon := [0xF8FF; 0xFC; 0xE9; 0xE2]%N
|}.

(** [DOCUMENT_TEMPLATES['richiesta_informazioni']] *)
Definition richiesta_informazioni : Template := {|
  name := ⟪"Richiesta Informazioni"⟫;
  template :=
    ⟪"Spett.le [Nome Azienda/Ufficio],"⟫ ++ [newline] ++
    [newline] ++
    ⟪"Oggetto: Richiesta informazioni riguardo [specificare l'argomento]"⟫ ++ [newline] ++
    [newline] ++
    ⟪"Io sottoscritto/a [Nome e Cognome], vorrei ricevere informazioni dettagliate riguardo [specificare l'oggetto della richiesta]."⟫ ++ [newline] ++
    [newline] ++
    ⟪"In particolare, mi interesserebbe sapere:"⟫ ++ [newline] ++
    ⟪"- [Prima domanda]"⟫ ++ [newline] ++
    ⟪"- [Seconda domanda]"⟫ ++ [newline] ++
    ⟪"- [Terza domanda]"⟫ ++ [newline] ++
    [newline] ++
    ⟪"Vi sarei grato/a se poteste fornirmi tutte le informazioni necessarie e i documenti eventualmente richiesti."⟫ ++ [newline] ++
    [newline] ++
    ⟪"Resto in attesa di una Vostra cortese risposta."⟫ ++ [newline] ++
    [newline] ++
    ⟪"Distinti saluti,"⟫ ++ [newline] ++
    [newline] ++
    ⟪"[Nome e Cognome]"⟫ ++ [newline] ++
    ⟪"[Telefono]"⟫ ++ [newline] ++
    ⟪"[Email]"⟫ ++ [newline] ++
    ⟪"[Data]"⟫;
  icon := [0x201A; 0xD1; 0x3C0; 0xD4; 0x220F; 0xE8]%N
|}.

(** [DOCUMENT_TEMPLATES['curriculum_semplice']] *)
Definition curriculum_semplice : Template := {|
  name := ⟪"Curriculum Vitae Semplice"⟫;
  template :=
    ⟪"CURRICULUM VITAE"⟫ ++ [newline] ++
    [newline] ++
    ⟪"INFORMAZIONI PERSONALI"⟫ ++ [newline] ++
    ⟪"Nome e Cognome: [Inserire nome e cognome]"⟫ ++ [newline] ++
    ⟪"Data di nascita: [gg/mm/aaaa]"⟫ ++ [newline] ++
    ⟪"Luogo di nascita: [Inserire citt"⟫ ++ [0x221A; 0x2020]%N ++ ⟪"]"⟫ ++ [newline] ++
    ⟪"Residenza: [Inserire indirizzo completo]"⟫ ++ [newline] ++
    ⟪"Telefono: [Inserire numero]"⟫ ++ [newline] ++
    ⟪"Email: [Inserire email]"⟫ ++ [newline] ++
    [newline] ++
    ⟪"ISTRUZIONE"⟫ ++ [newline] ++
    ⟪"[Anno] - [Titolo di studio] presso [Nome istituto/universit"⟫ ++ [0x221A; 0x2020]%N ++ ⟪"]"⟫ ++ [newline] ++
    [newline] ++
    ⟪"ESPERIENZA LAVORATIVA"⟫ ++ [newline] ++
    ⟪"[Periodo] - [Ruolo] presso [Nome azienda]"⟫ ++ [newline] ++
    ⟪"Principali mansioni: [Descrivere brevemente le attivit"⟫ ++ [0x221A; 0x2020]%N ++ ⟪" svolte]"⟫ ++ [newline] ++
    [newline] ++
    ⟪"COMPETENZE"⟫ ++ [newline] ++
    ⟪"- [Competenza 1]"⟫ ++ [newline] ++
    ⟪"- [Competenza 2]"⟫ ++ [newline] ++
    ⟪"- [Competenza 3]"⟫ ++ [newline] ++
    [newline] ++
    ⟪"LINGUE STRANIERE"⟫ ++ [newline] ++
    ⟪"- [Lingua]: [Livello]"⟫ ++ [newline] ++
    [newline] ++
    ⟪"Autorizzo il trattamento dei miei dati personali ai sensi del Decreto Legislativo 30 giugno 2003, n. 196 e del GDPR (Regolamento UE 2016/679)."⟫ ++ [newline] ++
    [newline] ++
    ⟪"[Luogo e data]"⟫ ++ [newline] ++
    ⟪"[Firma]"⟫;
  icon := [0xF8FF; 0xFC; 0xEC; 0xD1]%N
|}.

(** [DOCUMENT_TEMPLATES['condoglianze']] *)
Definition condoglianze : Template := {|
  name := ⟪"Messaggio di Condoglianze"⟫;
  template :=
    ⟪"Cara/o [Nome] e famiglia,"⟫ ++ [newline] ++
    [newline] ++
    ⟪"Ho appreso con grande dispiacere della scomparsa di [Nome del defunto]."⟫ ++ [newline] ++
    [newline] ++
    ⟪"[Aggiungere un ricordo personale o parole di conforto]"⟫ ++ [newline] ++
    [newline] ++
    ⟪"Vi sono vicino/a in questo momento di dolore e vi porgo le mie pi"⟫ ++ [0x221A; 0x3C0]%N ++ ⟪" sentite condoglianze."⟫ ++ [newline] ++
    [newline] ++
    ⟪"Con affetto e partecipazione,"⟫ ++ [newline] ++
    [newline] ++
    ⟪"[Il tuo nome]"⟫ ++ [newline] ++
    ⟪"[Data]"⟫;
  icon := [0xF8FF; 0xFC; 0xEF; 0xE4; 0xD4; 0x220F; 0xE8]%N
|}.
(** The dict, in insertion order. *)
Definition DOCUMENT_TEMPLATES : list (pystr * Template) := [
  (⟪"lettera_contestazione"⟫, lettera_contestazione);
  (⟪"email_formale"⟫, email_formale);
  (⟪"lettera_auguri"⟫, lettera_auguri);
  (⟪"richiesta_informazioni"⟫, richiesta_informazioni);
  (⟪"curriculum_semplice"⟫, curriculum_semplice);
  (⟪"condoglianze"⟫, condoglianze)].

(** An entry as [jsonify] receives it. *)
Definition template_json (t : Template) : json :=
  JObj [(⟪"name"⟫, JStr (name t)); (⟪"template"⟫, JStr (template t)); (⟪"icon"⟫, JStr (icon t))].

(** [template_id in DOCUMENT_TEMPLATES] and [DOCUMENT_TEMPLATES[template_id]]. *)
Definition find_template (template_id : pystr) : option Template :=
  snd <$> List.find (key_is template_id) DOCUMENT_TEMPLATES.

(** [get_templates]: [jsonify(DOCUMENT_TEMPLATES)]. *)
Definition get_templates : Outcome :=
  jsonify (JObj (map (fun kv => (kv.1, template_json kv.2)) DOCUMENT_TEMPLATES)).

(** [get_template(template_id)] *)
Definition get_template (template_id : pystr) : Outcome :=
  match find_template template_id with
  | None => error_response ⟪"Template not found"⟫ 404
  | Some t => jsonify (template_json t)
  end.

(** ** The routes agree with the catalogue *)

Lemma template_ids_distinct : NoDup (map fst DOCUMENT_TEMPLATES).
Proof. apply NoDup_ListNoDup. vm_compute. repeat constructor; intros H; repeat destruct H as [H|H]; done. Qed.

(** C17: [get_template] answers with the catalogue's entry for every
    template id of [DOCUMENT_TEMPLATES]. *)
Theorem get_template_found template_id t :
  In (template_id, t) DOCUMENT_TEMPLATES -> get_template template_id = jsonify (template_json t).
Proof.
  intros Hin. unfold get_template, find_template.
  by rewrite (find_key_In _ _ _ template_ids_distinct Hin).
Qed.

Lemma get_template_found_witness :
  In (⟪"email_formale"⟫, email_formale) DOCUMENT_TEMPLATES /\
  get_template ⟪"email_formale"⟫ = jsonify (template_json email_formale).
Proof.
  assert (H : In (⟪"email_formale"⟫, email_formale) DOCUMENT_TEMPLATES) by (simpl; auto).
  split; [exact H|]. exact (get_template_found _ _ H).
Defined.

(** C18: [get_template] answers 404 "Template not found" exactly for the
    ids that are not keys of [DOCUMENT_TEMPLATES]. *)
Theorem get_template_not_found template_id :
  get_template template_id = error_response ⟪"Template not found"⟫ 404 <->
  template_id ∉ map fst DOCUMENT_TEMPLATES.
Proof.
  unfold get_template, find_template. rewrite <-find_key_None.
  destruct (List.find _ _); simpl; split; done.
Qed.

(** C19: [get_template] serves exactly what [get_templates] lists under
    the same id. *)
Theorem get_template_agrees template_id :
  exists fields, get_templates = jsonify (JObj fields) /\
    get_template template_id =
      match lookup_field fields template_id with
      | Some v => jsonify v
      | None => error_response ⟪"Template not found"⟫ 404
      end.
Proof.
  eexists. split; [reflexivity|].
  unfold get_template, find_template, lookup_field.
  change (fun kv : pystr * json => bool_decide (kv.1 = template_id)) with (@key_is json template_id).
  rewrite find_key_rev by (rewrite map_map; apply template_ids_distinct).
  generalize DOCUMENT_TEMPLATES. intros l.
  induction l as [|[k t] l IH]; [done|]. simpl. unfold key_is at 1 3. simpl.
  by case_bool_decide.
Qed.

(** The same, as one boolean test evaluated once. *)
Definition in_margins_b (op : ExportPdf.CanvasOp) : bool :=
  match op with
  | ExportPdf.DrawString _ y _ => (ExportPdf.bottom_y <=? y)%Z && (y <=? ExportPdf.page_top)%Z
  | _ => true
  end.

Lemma in_margins_b_spec op : in_margins_b op = true -> ExportPdf.in_margins op.
Proof.
  destruct op; simpl; try done. rewrite andb_true_iff, !Z.leb_le. done.
Qed.

Definition template_check (kv : pystr * Template) : bool :=
  match GrammarChecker.check_text GrammarChecker.init (template kv.2) with [] => true | _ => false end
  && forallb in_margins_b (ExportPdf.export_pdf_ops (name kv.2) (template kv.2))
  && Nat.eqb (ExportPdf.page_count (ExportPdf.export_pdf_ops (name kv.2) (template kv.2))) 1.

Lemma template_checks : forallb template_check DOCUMENT_TEMPLATES = true.
Proof. vm_compute. reflexivity. Qed.

End Templates.
