(* ===== verification/Handlers.v ===== *)
(** * The grammar route (app.py, [check_grammar], lines 226-241)

    The handler reads the request's JSON object, answers 400 when the
    [text] field is missing or falsy, and otherwise answers the
    checker's suggestions (each as the dict the code builds) with the
    word and character counts of the text.  A truthy [text] that is not
    a string reaches [check_text], whose [text.lower()] raises. *)

From S2P Require Import Prelude PyStr Grammar Json.

Local Open Scope py_scope.

Module Handlers.
Import Json GrammarChecker.

(** A suggestion as the dict of lines 65-71 and 75-81. *)
Definition suggestion_json (sg : Suggestion) : json :=
  JObj [(⟪"type"⟫, JStr (match stype sg with Spelling => ⟪"spelling"⟫ | Formality => ⟪"formality"⟫ end));
        (⟪"original"⟫, JStr (original sg));
        (⟪"suggestion"⟫, JStr (suggestion sg));
        (⟪"position"⟫, JNum (Z.of_nat (position sg)));
        (⟪"explanation"⟫, JStr (explanation sg))].

Section handlers.
Context {DB : UnicodeDB}.

(** The success body of lines 237-241. *)
Definition grammar_body (text : pystr) : json :=
  JObj [(⟪"suggestions"⟫, JArr (map suggestion_json (check_text init text)));
        (⟪"word_count"⟫, JNum (Z.of_nat (length (py_split text))));
        (⟪"character_count"⟫, JNum (Z.of_nat (length text)))].

(** [check_grammar()], with [data = request.get_json()]. *)
Definition check_grammar (data : json) : Outcome :=
  match get data ⟪"text"⟫ (JStr []) with
  | inl e => Raise e
  | inr text =>
      if negb (truthy text) then error_response ⟪"No text provided"⟫ 400
      else match text with
           | JStr t => jsonify (grammar_body t)
           | _ => Raise AttributeError
           end
  end.
End handlers.

Section handler_theorems.
Context {DB : UnicodeDB}.

(** C21: [check_grammar] answers 400 "No text provided" exactly when the
    request is an object whose [text] field is missing or falsy (empty
    string, 0, false, null, empty list or object). *)
Theorem check_grammar_400 data :
  check_grammar data = error_response ⟪"No text provided"⟫ 400 <->
  exists v, get data ⟪"text"⟫ (JStr []) = inr v /\ truthy v = false.
Proof.
  unfold check_grammar. destruct (get data _ _) as [e|v]; split.
  - done.
  - by intros (v & ? & _).
  - destruct (truthy v) eqn:Hv; simpl; [|by eauto].
    by destruct v.
  - intros (v' & [= <-] & ->). done.
Qed.


(** C23: a truthy [text] that is not a string (a number, [true], a
    non-empty list or object) makes the handler raise AttributeError
    in [text.lower()], an internal server error, not a 400. *)
Theorem check_grammar_non_string data v :
  get data ⟪"text"⟫ (JStr []) = inr v -> truthy v = true ->
  (forall s, v <> JStr s) -> check_grammar data = Raise AttributeError.
Proof.
  intros Hget Ht Hns. unfold check_grammar. rewrite Hget, Ht. simpl.
  destruct v; try done. by destruct (Hns s).
Qed.
End handler_theorems.


Lemma check_grammar_non_string_witness :
  get (JObj [(⟪"text"⟫, JNum 5)]) ⟪"text"⟫ (JStr []) = inr (JNum 5) /\
  truthy (JNum 5) = true /\ (forall s, JNum 5 <> JStr s) /\
  check_grammar (JObj [(⟪"text"⟫, JNum 5)]) = Raise AttributeError.
Proof.
  assert (H1 : get (JObj [(⟪"text"⟫, JNum 5)]) ⟪"text"⟫ (JStr []) = inr (JNum 5)) by reflexivity.
  assert (H2 : truthy (JNum 5) = true) by reflexivity.
  assert (H3 : forall s, JNum 5 <> JStr s) by discriminate.
  split; [exact H1|]. split; [exact H2|]. split; [exact H3|].
  exact (check_grammar_non_string _ _ H1 H2 H3).
Defined.
End Handlers.
