(* ===== verification/Store.v ===== *)
(** * The document store (app.py, [save_document] lines 256-282 and
    [user_dictionary] lines 338-377)

    The directory [user_documents] as explicit state: the documents
    saved by [save_document], keyed by file name, and the contents of
    [user_dictionary.json] (absent, or the dict of lists this code
    writes).  Clock readings are inputs ([datetime.now()] is called
    twice by [save_document]).  A request to the store is one of the
    three routes; [handle] runs one and [reachable] collects the states
    a run of requests reaches from an empty directory; the theorems are
    invariants of [reachable] (by rule induction) and the behaviour of
    each route on its branches. *)

From S2P Require Import Prelude PyStr Json.
From stdpp Require Import gmap.

Local Open Scope py_scope.

Module Store.
Import Json.

(** ** Python's [==] on JSON values *)

Definition as_number (v : json) : option Z :=
  match v with JBool b => Some (Z.b2z b) | JNum z => Some z | _ => None end.

Definition field_keys (f : list (pystr * json)) : list pystr := remove_dups (map fst f).

(** [a == b] for the values [json.loads] builds: [True == 1], lists
    element-wise, dicts as maps (same keys, equal values; of duplicate
    keys the last counts). *)
Fixpoint py_eq (a b : json) {struct a} : bool :=
  match a with
  | JNull => match b with JNull => true | _ => false end
  | JBool x => match as_number b with Some z => Z.eqb (Z.b2z x) z | None => false end
  | JNum x => match as_number b with Some z => Z.eqb x z | None => false end
  | JStr s => match b with JStr t => bool_decide (s = t) | _ => false end
  | JArr l1 =>
      match b with
      | JArr l2 =>
          (fix go (l1 l2 : list json) : bool :=
             match l1, l2 with
             | [], [] => true
             | x :: xs, y :: ys => py_eq x y && go xs ys
             | _, _ => false
             end) l1 l2
      | _ => false
      end
  | JObj f1 =>
      match b with
      | JObj f2 =>
          Nat.eqb (length (field_keys f1)) (length (field_keys f2)) &&
          (fix go (f : list (pystr * json)) : bool :=
             match f with
             | [] => true
             | (k, v) :: r =>
                 (if existsb (fun kv => bool_decide (kv.1 = k)) r then true
                  else match lookup_field f2 k with Some w => py_eq v w | None => false end)
                 && go r
             end) f1
      | _ => false
      end
  end.

(** [x in l] on a list: some element [e] with [e == x]. *)
Definition py_in (x : json) (l : list json) : bool := existsb (fun e => py_eq e x) l.

(** ** Clock readings and their formatting *)

Record DateTime := mkDateTime {
  year : nat; month : nat; day : nat;
  hour : nat; minute : nat; second : nat; microsecond : nat
}.

(** The [n] last decimal digits of [k], zero-padded. *)
Fixpoint digits (n k : nat) : pystr :=
  match n with
  | 0 => []
  | S n' => digits n' (k / 10) ++ [N.of_nat (48 + k mod 10)]
  end.

(** [now.strftime('%Y%m%d_%H%M%S')] for a year of four digits. *)
Definition strftime_id (t : DateTime) : pystr :=
  digits 4 (year t) ++ digits 2 (month t) ++ digits 2 (day t) ++ ⟪"_"⟫ ++
  digits 2 (hour t) ++ digits 2 (minute t) ++ digits 2 (second t).

(** [now.isoformat()]: the microseconds only when they are not zero. *)
Definition isoformat (t : DateTime) : pystr :=
  digits 4 (year t) ++ ⟪"-"⟫ ++ digits 2 (month t) ++ ⟪"-"⟫ ++ digits 2 (day t) ++ ⟪"T"⟫ ++
  digits 2 (hour t) ++ ⟪":"⟫ ++ digits 2 (minute t) ++ ⟪":"⟫ ++ digits 2 (second t) ++
  (if Nat.eqb (microsecond t) 0 then [] else ⟪"."⟫ ++ digits 6 (microsecond t)).

(** ** The directory *)

(** The dict [user_dictionary] writes: list names to lists. *)
Abbreviation dictionary := (list (pystr * list json)).

Record Store := mkStore {
  documents : gmap pystr json;          (* document_<id>.json -> its JSON *)
  dictionary_file : option dictionary   (* user_dictionary.json, if it exists *)
}.

Definition empty_store : Store := mkStore ∅ None.

Definition dictionary_json (d : dictionary) : json :=
  JObj (map (fun kl => (kl.1, JArr kl.2)) d).

(** [{'words': [], 'phrases': []}] *)
Definition default_dictionary : dictionary := [(⟪"words"⟫, []); (⟪"phrases"⟫, [])].

(** Loading the dictionary, or the default when the file is absent. *)
Definition load_dictionary (st : Store) : dictionary :=
  match dictionary_file st with Some d => d | None => default_dictionary end.

(** [dictionary[word_type]]: string keys only; another hashable key is
    missing, a list or dict key is unhashable. *)
Definition subscript (d : dictionary) (word_type : json) : PyExc + list json :=
  match word_type with
  | JStr k => match List.find (key_is k) d with Some kl => inr kl.2 | None => inl KeyError end
  | JArr _ | JObj _ => inl TypeError
  | _ => inl KeyError
  end.

(** [dictionary[word_type].append(entry)] on the first field of that
    name, the one [subscript] reads. *)
Fixpoint append_entry (d : dictionary) (k : pystr) (entry : json) : dictionary :=
  match d with
  | [] => []
  | (k', l) :: r => if bool_decide (k' = k) then (k', l ++ [entry]) :: r
                    else (k', l) :: append_entry r k entry
  end.

Section routes.
Context {DB : UnicodeDB}.

(** [save_document()], with the two clock readings [now1] (the id) and
    [now2] ([created_at]). *)
Definition save_document (st : Store) (now1 now2 : DateTime) (data : json) : Store * Outcome :=
  match get data ⟪"title"⟫ (JStr ⟪"Documento senza titolo"⟫),
        get data ⟪"content"⟫ (JStr []),
        get data ⟪"template"⟫ (JStr ⟪"custom"⟫) with
  | inl e, _, _ | _, inl e, _ | _, _, inl e => (st, Raise e)
  | inr title, inr content, inr template_used =>
      match content with
      | JStr c =>
          let id := strftime_id now1 in
          let document := JObj [
            (⟪"id"⟫, JStr id); (⟪"title"⟫, title); (⟪"content"⟫, content);
            (⟪"template_used"⟫, template_used); (⟪"created_at"⟫, JStr (isoformat now2));
            (⟪"word_count"⟫, JNum (Z.of_nat (length (py_split c))));
            (⟪"character_count"⟫, JNum (Z.of_nat (length c)))] in
          let filename := ⟪"document_"⟫ ++ id ++ ⟪".json"⟫ in
          (mkStore (<[filename := document]> (documents st)) (dictionary_file st),
           jsonify (JObj [(⟪"success"⟫, JBool true); (⟪"document_id"⟫, JStr id)]))
      | _ => (st, Raise AttributeError)   (* content.split() on a non-string *)
      end
  end.
End routes.

(** [user_dictionary()] for GET. *)
Definition dictionary_get (st : Store) : Store * Outcome :=
  (st, jsonify (dictionary_json (load_dictionary st))).

(** [user_dictionary()] for POST. *)
Definition dictionary_post (st : Store) (data : json) : Store * Outcome :=
  match get data ⟪"type"⟫ (JStr ⟪"words"⟫), get data ⟪"entry"⟫ (JStr []) with
  | inl e, _ | _, inl e => (st, Raise e)
  | inr word_type, inr entry =>
      if negb (truthy entry) then (st, error_response ⟪"No entry provided"⟫ 400) else
      let d := load_dictionary st in
      match subscript d word_type with
      | inl e => (st, Raise e)
      | inr l =>
          if py_in entry l then
            (st, jsonify (JObj [(⟪"success"⟫, JBool true); (⟪"dictionary"⟫, dictionary_json d)]))
          else
            let d' := match word_type with JStr k => append_entry d k entry | _ => d end in
            (mkStore (documents st) (Some d'),
             jsonify (JObj [(⟪"success"⟫, JBool true); (⟪"dictionary"⟫, dictionary_json d')]))
      end
  end.

(** ** Runs of requests *)

Inductive Request :=
| SaveDocument (now1 now2 : DateTime) (data : json)
| DictionaryGet
| DictionaryPost (data : json).

Section run.
Context {DB : UnicodeDB}.

Definition handle (st : Store) (r : Request) : Store * Outcome :=
  match r with
  | SaveDocument now1 now2 data => save_document st now1 now2 data
  | DictionaryGet => dictionary_get st
  | DictionaryPost data => dictionary_post st data
  end.

(** The states a sequence of requests reaches from an empty directory. *)
Inductive reachable : Store -> Prop :=
| reachable_empty : reachable empty_store
| reachable_step st r : reachable st -> reachable (handle st r).1.
End run.
(** ** Python equality is reflexive on JSON values *)

(** Induction on JSON values through their lists. *)
Section json_ind.
Variable P : json -> Prop.
Hypothesis HNull : P JNull.
Hypothesis HBool : forall b, P (JBool b).
Hypothesis HNum : forall z, P (JNum z).
Hypothesis HStr : forall s, P (JStr s).
Hypothesis HArr : forall l, Forall P l -> P (JArr l).
Hypothesis HObj : forall f, Forall (fun kv => P kv.2) f -> P (JObj f).

Fixpoint json_ind' (v : json) : P v :=
  match v with
  | JNull => HNull
  | JBool b => HBool b
  | JNum z => HNum z
  | JStr s => HStr s
  | JArr l => HArr l ((fix go (l : list json) : Forall P l :=
                         match l with
                         | [] => @List.Forall_nil json P
                         | x :: r => @List.Forall_cons json P x r (json_ind' x) (go r)
                         end) l)
  | JObj f => HObj f ((fix go (f : list (pystr * json)) : Forall (fun kv => P kv.2) f :=
                         match f with
                         | [] => @List.Forall_nil (pystr * json) (fun kv => P kv.2)
                         | kv :: r => @List.Forall_cons (pystr * json) (fun kv => P kv.2) kv r (json_ind' kv.2) (go r)
                         end) f)
  end.
End json_ind.

(** The last field named [k] of [pre ++ (k, v) :: r] is [v] when [r]
    has no field of that name. *)
Lemma lookup_field_last (pre r : list (pystr * json)) k v :
  existsb (fun kv => bool_decide (kv.1 = k)) r = false ->
  lookup_field (pre ++ (k, v) :: r) k = Some v.
Proof.
  intros Hr. unfold lookup_field. rewrite rev_app_distr. simpl.
  rewrite <-app_assoc. simpl.
  rewrite find_app_None by (by apply find_None_existsb; rewrite existsb_rev).
  simpl. by rewrite bool_decide_eq_true_2.
Qed.

Lemma py_eq_refl (v : json) : py_eq v v = true.
Proof.
  induction v as [| b | z | s | l IH | f IH] using json_ind'; simpl.
  - done.
  - by rewrite Z.eqb_refl.
  - by rewrite Z.eqb_refl.
  - by rewrite bool_decide_eq_true_2.
  - induction IH as [|x l Hx _ IHl]; [done|]. by rewrite Hx, IHl.
  - rewrite Nat.eqb_refl. simpl.
    change f with ([] ++ f) at 1. generalize (@nil (pystr * json)) as pre.
    induction IH as [|[k v] r Hv _ IHr]; intros pre; [done|]. simpl.
    apply andb_true_iff. split.
    + destruct (existsb _ r) eqn:Er; [done|].
      rewrite lookup_field_last by done. exact Hv.
    + rewrite cons_middle, app_assoc. apply IHr.
Qed.

(** ** Zero-padded decimal digits *)

Lemma length_digits n k : length (digits n k) = n.
Proof.
  revert k. induction n as [|n IH]; intros k; simpl; [done|].
  rewrite length_app, IH. simpl. lia.
Qed.

(** Distinct numbers below [10^n] have distinct [n] digits. *)
Lemma digits_inj n a b : a < 10 ^ n -> b < 10 ^ n -> digits n a = digits n b -> a = b.
Proof.
  revert a b. induction n as [|n IH]; intros a b Ha Hb E; [simpl in *; lia|].
  rewrite Nat.pow_succ_r' in Ha, Hb. cbn [digits] in E.
  apply app_inj_2 in E as [E1 E2]; [|done].
  apply IH in E1; [| apply Nat.Div0.div_lt_upper_bound; lia
                   | apply Nat.Div0.div_lt_upper_bound; lia].
  assert (N.of_nat (48 + a mod 10) = N.of_nat (48 + b mod 10)) as E3 by congruence.
  apply Nat2N.inj in E3.
  rewrite (Nat.div_mod_eq a 10), (Nat.div_mod_eq b 10). lia.
Qed.

(** ** The dictionary file *)

(** No two entries of a list are equal, the earlier compared with the
    later as [in] compares them. *)
Definition no_py_dups (l : list json) : Prop :=
  forall i j x y, i < j -> l !! i = Some x -> l !! j = Some y -> py_eq x y = false.

Lemma no_py_dups_nil : no_py_dups [].
Proof. intros i j x y _ Hx. done. Qed.

Lemma no_py_dups_snoc l e : no_py_dups l -> py_in e l = false -> no_py_dups (l ++ [e]).
Proof.
  intros Hl He i j x y Hij Hx Hy. unfold py_in in He.
  pose proof (lookup_lt_Some _ _ _ Hy) as Hj. rewrite length_app in Hj. simpl in Hj.
  rewrite lookup_app_l in Hx by (apply lookup_lt_Some in Hx; rewrite length_app in Hx; simpl in Hx; lia).
  destruct (decide (j < length l)) as [Hjl|Hjl].
  - rewrite lookup_app_l in Hy by done. by apply (Hl i j).
  - rewrite lookup_app_r in Hy by lia. replace (j - length l) with 0 in Hy by lia.
    simpl in Hy. simplify_eq.
    destruct (py_eq x y) eqn:E; [|done].
    rewrite <-He. symmetry. apply existsb_exists. exists x.
    split; [apply list_elem_of_In; by eapply list_elem_of_lookup_2|done].
Qed.

Lemma subscript_str d k l : subscript d (JStr k) = inr l <-> List.find (key_is k) d = Some (k, l).
Proof.
  simpl. split.
  - destruct (List.find _ d) as [[k' l']|] eqn:E; [|done]. intros [= ->].
    by apply find_key_Some in E as [_ E]; simpl in E; subst.
  - by intros ->.
Qed.

Lemma map_fst_append_entry d k e : map fst (append_entry d k e) = map fst d.
Proof.
  induction d as [|[k' l] d IH]; [done|]. simpl.
  case_bool_decide; simpl; by rewrite ?IH.
Qed.

Lemma append_entry_no_dups d k l e :
  Forall (fun kl => no_py_dups kl.2) d -> List.find (key_is k) d = Some (k, l) ->
  py_in e l = false -> Forall (fun kl => no_py_dups kl.2) (append_entry d k e).
Proof.
  induction d as [|[k' l'] d IH]; intros Hd Hk He; [done|].
  inversion Hd as [|? ? Hl' Hd']; subst. simpl in *. unfold key_is at 1 in Hk. simpl in Hk.
  case_bool_decide as Ek; simplify_eq.
  - constructor; [by apply no_py_dups_snoc|done].
  - constructor; [done|by apply IH].
Qed.

(** The first list of name [k] after appending [e] to it. *)
Lemma append_entry_find d k l e :
  List.find (key_is k) d = Some (k, l) ->
  List.find (key_is k) (append_entry d k e) = Some (k, l ++ [e]).
Proof.
  induction d as [|[k' l'] d IH]; intros Hk; [done|]. simpl in *.
  unfold key_is at 1 in Hk. simpl in Hk. case_bool_decide as Ek; simplify_eq.
  - simpl. unfold key_is at 1. simpl. by rewrite bool_decide_eq_true_2.
  - simpl. unfold key_is at 1. simpl. rewrite bool_decide_eq_false_2 by done. by apply IH.
Qed.

Definition dict_no_dups (st : Store) : Prop :=
  Forall (fun kl => no_py_dups kl.2) (load_dictionary st).

Definition dict_keys (st : Store) : Prop :=
  map fst (load_dictionary st) = [⟪"words"⟫; ⟪"phrases"⟫].

(** What a POST does to the store: nothing, or the append. *)
Lemma dictionary_post_cases st data :
  (dictionary_post st data).1 = st \/
  exists k e l, subscript (load_dictionary st) (JStr k) = inr l /\ py_in e l = false /\
    truthy e = true /\
    get data ⟪"type"⟫ (JStr ⟪"words"⟫) = inr (JStr k) /\
    get data ⟪"entry"⟫ (JStr []) = inr e /\
    (dictionary_post st data).1 = mkStore (documents st) (Some (append_entry (load_dictionary st) k e)).
Proof.
  unfold dictionary_post.
  destruct (get data ⟪"type"⟫ _) as [|wt], (get data ⟪"entry"⟫ _) as [|e]; auto.
  destruct (truthy e) eqn:Ht; [simpl|auto].
  destruct (subscript _ wt) as [|l] eqn:Hs; [auto|].
  destruct (py_in e l) eqn:Hin; [auto|]. right.
  destruct wt; try done. by exists s, e, l.
Qed.

Lemma save_document_dictionary `{UnicodeDB} st now1 now2 data :
  dictionary_file (save_document st now1 now2 data).1 = dictionary_file st.
Proof.
  unfold save_document. repeat case_match; done.
Qed.

Lemma handle_dictionary `{UnicodeDB} st r :
  dictionary_file (handle st r).1 = dictionary_file st \/
  exists k e l, subscript (load_dictionary st) (JStr k) = inr l /\ py_in e l = false /\
    truthy e = true /\
    dictionary_file (handle st r).1 = Some (append_entry (load_dictionary st) k e).
Proof.
  destruct r as [n1 n2 data| |data]; simpl.
  - left. apply save_document_dictionary.
  - by left.
  - destruct (dictionary_post_cases st data) as [->|(k & e & l & Hs & He & Ht & _ & _ & ->)];
      [by left|].
    right. by exists k, e, l.
Qed.

Lemma load_append st d : dictionary_file st = Some d -> load_dictionary st = d.
Proof. unfold load_dictionary. by intros ->. Qed.

Lemma reachable_dict_keys `{UnicodeDB} st : reachable st -> dict_keys st.
Proof.
  induction 1 as [|st r _ IH]; [done|].
  unfold dict_keys in *. destruct (handle_dictionary st r) as [E|(k & e & l & _ & _ & _ & E)].
  - unfold load_dictionary in *. by rewrite E.
  - by rewrite (load_append _ _ E), map_fst_append_entry.
Qed.

(** Every entry of the dictionary is truthy ([if not entry] guards the append). *)
Definition dict_truthy (st : Store) : Prop :=
  Forall (fun kl => Forall (fun e => truthy e = true) kl.2) (load_dictionary st).

Lemma append_entry_forall (P : json -> Prop) d k e :
  Forall (fun kl => Forall P kl.2) d -> P e -> Forall (fun kl => Forall P kl.2) (append_entry d k e).
Proof.
  induction d as [|[k' l] d IH]; intros Hd He; [done|].
  inversion Hd as [|? ? Hl Hd']; subst. simpl.
  case_bool_decide; constructor; simpl; auto. apply Forall_app. by split; [|constructor].
Qed.

Lemma reachable_dict_truthy `{UnicodeDB} st : reachable st -> dict_truthy st.
Proof.
  induction 1 as [|st r _ IH]; [by repeat constructor|].
  unfold dict_truthy in *. destruct (handle_dictionary st r) as [E|(k & e & l & _ & _ & He & E)].
  - unfold load_dictionary in *. by rewrite E.
  - rewrite (load_append _ _ E). by apply append_entry_forall.
Qed.

(** [entry in dictionary[k]], as the next GET answers it. *)
Definition in_dict (st : Store) (k : pystr) (e : json) : Prop :=
  exists l, subscript (load_dictionary st) (JStr k) = inr l /\ py_in e l = true.

Lemma py_in_snoc e l x : py_in e l = true -> py_in e (l ++ [x]) = true.
Proof. unfold py_in. rewrite existsb_app. by intros ->. Qed.

(** An entry just appended is [in] the list. *)
Lemma py_in_last e l : py_in e (l ++ [e]) = true.
Proof. unfold py_in. rewrite existsb_app. simpl. by rewrite py_eq_refl, orb_true_r. Qed.

(** Appending to any list keeps every entry of every list. *)
Lemma append_entry_keeps d k l e k' e' :
  List.find (key_is k) d = Some (k, l) -> py_in e l = true ->
  exists l', List.find (key_is k) (append_entry d k' e') = Some (k, l') /\ py_in e l' = true.
Proof.
  induction d as [|[k0 l0] d IH]; intros Hk He; [done|]. simpl in *.
  unfold key_is at 1 in Hk. simpl in Hk. case_bool_decide as E0; simplify_eq.
  - case_bool_decide; simpl; unfold key_is at 1; simpl; rewrite bool_decide_eq_true_2 by done;
      eexists; split; [reflexivity| |reflexivity|]; auto using py_in_snoc.
  - case_bool_decide; simpl; unfold key_is at 1; simpl; rewrite bool_decide_eq_false_2 by done;
      [by exists l|by apply IH].
Qed.

Lemma handle_keeps `{UnicodeDB} st r k e : in_dict st k e -> in_dict (handle st r).1 k e.
Proof.
  intros (l & Hs & He). unfold in_dict. destruct (handle_dictionary st r) as [E|(k' & e' & l' & _ & _ & _ & E)].
  - exists l. unfold load_dictionary in *. by rewrite E.
  - rewrite (load_append _ _ E). apply subscript_str in Hs.
    destruct (append_entry_keeps _ _ _ _ k' e' Hs He) as (l2 & H2 & He2).
    exists l2. by rewrite subscript_str.
Qed.

(** ** The saved documents *)

(** A file of the directory as a client reads it back: its name is
    built from its [id] field, and its counts are those of its content. *)
Section documents.
Context {DB : UnicodeDB}.

Definition doc_ok (fname : pystr) (doc : json) : Prop :=
  exists fields id c, doc = JObj fields /\
    fname = ⟪"document_"⟫ ++ id ++ ⟪".json"⟫ /\
    lookup_field fields ⟪"id"⟫ = Some (JStr id) /\
    lookup_field fields ⟪"content"⟫ = Some (JStr c) /\
    lookup_field fields ⟪"word_count"⟫ = Some (JNum (Z.of_nat (length (py_split c)))) /\
    lookup_field fields ⟪"character_count"⟫ = Some (JNum (Z.of_nat (length c))).
End documents.

Lemma save_document_docs `{UnicodeDB} st now1 now2 data :
  map_Forall doc_ok (documents st) ->
  map_Forall doc_ok (documents (save_document st now1 now2 data).1).
Proof.
  intros Hd. unfold save_document.
  destruct (get data ⟪"title"⟫ (JStr ⟪"Documento senza titolo"⟫)),
    (get data ⟪"content"⟫ (JStr [])) as [|[| | | c| |]],
    (get data ⟪"template"⟫ (JStr ⟪"custom"⟫)); try done.
  cbn -[insert strftime_id isoformat lit py_split]. apply map_Forall_insert_2; [|done].
  eexists _, (strftime_id now1), c. split; [reflexivity|]. split; [reflexivity|].
  repeat split; reflexivity.
Qed.

Lemma handle_docs `{UnicodeDB} st r :
  map_Forall doc_ok (documents st) -> map_Forall doc_ok (documents (handle st r).1).
Proof.
  intros Hd. destruct r as [n1 n2 data| |data]; simpl; [by apply save_document_docs|done|].
  by destruct (dictionary_post_cases st data) as [->|(k & e & l & _ & _ & _ & _ & _ & ->)].
Qed.

(** ** Properties of the store *)

Section store_theorems.
Context {DB : UnicodeDB}.

(** C24: in every state a run of requests reaches, no list of the
    dictionary file holds two equal entries. *)
Theorem reachable_no_duplicates st : reachable st -> dict_no_dups st.
Proof.
  unfold dict_no_dups. induction 1 as [|st r _ IH].
  - repeat constructor; apply no_py_dups_nil.
  - destruct (handle_dictionary st r) as [E|(k & e & l & Hs & He & _ & E)].
    + unfold load_dictionary in *. by rewrite E.
    + rewrite (load_append _ _ E). apply subscript_str in Hs.
      by apply (append_entry_no_dups _ _ l).
Qed.


(** C26: POST is idempotent: repeating a request leaves the store as
    the first one left it (an entry already in its list is not added
    again). *)
Theorem dictionary_post_idempotent st data :
  (dictionary_post (dictionary_post st data).1 data).1 = (dictionary_post st data).1.
Proof.
  destruct (dictionary_post_cases st data) as [E|(k & e & l & Hs & He & _ & Ht & Hen & E)].
  - by rewrite E, E.
  - rewrite E. unfold dictionary_post at 1. rewrite Ht, Hen.
    destruct (negb (truthy e)); [done|]. unfold load_dictionary at 1. simpl.
    apply subscript_str in Hs. rewrite (append_entry_find _ _ _ _ Hs). simpl.
    by rewrite py_in_last.
Qed.

(** C27: two saves whose first clock readings fall in the same second
    write the same file: the second overwrites the first, and the store
    is as if the first save had never happened. *)
Theorem save_document_same_second st t1 t1' t2 t2' d d' c c' :
  strftime_id t1 = strftime_id t2 ->
  get d ⟪"content"⟫ (JStr []) = inr (JStr c) ->
  get d' ⟪"content"⟫ (JStr []) = inr (JStr c') ->
  (save_document (save_document st t1 t1' d).1 t2 t2' d').1 = (save_document st t2 t2' d').1.
Proof.
  intros Hid Hc Hc'.
  destruct d as [| | | | |f]; try done. destruct d' as [| | | | |f']; try done.
  unfold save_document. cbn [get] in *. injection Hc as Hc. injection Hc' as Hc'.
  rewrite Hc, Hc'. cbn -[insert strftime_id isoformat]. rewrite Hid. f_equal.
  apply insert_insert_eq.
Qed.

(** Clock readings [strftime] prints in full. *)
Definition valid_time (t : DateTime) : Prop :=
  year t < 10 ^ 4 /\ month t < 10 ^ 2 /\ day t < 10 ^ 2 /\ hour t < 10 ^ 2 /\
  minute t < 10 ^ 2 /\ second t < 10 ^ 2.

(** C28: the document id determines the second it was taken at: two
    valid clock readings give the same id only when they agree up to the
    second, so documents overwrite each other exactly within a second. *)
Theorem strftime_id_inj t1 t2 :
  valid_time t1 -> valid_time t2 -> strftime_id t1 = strftime_id t2 ->
  year t1 = year t2 /\ month t1 = month t2 /\ day t1 = day t2 /\
  hour t1 = hour t2 /\ minute t1 = minute t2 /\ second t1 = second t2.
Proof.
  intros V1 V2 E. unfold strftime_id in E.
  repeat match type of E with
         | digits ?n _ ++ _ = digits ?n _ ++ _ =>
             apply app_inj_1 in E as [? E]; [|by rewrite !length_digits]
         | ⟪"_"⟫ ++ _ = ⟪"_"⟫ ++ _ => apply app_inv_head in E
         end.
  destruct V1 as (? & ? & ? & ? & ? & ?), V2 as (? & ? & ? & ? & ? & ?).
  repeat match goal with
         | H : digits ?n ?a = digits ?n ?b |- _ =>
             apply digits_inj in H; [|assumption|assumption]
         end.
  repeat split; assumption.
Qed.

(** C37: the dictionary a successful POST answers is the one the next
    GET answers: the answer and the file agree, whether the entry was
    added or already there. *)
Theorem dictionary_post_get_agree st data d :
  (dictionary_post st data).2 = jsonify (JObj [(⟪"success"⟫, JBool true); (⟪"dictionary"⟫, d)]) ->
  (dictionary_get (dictionary_post st data).1).2 = jsonify d.
Proof.
  unfold dictionary_post.
  destruct (get data ⟪"type"⟫ (JStr ⟪"words"⟫)) as [|wt], (get data ⟪"entry"⟫ (JStr [])) as [|e];
    try discriminate.
  destruct (negb (truthy e)); [discriminate|].
  destruct (subscript _ wt) as [|l]; [discriminate|].
  unfold jsonify. destruct (py_in e l); intros [= <-]; done.
Qed.

End store_theorems.

Lemma reachable_no_duplicates_witness :
  reachable (dictionary_post empty_store (JObj [(⟪"entry"⟫, JStr ⟪"ciao"⟫)])).1 /\
  dict_no_dups (dictionary_post empty_store (JObj [(⟪"entry"⟫, JStr ⟪"ciao"⟫)])).1.
Proof.
  assert (H : reachable (dictionary_post empty_store (JObj [(⟪"entry"⟫, JStr ⟪"ciao"⟫)])).1)
    by exact (reachable_step empty_store (DictionaryPost (JObj [(⟪"entry"⟫, JStr ⟪"ciao"⟫)])) reachable_empty).
  split; [exact H|]. exact (reachable_no_duplicates _ H).
Defined.


Definition noon : DateTime := mkDateTime 2024 5 17 12 0 0 0.
Definition noon_later : DateTime := mkDateTime 2024 5 17 12 0 0 640.

Lemma save_document_same_second_witness :
  strftime_id noon = strftime_id noon_later /\
  get (JObj [(⟪"content"⟫, JStr ⟪"prima"⟫)]) ⟪"content"⟫ (JStr []) = inr (JStr ⟪"prima"⟫) /\
  get (JObj [(⟪"content"⟫, JStr ⟪"seconda"⟫)]) ⟪"content"⟫ (JStr []) = inr (JStr ⟪"seconda"⟫) /\
  (save_document (save_document empty_store noon noon (JObj [(⟪"content"⟫, JStr ⟪"prima"⟫)])).1
     noon_later noon_later (JObj [(⟪"content"⟫, JStr ⟪"seconda"⟫)])).1
  = (save_document empty_store noon_later noon_later (JObj [(⟪"content"⟫, JStr ⟪"seconda"⟫)])).1.
Proof.
  assert (H1 : strftime_id noon = strftime_id noon_later) by reflexivity.
  assert (H2 : get (JObj [(⟪"content"⟫, JStr ⟪"prima"⟫)]) ⟪"content"⟫ (JStr [])
               = inr (JStr ⟪"prima"⟫)) by reflexivity.
  assert (H3 : get (JObj [(⟪"content"⟫, JStr ⟪"seconda"⟫)]) ⟪"content"⟫ (JStr [])
               = inr (JStr ⟪"seconda"⟫)) by reflexivity.
  do 3 (split; [assumption|]).
  exact (save_document_same_second _ _ _ _ _ _ _ _ _ H1 H2 H3).
Defined.

Lemma strftime_id_inj_witness :
  valid_time noon /\ valid_time noon_later /\ strftime_id noon = strftime_id noon_later /\
  year noon = year noon_later /\ month noon = month noon_later /\ day noon = day noon_later /\
  hour noon = hour noon_later /\ minute noon = minute noon_later /\ second noon = second noon_later.
Proof.
  assert (H1 : valid_time noon) by (repeat split; simpl; lia).
  assert (H2 : valid_time noon_later) by (repeat split; simpl; lia).
  assert (H3 : strftime_id noon = strftime_id noon_later) by reflexivity.
  do 3 (split; [assumption|]).
  exact (strftime_id_inj _ _ H1 H2 H3).
Defined.
Definition ciao_request : json := JObj [(⟪"type"⟫, JStr ⟪"words"⟫); (⟪"entry"⟫, JStr ⟪"ciao"⟫)].


Lemma dictionary_post_get_agree_witness :
  let d := JObj [(⟪"words"⟫, JArr [JStr ⟪"ciao"⟫]); (⟪"phrases"⟫, JArr [])] in
  (dictionary_post empty_store ciao_request).2 =
    jsonify (JObj [(⟪"success"⟫, JBool true); (⟪"dictionary"⟫, d)]) /\
  (dictionary_get (dictionary_post empty_store ciao_request).1).2 = jsonify d.
Proof.
  intros d. assert (H : (dictionary_post empty_store ciao_request).2 =
    jsonify (JObj [(⟪"success"⟫, JBool true); (⟪"dictionary"⟫, d)])) by reflexivity.
  split; [exact H|]. exact (dictionary_post_get_agree _ _ _ H).
Defined.

Definition lettera_request : json :=
  JObj [(⟪"title"⟫, JStr ⟪"Lettera"⟫); (⟪"content"⟫, JStr ⟪"Gentile Signore,"⟫)].

End Store.
